(** * PH_Viz: spatial index, culling and GPU upload decisions

    A shallow embedding of the geometric and resource-management core of the
    viewer (namespace [Graphics]): the bounding-volume math of
    [RenderUtils.hpp], the octree of [SpatialIndex.cpp], the model loader and
    uploader of [Model.cpp], the occlusion helper of [OcclusionCuller.cpp] and
    the per-frame decision layer of [Scene.cpp].

    Conventions.
    - [float] is IEEE-754 binary32, taken from the standard library's
      executable specification [SpecFloat] at precision 24 and [emax] 128;
      every arithmetic operation rounds to nearest-even, once per operation.
    - [unsigned int] is [N] with the wrap-around at 2^32 written out where the
      source increments a value.
    - OpenGL is an effect: a function that talks to the driver returns the
      list of calls it issues, in order. *)

From Stdlib Require Import String.
From Stdlib Require Import List ZArith NArith Bool Lia Permutation.
From Stdlib Require Import Floats.SpecFloat.
Import ListNotations.

Set Implicit Arguments.

(* ================================================================== *)
(** * Machine numbers *)

Definition UINT_WRAP : N := 4294967296.

(** [++] on an [unsigned int]. *)
Definition uint_succ (n : N) : N := ((n + 1) mod UINT_WRAP)%N.

(** [static_cast<uint16_t>] of an [unsigned int]. *)
Definition to_uint16 (n : N) : N := (n mod 65536)%N.

Module F32.

Definition prec : Z := 24.
Definition emax : Z := 128.

Definition float : Type := spec_float.

Definition add : float -> float -> float := SFadd prec emax.
Definition sub : float -> float -> float := SFsub prec emax.
Definition mul : float -> float -> float := SFmul prec emax.
Definition div : float -> float -> float := SFdiv prec emax.
Definition sqrt : float -> float := SFsqrt prec emax.
Definition opp : float -> float := SFopp.

(** The four ordered comparisons of C++; each is false when an operand is
    NaN. *)
Definition ltb (a b : float) : bool := SFltb a b.
Definition leb (a b : float) : bool := SFleb a b.
Definition gtb (a b : float) : bool := SFltb b a.
Definition geb (a b : float) : bool := SFleb b a.

(** A literal [m * 2^e], rounded to binary32. *)
Definition lit (m e : Z) : float := binary_normalize prec emax m e false.

Definition zero : float := S754_zero false.
Definition one : float := Eval vm_compute in lit 1 0.
Definition half : float := Eval vm_compute in lit 1 (-1).
(** [0.01f], bit pattern 0x3C23D70A. *)
Definition one_hundredth : float := Eval vm_compute in lit 10737418 (-30).
(** [std::numeric_limits<float>::max()]. *)
Definition max_float : float := Eval vm_compute in SFmax_float prec emax.
Definition infinity : float := S754_infinity false.

(** [std::min] and [std::max] as the standard defines them. *)
Definition std_min (a b : float) : float := if ltb b a then b else a.
Definition std_max (a b : float) : float := if ltb a b then b else a.

(** The 32 bits that [memcpy] reads from a float. The sign and payload of a
    NaN are not tracked; the default quiet NaN stands for all of them. *)
Definition sign_bit (s : bool) : N := if s then 2147483648%N else 0%N.

Definition bits (f : float) : N :=
  match f with
  | S754_zero s => sign_bit s
  | S754_infinity s => (sign_bit s + 2139095040)%N
  | S754_nan => 2143289344%N
  | S754_finite s m e =>
      if (8388608 <=? Npos m)%N
      then (sign_bit s + N.shiftl (Z.to_N (e + 150)) 23 + (Npos m - 8388608))%N
      else (sign_bit s + Npos m)%N
  end.

End F32.

(** The arithmetic is never unfolded by simplification; it is evaluated on
    concrete operands only. *)
Arguments F32.add : simpl never.
Arguments F32.sub : simpl never.
Arguments F32.mul : simpl never.
Arguments F32.div : simpl never.
Arguments F32.sqrt : simpl never.
Arguments F32.ltb : simpl never.
Arguments F32.leb : simpl never.
Arguments F32.gtb : simpl never.
Arguments F32.geb : simpl never.
Arguments F32.std_min : simpl never.
Arguments F32.std_max : simpl never.
Arguments F32.bits : simpl never.

Abbreviation float := F32.float.

(* ================================================================== *)
(** * The parts of glm the viewer uses *)

Module glm.

Record vec2 := mkVec2 { v2x : float; v2y : float }.
Record vec3 := mkVec3 { v3x : float; v3y : float; v3z : float }.
Record vec4 := mkVec4 { v4x : float; v4y : float; v4z : float; v4w : float }.

(** Column-major: [m[c][r]] is row [r] of column [c]. *)
Record mat4 := mkMat4 { col0 : vec4; col1 : vec4; col2 : vec4; col3 : vec4 }.

(** [glm::vec3(s)]. *)
Definition splat3 (s : float) : vec3 := mkVec3 s s s.

(** [glm::vec3(v)] of a [vec4], and [glm::vec4(v, w)]. *)
Definition xyz (v : vec4) : vec3 := mkVec3 (v4x v) (v4y v) (v4z v).
Definition with_w (v : vec3) (w : float) : vec4 := mkVec4 (v3x v) (v3y v) (v3z v) w.

Definition add3 (a b : vec3) : vec3 :=
  mkVec3 (F32.add (v3x a) (v3x b)) (F32.add (v3y a) (v3y b)) (F32.add (v3z a) (v3z b)).
Definition sub3 (a b : vec3) : vec3 :=
  mkVec3 (F32.sub (v3x a) (v3x b)) (F32.sub (v3y a) (v3y b)) (F32.sub (v3z a) (v3z b)).
Definition mul3 (a b : vec3) : vec3 :=
  mkVec3 (F32.mul (v3x a) (v3x b)) (F32.mul (v3y a) (v3y b)) (F32.mul (v3z a) (v3z b)).
(** [s * v]. *)
Definition scale3 (s : float) (v : vec3) : vec3 :=
  mkVec3 (F32.mul s (v3x v)) (F32.mul s (v3y v)) (F32.mul s (v3z v)).

Definition add4 (a b : vec4) : vec4 :=
  mkVec4 (F32.add (v4x a) (v4x b)) (F32.add (v4y a) (v4y b))
         (F32.add (v4z a) (v4z b)) (F32.add (v4w a) (v4w b)).
(** [v * s] for a column of a matrix. *)
Definition scale4 (v : vec4) (s : float) : vec4 :=
  mkVec4 (F32.mul (v4x v) s) (F32.mul (v4y v) s) (F32.mul (v4z v) s) (F32.mul (v4w v) s).
(** [v /= s]. *)
Definition div4 (v : vec4) (s : float) : vec4 :=
  mkVec4 (F32.div (v4x v) s) (F32.div (v4y v) s) (F32.div (v4z v) s) (F32.div (v4w v) s).

(** [glm::dot] on [vec3]: the products are summed left to right. *)
Definition dot (a b : vec3) : float :=
  let tmp := mul3 a b in
  F32.add (F32.add (v3x tmp) (v3y tmp)) (v3z tmp).

Definition length (v : vec3) : float := F32.sqrt (dot v v).

(** Component-wise [glm::min] and [glm::max]. *)
Definition min3 (a b : vec3) : vec3 :=
  mkVec3 (F32.std_min (v3x a) (v3x b)) (F32.std_min (v3y a) (v3y b))
         (F32.std_min (v3z a) (v3z b)).
Definition max3 (a b : vec3) : vec3 :=
  mkVec3 (F32.std_max (v3x a) (v3x b)) (F32.std_max (v3y a) (v3y b))
         (F32.std_max (v3z a) (v3z b)).

(** [m * v]: columns 0 and 1 are combined, then 2 and 3, then the sums. *)
Definition mulMV (m : mat4) (v : vec4) : vec4 :=
  let Add0 := add4 (scale4 (col0 m) (v4x v)) (scale4 (col1 m) (v4y v)) in
  let Add1 := add4 (scale4 (col2 m) (v4z v)) (scale4 (col3 m) (v4w v)) in
  add4 Add0 Add1.

(** [glm::mat4(1.0f)]. *)
Definition identity : mat4 :=
  mkMat4 (mkVec4 F32.one F32.zero F32.zero F32.zero)
         (mkVec4 F32.zero F32.one F32.zero F32.zero)
         (mkVec4 F32.zero F32.zero F32.one F32.zero)
         (mkVec4 F32.zero F32.zero F32.zero F32.one).

End glm.

Abbreviation vec2 := glm.vec2.
Abbreviation vec3 := glm.vec3.
Abbreviation vec4 := glm.vec4.
Abbreviation mat4 := glm.mat4.

(* ================================================================== *)
(** * Frustum (RenderUtils.hpp) *)

Module Frustum.
Import glm.

(** [mPlanes[6]]: left, right, bottom, top, near, far. *)
Record t := mk { mPlanes : list vec4 }.

(** The normalisation loop at the end of [extractFromMatrix]. *)
Definition normalizePlane (plane : vec4) : vec4 :=
  let length := glm.length (xyz plane) in
  if F32.gtb length F32.zero then div4 plane length else plane.

Definition extractFromMatrix (viewProj : mat4) : t :=
  let c0 := col0 viewProj in
  let c1 := col1 viewProj in
  let c2 := col2 viewProj in
  let c3 := col3 viewProj in
  let plus (f : vec4 -> float) :=
    mkVec4 (F32.add (v4w c0) (f c0)) (F32.add (v4w c1) (f c1))
           (F32.add (v4w c2) (f c2)) (F32.add (v4w c3) (f c3)) in
  let minus (f : vec4 -> float) :=
    mkVec4 (F32.sub (v4w c0) (f c0)) (F32.sub (v4w c1) (f c1))
           (F32.sub (v4w c2) (f c2)) (F32.sub (v4w c3) (f c3)) in
  mk (map normalizePlane
        [ plus v4x; minus v4x; plus v4y; minus v4y; plus v4z; minus v4z ]).

(** The corner of the box furthest along the plane's normal. *)
Definition positiveVertex (normal min max : vec3) : vec3 :=
  mkVec3 (if F32.gtb (v3x normal) F32.zero then v3x max else v3x min)
         (if F32.gtb (v3y normal) F32.zero then v3y max else v3y min)
         (if F32.gtb (v3z normal) F32.zero then v3z max else v3z min).

(** [glm::dot(normal, v) + plane.w]. *)
Definition signedDistance (plane : vec4) (v : vec3) : float :=
  F32.add (dot (xyz plane) v) (v4w plane).

(** The body of the loop of [intersectsAABB] for one plane: true when the
    loop returns false there. *)
Definition culledBy (min max : vec3) (plane : vec4) : bool :=
  let normal := xyz plane in
  let distance := signedDistance plane (positiveVertex normal min max) in
  F32.ltb distance F32.zero.

Fixpoint intersectsAABB_loop (planes : list vec4) (min max : vec3) : bool :=
  match planes with
  | [] => true
  | plane :: rest =>
      if culledBy min max plane then false else intersectsAABB_loop rest min max
  end.

Definition intersectsAABB (f : t) (min max : vec3) : bool :=
  intersectsAABB_loop (mPlanes f) min max.

(** The eight corners in the order of [intersectsTransformedAABB]. *)
Definition corners (min max : vec3) : list vec3 :=
  [ mkVec3 (v3x min) (v3y min) (v3z min); mkVec3 (v3x max) (v3y min) (v3z min);
    mkVec3 (v3x min) (v3y max) (v3z min); mkVec3 (v3x max) (v3y max) (v3z min);
    mkVec3 (v3x min) (v3y min) (v3z max); mkVec3 (v3x max) (v3y min) (v3z max);
    mkVec3 (v3x min) (v3y max) (v3z max); mkVec3 (v3x max) (v3y max) (v3z max) ].

Definition intersectsTransformedAABB (f : t) (min max : vec3) (modelMatrix : mat4) : bool :=
  let world := map (fun c => xyz (mulMV modelMatrix (with_w c F32.one))) (corners min max) in
  match world with
  | [] => true
  | c0 :: rest =>
      let tMin := fold_left min3 rest c0 in
      let tMax := fold_left max3 rest c0 in
      intersectsAABB f tMin tMax
  end.

End Frustum.

(** Degenerate input of the frustum test. *)
Module FrustumShape.
Import glm.

(** A float that is a zero of either sign, or NaN. *)
Inductive zeroOrNaN : float -> Prop :=
| isZero : forall s, zeroOrNaN (S754_zero s)
| isNaN : zeroOrNaN S754_nan.

Definition zero4 : vec4 := mkVec4 F32.zero F32.zero F32.zero F32.zero.
Definition zeroMatrix : mat4 := mkMat4 zero4 zero4 zero4 zero4.
Definition nan3 : vec3 := splat3 S754_nan.

End FrustumShape.

(* ================================================================== *)
(** * Results of code that can go wrong *)

(** A loop that never exits and an index past the end of a vector are kept
    apart from a value. *)
Inductive outcome (A : Type) : Type :=
| Done (a : A)
| Diverges
| OutOfRange.

Arguments Done {A} a.
Arguments Diverges {A}.
Arguments OutOfRange {A}.

Definition bind {A B : Type} (m : outcome A) (k : A -> outcome B) : outcome B :=
  match m with
  | Done a => k a
  | Diverges => Diverges
  | OutOfRange => OutOfRange
  end.

Notation "x <- m ;; k" := (bind m (fun x => k))
  (at level 61, m at next level, right associativity).
Notation "' p <- m ;; k" := (bind m (fun p => k))
  (at level 61, p pattern, m at next level, right associativity).

(** A loop over a vector whose body threads a state and may fail. *)
Fixpoint forEach {A B S : Type} (body : A -> S -> outcome (B * S))
         (l : list A) (s : S) : outcome (list B * S) :=
  match l with
  | [] => Done ([], s)
  | a :: rest =>
      '(b, s1) <- body a s ;;
      '(bs, s2) <- forEach body rest s1 ;;
      Done (b :: bs, s2)
  end.

(* ================================================================== *)
(** * Octree (SpatialIndex.hpp, SpatialIndex.cpp) *)

Module Octree.
Import glm.

Record Point := mkPoint { position : vec3; index : N }.

(** [children] is the array of eight owning pointers; [None] is a null
    pointer. *)
#[warnings="-register-all"]
Inductive Node : Type :=
  mkNode { min : vec3;
           max : vec3;
           pointIndices : list N;
           children : list (option Node);
           level : N;
           isLeaf : bool }.

Definition center (n : Node) : vec3 := scale3 F32.half (add3 (min n) (max n)).
Definition size (n : Node) : vec3 := sub3 (max n) (min n).
Definition maxDim (n : Node) : float :=
  let s := size n in
  F32.std_max (v3x s) (F32.std_max (v3y s) (v3z s)).

(** A node as [std::make_unique<Node>()] leaves it, with the box and level
    the caller assigns. *)
Definition newNode (mn mx : vec3) (lv : N) : Node :=
  mkNode mn mx [] (repeat None 8) lv true.

(** The octree object: the root pointer and the two statistics. *)
Record t := mk { mRoot : option Node; mNodeCount : N; mMaxDepth : N }.

(** The two counters that [buildRecursive] updates through [this]. *)
Record Stats := mkStats { nodeCount : N; maxDepthSeen : N }.

Definition getChildIndex (point center : vec3) : N :=
  let index := 0%N in
  let index := if F32.geb (v3x point) (v3x center) then N.lor index 1 else index in
  let index := if F32.geb (v3y point) (v3y center) then N.lor index 2 else index in
  let index := if F32.geb (v3z point) (v3z center) then N.lor index 4 else index in
  index.

(** [childIndices[childIdx].push_back(idx)]. *)
Fixpoint push_back_at (childIdx : nat) (idx : N) (buckets : list (list N))
  : list (list N) :=
  match buckets, childIdx with
  | [], _ => []
  | b :: rest, O => (b ++ [idx]) :: rest
  | b :: rest, S k => b :: push_back_at k idx rest
  end.

(** The loop that distributes the indices of a node over the octants. *)
Fixpoint distribute (points : list Point) (center : vec3) (indices : list N)
         (childIndices : list (list N)) : outcome (list (list N)) :=
  match indices with
  | [] => Done childIndices
  | idx :: rest =>
      match nth_error points (N.to_nat idx) with
      | None => OutOfRange
      | Some p =>
          let childIdx := getChildIndex (position p) center in
          let childIndices :=
            if (childIdx <? 8)%N
            then push_back_at (N.to_nat childIdx) idx childIndices
            else childIndices in
          distribute points center rest childIndices
      end
  end.

Definition childMin (node : Node) (center : vec3) (i : N) : vec3 :=
  mkVec3 (if N.testbit i 0 then v3x center else v3x (min node))
         (if N.testbit i 1 then v3y center else v3y (min node))
         (if N.testbit i 2 then v3z center else v3z (min node)).

Definition childMax (node : Node) (center : vec3) (i : N) : vec3 :=
  mkVec3 (if N.testbit i 0 then v3x (max node) else v3x center)
         (if N.testbit i 1 then v3y (max node) else v3y center)
         (if N.testbit i 2 then v3z (max node) else v3z center).

Definition isEmpty {A : Type} (l : list A) : bool :=
  match l with [] => true | _ => false end.

(** The final scan of [buildRecursive] over the eight slots. *)
Definition hasChildren (slots : list (option Node)) : bool :=
  existsb (fun c => match c with Some _ => true | None => false end) slots.

(** [buildRecursive]. The node arrives as its caller prepared it and is
    returned as the call leaves it. [fuel] bounds the depth of the
    recursion. *)
Fixpoint buildRecursive (fuel : nat) (node : Node) (points : list Point)
         (indices : list N) (maxPointsPerNode maxDepth : N) (st : Stats)
  : outcome (Node * Stats) :=
  match fuel with
  | O => Diverges
  | S fuel' =>
      let st := mkStats (uint_succ (nodeCount st)) (maxDepthSeen st) in
      if (N.of_nat (List.length indices) <=? maxPointsPerNode)%N
         || (maxDepth <=? level node)%N
      then
        Done (mkNode (min node) (max node) indices (children node) (level node) true,
              mkStats (nodeCount st) (N.max (maxDepthSeen st) (level node)))
      else
        let center := center node in
        childIndices <- distribute points center indices (repeat [] 8) ;;
        '(slots, st) <-
           forEach (fun (ib : N * list N) (st : Stats) =>
                      let '(i, bucket) := ib in
                      if isEmpty bucket then Done (None, st)
                      else
                        let child := newNode (childMin node center i)
                                             (childMax node center i)
                                             (uint_succ (level node)) in
                        '(child', st') <-
                           buildRecursive fuel' child points bucket
                                          maxPointsPerNode maxDepth st ;;
                        Done (Some child', st'))
                   (combine (map N.of_nat (seq 0 8)) childIndices) st ;;
        if hasChildren slots
        then Done (mkNode (min node) (max node) (pointIndices node) slots
                          (level node) false, st)
        else Done (mkNode (min node) (max node) indices slots (level node) true, st)
  end.

(** [build]. The loop that fills [allIndices] counts with an
    [unsigned int], so it exits only when the vector has fewer than 2^32
    elements. *)
Definition build (points : list Point) (mn mx : vec3)
           (maxPointsPerNode maxDepth : N) : outcome t :=
  if (UINT_WRAP <=? N.of_nat (List.length points))%N then Diverges
  else
    let root := newNode mn mx 0 in
    let allIndices := map N.of_nat (seq 0 (List.length points)) in
    '(root', st) <-
       buildRecursive (S (N.to_nat maxDepth)) root points allIndices
                      maxPointsPerNode maxDepth (mkStats 0 0) ;;
    Done (mk (Some root') (nodeCount st) (maxDepthSeen st)).

Definition distanceToAABB (point mn mx : vec3) : float :=
  let closest :=
    mkVec3 (F32.std_max (v3x mn) (F32.std_min (v3x point) (v3x mx)))
           (F32.std_max (v3y mn) (F32.std_min (v3y point) (v3y mx)))
           (F32.std_max (v3z mn) (F32.std_min (v3z point) (v3z mx))) in
  glm.length (sub3 point closest).

(** [pointInAABB] and [nodeIntersectsFrustum], the two static helpers. *)
Definition pointInAABB (point mn mx : vec3) : bool :=
F32.geb (v3x point) (v3x mn) && F32.leb (v3x point) (v3x mx)
&& F32.geb (v3y point) (v3y mn) && F32.leb (v3y point) (v3y mx)
&& F32.geb (v3z point) (v3z mn) && F32.leb (v3z point) (v3z mx).

Definition nodeIntersectsFrustum (node : Node) (viewProj : mat4) : bool :=
Frustum.intersectsAABB (Frustum.extractFromMatrix viewProj) (min node) (max node).

(** [getVisiblePointsRecursive]; the result is [outIndices] after the
    call. *)
Fixpoint getVisiblePointsRecursive (node : Node) (viewProj : mat4) (camPos : vec3)
         (maxDistance : float) (outIndices : list N) {struct node} : list N :=
  match node with
  | mkNode mn mx pts slots _ leaf =>
      let dist := distanceToAABB camPos mn mx in
      if F32.gtb dist maxDistance then outIndices
      else
        let frustum := Frustum.extractFromMatrix viewProj in
        if negb (Frustum.intersectsAABB frustum mn mx) then outIndices
        else if leaf then outIndices ++ pts
        else
          fold_left
            (fun out c =>
               match c with
               | Some child =>
                   getVisiblePointsRecursive child viewProj camPos maxDistance out
               | None => out
               end)
            slots outIndices
  end.

Definition getVisiblePoints (o : t) (viewProj : mat4) (camPos : vec3)
           (maxDistance : float) : list N :=
  match mRoot o with
  | None => []
  | Some root => getVisiblePointsRecursive root viewProj camPos maxDistance []
  end.

(** The points of the children of a node that are leaves themselves. *)
Definition leafChildrenPoints (slots : list (option Node)) (outIndices : list N)
  : list N :=
  fold_left
    (fun out c =>
       match c with
       | Some child => if isLeaf child then out ++ pointIndices child else out
       | None => out
       end)
    slots outIndices.

(** [getLODPointsRecursive]. *)
Fixpoint getLODPointsRecursive (node : Node) (camPos : vec3)
         (distance farThreshold nearThreshold : float) (outIndices : list N)
         {struct node} : list N :=
  match node with
  | mkNode mn mx pts slots lv leaf =>
      let this := mkNode mn mx pts slots lv leaf in
      let nodeDist := glm.length (sub3 camPos (center this)) in
      let nodeSize := maxDim this in
      let useNode :=
        F32.gtb nodeDist farThreshold
        || F32.ltb (F32.div nodeSize nodeDist) F32.one_hundredth in
      if useNode || leaf then
        if leaf then outIndices ++ pts
        else leafChildrenPoints slots outIndices
      else
        fold_left
          (fun out c =>
             match c with
             | Some child =>
                 getLODPointsRecursive child camPos distance farThreshold
                                       nearThreshold out
             | None => out
             end)
          slots outIndices
  end.

Definition getLODPoints (o : t) (camPos : vec3)
           (distance farThreshold nearThreshold : float) : list N :=
  match mRoot o with
  | None => []
  | Some root =>
      getLODPointsRecursive root camPos distance farThreshold nearThreshold []
  end.

End Octree.

(** Observers of a tree, for stating properties: every node in depth-first
    order, the leaves among them, and the concatenation of the leaves' index
    lists. *)
Module OctreeShape.
Import Octree.

Fixpoint nodes (n : Node) : list Node :=
  match n with
  | mkNode _ _ _ slots _ _ =>
      n :: flat_map (fun c => match c with Some k => nodes k | None => [] end) slots
  end.

Definition leaves (n : Node) : list Node := filter isLeaf (nodes n).

Definition leafIndices (n : Node) : list N := flat_map pointIndices (leaves n).

(** The index set {0, ..., n-1} of a point array. *)
Definition indexSet (points : list Point) : list N :=
  map N.of_nat (seq 0 (List.length points)).

Definition slotNodes (c : option Node) : list Node :=
  match c with Some k => nodes k | None => [] end.

Definition slotLeafIndices (c : option Node) : list N :=
  match c with Some k => leafIndices k | None => [] end.

(** An index that [points[idx]] may read. *)
Definition inRange (points : list Point) (i : N) : Prop :=
  (N.to_nat i < List.length points)%nat.

(** The shape of a node of a tree built with the two limits: an internal
    node keeps no indices of its own, a leaf has no children, no level
    exceeds [maxDepth], and a leaf is within the point limit unless it
    sits at [maxDepth]. *)
Definition wellFormed (maxPointsPerNode maxDepth : N) (nd : Node) : Prop :=
  (isLeaf nd = false -> pointIndices nd = [])
  /\ (isLeaf nd = true -> Forall (eq None) (children nd))
  /\ (level nd <= maxDepth)%N
  /\ (isLeaf nd = true ->
      (N.of_nat (List.length (pointIndices nd)) <= maxPointsPerNode)%N
      \/ level nd = maxDepth).

(** What the loop over the octants leaves in one slot, given the bucket
    of that octant. *)
Definition slotBuilt (maxPointsPerNode maxDepth : N) (ib : N * list N)
           (slot : option Node) : Prop :=
  match slot with
  | None => snd ib = []
  | Some child =>
      snd ib <> []
      /\ Permutation (leafIndices child) (snd ib)
      /\ Forall (wellFormed maxPointsPerNode maxDepth) (nodes child)
  end.

(** The two tests of [getVisiblePointsRecursive] on one node: true when
    the node is not pruned. *)
Definition withinDistance (camPos : vec3) (maxDistance : float) (nd : Node) : bool :=
  negb (F32.gtb (distanceToAABB camPos (min nd) (max nd)) maxDistance).


(** The first test of [getLODPointsRecursive] on one node. *)
Definition useNode (camPos : vec3) (farThreshold : float) (nd : Node) : bool :=
  let nodeDist := glm.length (glm.sub3 camPos (center nd)) in
  let nodeSize := maxDim nd in
  F32.gtb nodeDist farThreshold
  || F32.ltb (F32.div nodeSize nodeDist) F32.one_hundredth.

(** What [getLODPointsRecursive] takes from a slot when the node above it
    is used directly, and when it descends. *)
Definition slotDirect (c : option Node) : list N :=
  match c with
  | Some child => if isLeaf child then pointIndices child else []
  | None => []
  end.

Definition slotLOD (camPos : vec3) (distance farThreshold nearThreshold : float)
           (c : option Node) : list N :=
  match c with
  | Some child =>
      getLODPointsRecursive child camPos distance farThreshold nearThreshold []
  | None => []
  end.

(** Follows the spec's words: a node is used directly once it is farther
    than [farThreshold] or its angular size, the box diagonal divided by
    the distance, drops below the fixed ratio. *)
Definition specUsedDirectly (camPos : vec3) (farThreshold : float) (nd : Node)
  : bool :=
  let nodeDist := glm.length (glm.sub3 camPos (center nd)) in
  let diagonal := glm.length (size nd) in
  F32.gtb nodeDist farThreshold
  || F32.ltb (F32.div diagonal nodeDist) F32.one_hundredth.

(** The largest level among some nodes (0 for none). *)
Definition deepest (l : list Node) : N :=
  fold_right (fun nd acc => N.max (level nd) acc) 0%N l.

End OctreeShape.

(* ================================================================== *)
(** * Configuration constants and half floats (Utils.hpp) *)

Module Config.
Definition MinVerticesForThreading : N := 10000.
Definition MinMeshesForThreading : N := 2.
Definition PointCloudMinPointsForOctree : N := 100000.
Definition OctreeMaxDepth : N := 12.
Definition OctreePointsPerNode : N := 1000.
Definition VertexOptimizationMinVerts : N := 10000.
End Config.

Module Half.

Definition floatToHalf (f : float) : N :=
  let bits := F32.bits f in
  let sign := N.land (N.shiftl (N.shiftr bits 31) 15) 32768 in
  let exp := N.land (N.shiftr bits 23) 255 in
  let mantissa := N.land (N.shiftr bits 13) 1023 in
  if (exp =? 255)%N then
    if (mantissa =? 0)%N then to_uint16 (N.lor sign 31744)
    else to_uint16 (N.lor sign 32256)
  else if (exp =? 0)%N then to_uint16 sign
  else
    let exp32 : Z := (Z.of_N exp - 127 + 15)%Z in
    if (exp32 >? 31)%Z then to_uint16 (N.lor sign 31744)
    else if (exp32 <? 0)%Z then to_uint16 sign
    else to_uint16 (N.lor (N.lor sign (N.shiftl (Z.to_N exp32) 10)) mantissa).

End Half.

(* ================================================================== *)
(** * The driver and the collaborators, as calls *)

Record Vertex := mkVertex {
  v_position : vec3;
  v_normal : vec3;
  v_texcoord : vec2;
  v_color : vec3;
  v_scalar : float }.

(** [struct OptimizedVertex]: [pos] and [uv] hold 16-bit patterns. *)
Record OptimizedVertex := mkOptimizedVertex {
  ov_pos : N * N * N;
  ov_normal : float * float * float;
  ov_uv : N * N;
  ov_color : float * float * float;
  ov_scalar : float }.

Module GL.

Definition GlId : Type := N.

Inductive Target := GL_ARRAY_BUFFER | GL_ELEMENT_ARRAY_BUFFER | GL_UNIFORM_BUFFER.
Inductive Usage := GL_STATIC_DRAW | GL_DYNAMIC_DRAW.
Inductive DataType := GL_FLOAT | GL_HALF_FLOAT | GL_UNSIGNED_SHORT | GL_UNSIGNED_INT.
Inductive Mode := GL_POINTS | GL_TRIANGLES.
Inductive DepthFunc := GL_LESS | GL_LEQUAL.

(** What a [glBufferData] call copies: the array behind the pointer, with
    its element type. The icosphere of [generateSphereMesh] is kept by
    name. *)
Inductive Payload :=
| Vertices (vs : list Vertex)
| OptimizedVertices (vs : list OptimizedVertex)
| UInt16 (xs : list N)
| UInt32 (xs : list N)
| IcosphereVertices (subdivisions : N)
| IcosphereIndices (subdivisions : N) (type : DataType).

(** Which struct a vertex attribute is laid out in, and which member it
    points at ([sizeof] and [offsetof] of the source). *)
Inductive Layout := LayoutVertex | LayoutOptimizedVertex.
Inductive Member := m_position | m_normal | m_texcoord | m_color | m_scalar.

Inductive UboBlock := MatricesUBO | MaterialUBO | LightingUBO.

Inductive Call :=
| glGenVertexArrays (id : GlId)
| glGenBuffers (id : GlId)
| glGenQueries (id : GlId)
| glDeleteBuffers (id : GlId)
| glBindVertexArray (id : GlId)
| glBindBuffer (target : Target) (id : GlId)
(** [count] elements of the payload's element type are copied. *)
| glBufferData (target : Target) (count : N) (data : Payload) (usage : Usage)
| glBufferSubData (target : Target) (block : UboBlock)
| glEnableVertexAttribArray (index : N)
| glDisableVertexAttribArray (index : N)
| glVertexAttribPointer (index size : N) (type : DataType) (stride : Layout)
                        (offset : Member)
| glVertexAttribDivisor (index divisor : N)
| glDrawArrays (mode : Mode) (first count : N)
| glDrawElements (mode : Mode) (count : N) (type : DataType)
| glDrawElementsInstanced (mode : Mode) (count : N) (type : DataType) (instances : N)
| glPointSize (size : float)
| glColorMask (r g b a : bool)
| glDepthMask (flag : bool)
| glDepthFunc (func : DepthFunc)
| glBeginQuery (id : GlId)
| glEndQuery
| glGetQueryObjectuiv (id : GlId)
| glUseProgram (program : GlId)
| glUniform1f (program : GlId) (name : String.string) (value : float)
| glUniform3fv (program : GlId) (name : String.string) (value : vec3)
| cerr_no_VAO.

(** The state the calls run against: the last object name the driver
    handed out, the calls issued so far, and the function-local statics
    of the source. *)
Record Env := mkEnv {
  lastName : GlId;
  calls : list Call;
  warned : bool;
  sLastPointSize_drawPoints : float;
  sLastPointSize_drawPointsSubset : float;
  sLastPointSize_drawSphereImpostors : float;
  sActiveProgram : GlId }.

Definition initial : Env :=
  mkEnv 0%N [] false F32.zero F32.zero F32.zero 0%N.

Definition M (A : Type) : Type := Env -> A * Env.

Definition ret {A : Type} (a : A) : M A := fun e => (a, e).

Definition seq {A B : Type} (m : M A) (k : A -> M B) : M B :=
  fun e => let '(a, e1) := m e in k a e1.

Definition call (c : Call) : M unit :=
  fun e => (tt, mkEnv (lastName e) (calls e ++ [c]) (warned e)
                      (sLastPointSize_drawPoints e)
                      (sLastPointSize_drawPointsSubset e)
                      (sLastPointSize_drawSphereImpostors e) (sActiveProgram e)).

(** A [glGen*] call: the driver returns a name it has not used, never 0. *)
Definition gen (mkCall : GlId -> Call) : M GlId :=
  fun e =>
    let id := N.succ (lastName e) in
    (id, mkEnv id (calls e ++ [mkCall id]) (warned e)
               (sLastPointSize_drawPoints e)
               (sLastPointSize_drawPointsSubset e)
               (sLastPointSize_drawSphereImpostors e) (sActiveProgram e)).

Definition get : M Env := fun e => (e, e).
Definition put (e' : Env) : M unit := fun _ => (tt, e').

Definition valid (id : GlId) : bool := negb (id =? 0)%N.

(** [GlVertexArray::create] and [GlBuffer::create]. *)
Definition createVertexArray (mId : GlId) : M GlId :=
  if (mId =? 0)%N then gen glGenVertexArrays else ret mId.
Definition createBuffer (mId : GlId) : M GlId :=
  if (mId =? 0)%N then gen glGenBuffers else ret mId.

(** A range-based [for] whose body rewrites the element. *)
Fixpoint forEachM {A B : Type} (body : A -> M B) (l : list A) : M (list B) :=
  match l with
  | [] => ret []
  | a :: rest =>
      seq (body a) (fun b => seq (forEachM body rest) (fun bs => ret (b :: bs)))
  end.

(** The calls a computation adds to an environment. *)
Definition issued {A : Type} (m : M A) (e : Env) : list Call :=
  skipn (List.length (calls e)) (calls (snd (m e))).

(** The environment after further calls that touch nothing else. *)
Definition log (cs : list Call) (e : Env) : Env :=
  mkEnv (lastName e) (calls e ++ cs) (warned e) (sLastPointSize_drawPoints e)
        (sLastPointSize_drawPointsSubset e) (sLastPointSize_drawSphereImpostors e)
        (sActiveProgram e).

End GL.

Notation "x <~ m ;; k" := (GL.seq m (fun x => k))
  (at level 61, m at next level, right associativity).
Notation "m ;;; k" := (GL.seq m (fun _ => k))
  (at level 61, right associativity).

(* ================================================================== *)
(** * What the importer hands over (Assimp) *)

Module Assimp.

Record aiColor4D := mkColor { r : float; g : float; b : float; a : float }.

Record aiFace := mkFace { mIndices : list N }.

(** A null array is [None]. The importer's contract is that an array
    that is present has [mNumVertices] entries; reading past the end of a
    shorter one is not modelled and yields a zero entry. *)
Record aiMesh := mkMesh {
  mNumVertices : N;
  mVertices : option (list vec3);
  mNormals : option (list vec3);
  mTextureCoords0 : option (list vec3);
  mColors0 : option (list aiColor4D);
  mFaces : list aiFace }.

Definition mNumFaces (m : aiMesh) : N := N.of_nat (List.length (mFaces m)).

Record aiScene := mkScene { mMeshes : list aiMesh }.

Definition HasMeshes (s : aiScene) : bool :=
  match mMeshes s with [] => false | _ => true end.

Definition zero3 : vec3 := glm.splat3 F32.zero.

Definition at3 (arr : list vec3) (i : N) : vec3 := nth (N.to_nat i) arr zero3.
Definition atColor (arr : list aiColor4D) (i : N) : aiColor4D :=
  nth (N.to_nat i) arr (mkColor F32.zero F32.zero F32.zero F32.zero).

End Assimp.

(* ================================================================== *)
(** * Model (Model.h, Model.cpp) *)

Module Model.
Import glm GL.
Local Open Scope N_scope.

Record Mesh := mkMesh {
  vertices : list Vertex;
  indices : list N;
  vao : GlId;
  vbo : GlId;
  ebo : GlId;
  indexCount : N;
  vertexCount : N;
  isPointCloud : bool;
  uses16BitIndices : bool;
  usesOptimizedVertices : bool }.

(** A default-constructed [Mesh]. *)
Definition emptyMesh : Mesh := mkMesh [] [] 0 0 0 0 0 false false false.

Record SphereMesh := mkSphereMesh {
  sm_vao : GlId;
  sm_vbo : GlId;
  sm_ebo : GlId;
  sm_indexCount : N;
  sm_uses16BitIndices : bool;
  sm_initialized : bool }.

Record t := mk {
  mMeshes : list Mesh;
  mMin : vec3;
  mMax : vec3;
  mScalarMin : float;
  mScalarMax : float;
  mSpatialIndex : Octree.t;
  mSphereMesh : SphereMesh }.

(** A default-constructed [Model]. *)
Definition empty : t :=
  mk [] (splat3 F32.zero) (splat3 F32.zero) F32.zero F32.one
     (Octree.mk None 0 0) (mkSphereMesh 0 0 0 0 false false).

Definition meshes (m : t) : list Mesh := mMeshes m.
Definition min (m : t) : vec3 := mMin m.
Definition max (m : t) : vec3 := mMax m.
Definition center (m : t) : vec3 := scale3 F32.half (add3 (mMin m) (mMax m)).
Definition scalarMin (m : t) : float := mScalarMin m.
Definition scalarMax (m : t) : float := mScalarMax m.
Definition spatialIndex (m : t) : Octree.t := mSpatialIndex m.

Definition isPointCloudModel (m : t) : bool :=
  match mMeshes m with
  | [] => false
  | mesh0 :: _ => isPointCloud mesh0
  end.

Definition hasSpatialIndex (m : t) : bool :=
  match Octree.mRoot (mSpatialIndex m) with Some _ => true | None => false end.

(** [Vertex v{}]. *)
Definition defaultVertex : Vertex :=
  mkVertex (splat3 F32.zero) (splat3 F32.zero) (mkVec2 F32.zero F32.zero)
           (splat3 F32.one) F32.zero.

(** [makeVertex]; it is called with [i < mNumVertices] only, so the
    [Has*] tests of the importer reduce to the array being present. *)
Definition makeVertex (mesh : Assimp.aiMesh) (i : N) : Vertex :=
  let v := defaultVertex in
  let v :=
    match Assimp.mVertices mesh with
    | Some arr => mkVertex (Assimp.at3 arr i) (v_normal v) (v_texcoord v)
                           (v_color v) (v_scalar v)
    | None => v
    end in
  let v :=
    match Assimp.mNormals mesh with
    | Some arr => mkVertex (v_position v) (Assimp.at3 arr i) (v_texcoord v)
                           (v_color v) (v_scalar v)
    | None => v
    end in
  let v :=
    match Assimp.mTextureCoords0 mesh with
    | Some arr =>
        let uv := Assimp.at3 arr i in
        mkVertex (v_position v) (v_normal v) (mkVec2 (v3x uv) (v3y uv))
                 (v_color v) (v_scalar v)
    | None => v
    end in
  let v :=
    match Assimp.mColors0 mesh with
    | Some arr =>
        let c := Assimp.atColor arr i in
        mkVertex (v_position v) (v_normal v) (v_texcoord v)
                 (mkVec3 (Assimp.r c) (Assimp.g c) (Assimp.b c)) (v_scalar v)
    | None => v
    end in
  v.

(** The accumulators of [loadFromFile]: the box and the scalar range. *)
Record Bounds := mkBounds {
  bMin : vec3; bMax : vec3; bScalarMin : float; bScalarMax : float }.

Definition initialBounds : Bounds :=
  mkBounds (splat3 F32.max_float) (splat3 (F32.opp F32.max_float))
           F32.max_float (F32.opp F32.max_float).

(** One step of the vertex loop of [processMesh] on the per-mesh bounds. *)
Definition growBounds (b : Bounds) (v : Vertex) : Bounds :=
  mkBounds (min3 (bMin b) (v_position v)) (max3 (bMax b) (v_position v))
           (F32.std_min (bScalarMin b) (v_scalar v))
           (F32.std_max (bScalarMax b) (v_scalar v)).

(** The merge under the mutex. *)
Definition mergeBounds (global mesh : Bounds) : Bounds :=
  mkBounds (min3 (bMin global) (bMin mesh)) (max3 (bMax global) (bMax mesh))
           (F32.std_min (bScalarMin global) (bScalarMin mesh))
           (F32.std_max (bScalarMax global) (bScalarMax mesh)).

(** [static_cast<unsigned int>] of a [size_t]. *)
Definition to_uint (n : nat) : N := (N.of_nat n mod UINT_WRAP)%N.

(** The lambda [processMesh], up to the merge: the mesh it installs and
    the local bounds it folds into the aggregate. *)
Definition processMesh (aimesh : Assimp.aiMesh) : Mesh * Bounds :=
  let vs := map (fun i => makeVertex aimesh (N.of_nat i))
                (List.seq 0 (N.to_nat (Assimp.mNumVertices aimesh))) in
  let local := fold_left growBounds vs initialBounds in
  let cloud := (Assimp.mNumFaces aimesh =? 0)%N in
  let idx := if cloud then [] else flat_map Assimp.mIndices (Assimp.mFaces aimesh) in
  (mkMesh vs idx 0 0 0
          (if cloud then 0%N else to_uint (List.length idx))
          (to_uint (List.length vs)) cloud false false,
   local).

(** The points handed to the octree: every vertex of every mesh, numbered
    by one counter that runs across the meshes. *)
Fixpoint collectPoints (ms : list Mesh) (globalIndex : N) : list Octree.Point :=
  match ms with
  | [] => []
  | mesh :: rest =>
      let vs := firstn (N.to_nat (vertexCount mesh)) (vertices mesh) in
      let numbered :=
        map (fun iv : nat * Vertex =>
               Octree.mkPoint (v_position (snd iv))
                              ((globalIndex + N.of_nat (fst iv)) mod UINT_WRAP)%N)
            (combine (List.seq 0 (List.length vs)) vs) in
      numbered ++ collectPoints rest
                    ((globalIndex + N.of_nat (List.length vs)) mod UINT_WRAP)%N
  end.

(** [totalPoints += mesh.vertexCount] over the meshes. *)
Definition totalPoints (ms : list Mesh) : N :=
  fold_left (fun acc mesh => ((acc + vertexCount mesh) mod UINT_WRAP)%N) ms 0%N.

(** The step after the meshes are in: normalise a degenerate scalar
    range. *)
Definition normalizeScalarRange (b : Bounds) : float * float :=
  if F32.leb (bScalarMax b) (bScalarMin b) then (F32.zero, F32.one)
  else (bScalarMin b, bScalarMax b).

(** The aggregate after every mesh was merged. With two or more meshes
    the merges run on worker threads and take the mutex in an order the
    scheduler picks; [mergeOrder] is that order (mesh positions). With
    one mesh the loop is sequential. *)
Definition aggregate (mergeOrder : list nat) (scene : Assimp.aiScene) : Bounds :=
  let processed := map processMesh (Assimp.mMeshes scene) in
  let order :=
    if (1 <? List.length (Assimp.mMeshes scene))%nat then mergeOrder
    else List.seq 0 (List.length (Assimp.mMeshes scene)) in
  fold_left (fun acc i => mergeBounds acc (nth i (map snd processed) initialBounds))
            order initialBounds.

(** [loadFromFile]: [None] is the importer returning no scene. The
    result is the return value and the model afterwards. *)
Definition loadFromFile (mergeOrder : list nat) (scene : option Assimp.aiScene)
           (m : t) : outcome (bool * t) :=
  let m := mk [] (mMin m) (mMax m) (mScalarMin m) (mScalarMax m)
              (mSpatialIndex m) (mSphereMesh m) in
  match scene with
  | None => Done (false, m)
  | Some scene =>
      if negb (Assimp.HasMeshes scene) then Done (false, m)
      else
        let processed := map processMesh (Assimp.mMeshes scene) in
        let agg := aggregate mergeOrder scene in
        let '(smin, smax) := normalizeScalarRange agg in
        let m := mk (map fst processed) (bMin agg) (bMax agg) smin smax
                    (mSpatialIndex m) (mSphereMesh m) in
        if isPointCloudModel m && negb (Octree.isEmpty (mMeshes m)) then
          let total := totalPoints (mMeshes m) in
          if (Config.PointCloudMinPointsForOctree <=? total)%N then
            let points := collectPoints (mMeshes m) 0 in
            tree <- Octree.build points (mMin m) (mMax m)
                                 Config.OctreePointsPerNode Config.OctreeMaxDepth ;;
            Done (true, mk (mMeshes m) (mMin m) (mMax m) (mScalarMin m)
                           (mScalarMax m) tree (mSphereMesh m))
          else Done (true, m)
        else Done (true, m)
  end.

(** The conversion loop of the optimized vertex path. *)
Definition packVertex (v : Vertex) : OptimizedVertex :=
  mkOptimizedVertex
    (Half.floatToHalf (v3x (v_position v)), Half.floatToHalf (v3y (v_position v)),
     Half.floatToHalf (v3z (v_position v)))
    (v3x (v_normal v), v3y (v_normal v), v3z (v_normal v))
    (Half.floatToHalf (v2x (v_texcoord v)), Half.floatToHalf (v2y (v_texcoord v)))
    (v3x (v_color v), v3y (v_color v), v3z (v_color v))
    (v_scalar v).

(** The validation scan before 16-bit storage; it stops at the first
    index that does not fit. *)
Fixpoint allFit (indices : list N) : bool :=
  match indices with
  | [] => true
  | idx :: rest => if 65536 <=? idx then false else allFit rest
  end.

(** The attribute set-up at the end of the loop body of [uploadToGPU]. *)
Definition attribPointers (optimized : bool) : list Call :=
  if optimized then
    [ glEnableVertexAttribArray 0;
      glVertexAttribPointer 0 3 GL_HALF_FLOAT LayoutOptimizedVertex m_position;
      glEnableVertexAttribArray 1;
      glVertexAttribPointer 1 3 GL_FLOAT LayoutOptimizedVertex m_normal;
      glEnableVertexAttribArray 2;
      glVertexAttribPointer 2 2 GL_HALF_FLOAT LayoutOptimizedVertex m_texcoord;
      glEnableVertexAttribArray 3;
      glVertexAttribPointer 3 3 GL_FLOAT LayoutOptimizedVertex m_color;
      glEnableVertexAttribArray 4;
      glVertexAttribPointer 4 1 GL_FLOAT LayoutOptimizedVertex m_scalar ]
  else
    [ glEnableVertexAttribArray 0;
      glVertexAttribPointer 0 3 GL_FLOAT LayoutVertex m_position;
      glEnableVertexAttribArray 1;
      glVertexAttribPointer 1 3 GL_FLOAT LayoutVertex m_normal;
      glEnableVertexAttribArray 2;
      glVertexAttribPointer 2 2 GL_FLOAT LayoutVertex m_texcoord;
      glEnableVertexAttribArray 3;
      glVertexAttribPointer 3 3 GL_FLOAT LayoutVertex m_color;
      glEnableVertexAttribArray 4;
      glVertexAttribPointer 4 1 GL_FLOAT LayoutVertex m_scalar ].

Fixpoint callAll (cs : list Call) : M unit :=
  match cs with
  | [] => ret tt
  | c :: rest => call c ;;; callAll rest
  end.

(** The index-buffer block of [uploadToGPU]; the result is
    [uses16BitIndices] afterwards. *)
Definition uploadIndices (mesh : Mesh) (ebo : GlId) : M bool :=
  if negb (isPointCloud mesh) && (0 <? indexCount mesh) then
    call (glBindBuffer GL_ELEMENT_ARRAY_BUFFER ebo) ;;;
    if vertexCount mesh <? 65536 then
      if allFit (indices mesh) then
        call (glBufferData GL_ELEMENT_ARRAY_BUFFER (indexCount mesh)
                           (UInt16 (map to_uint16 (indices mesh))) GL_STATIC_DRAW) ;;;
        ret true
      else
        call (glBufferData GL_ELEMENT_ARRAY_BUFFER (indexCount mesh)
                           (UInt32 (indices mesh)) GL_STATIC_DRAW) ;;;
        ret false
    else
      call (glBufferData GL_ELEMENT_ARRAY_BUFFER (indexCount mesh)
                         (UInt32 (indices mesh)) GL_STATIC_DRAW) ;;;
      ret false
  else ret (uses16BitIndices mesh).

(** The body of the loop of [uploadToGPU] for one mesh. *)
Definition uploadMesh (mesh : Mesh) : M Mesh :=
  if valid (vao mesh) then ret mesh
  else
    vao' <~ createVertexArray (vao mesh) ;;
    vbo' <~ createBuffer (vbo mesh) ;;
    ebo' <~ (if negb (isPointCloud mesh) then createBuffer (ebo mesh)
             else ret (ebo mesh)) ;;
    call (glBindVertexArray vao') ;;;
    call (glBindBuffer GL_ARRAY_BUFFER vbo') ;;;
    let optimized :=
      negb (isPointCloud mesh)
      && (Config.VertexOptimizationMinVerts <=? vertexCount mesh) in
    (if optimized then
       call (glBufferData GL_ARRAY_BUFFER (vertexCount mesh)
                          (OptimizedVertices (map packVertex (vertices mesh)))
                          GL_STATIC_DRAW)
     else
       call (glBufferData GL_ARRAY_BUFFER (vertexCount mesh)
                          (Vertices (vertices mesh)) GL_STATIC_DRAW)) ;;;
    uses16 <~ uploadIndices mesh ebo' ;;
    callAll (attribPointers optimized) ;;;
    call (glBindBuffer GL_ARRAY_BUFFER 0) ;;;
    ret (mkMesh (vertices mesh) (indices mesh) vao' vbo' ebo'
                (indexCount mesh) (vertexCount mesh) (isPointCloud mesh)
                uses16 optimized).

Definition dropCpuArrays (mesh : Mesh) : Mesh :=
  mkMesh [] [] (vao mesh) (vbo mesh) (ebo mesh) (indexCount mesh)
         (vertexCount mesh) (isPointCloud mesh) (uses16BitIndices mesh)
         (usesOptimizedVertices mesh).

Definition withMeshes (m : t) (ms : list Mesh) : t :=
  mk ms (mMin m) (mMax m) (mScalarMin m) (mScalarMax m) (mSpatialIndex m)
     (mSphereMesh m).

Definition uploadToGPU (dropCpu : bool) (m : t) : M t :=
  ms <~ forEachM uploadMesh (mMeshes m) ;;
  call (glBindVertexArray 0) ;;;
  ret (withMeshes m (if dropCpu then map dropCpuArrays ms else ms)).

(** [Model::draw]. *)
Definition drawMesh (mesh : Mesh) : M unit :=
  if negb (valid (vao mesh)) then
    e <~ get ;;
    if warned e then ret tt
    else
      call cerr_no_VAO ;;;
      e <~ get ;;
      put (mkEnv (lastName e) (calls e) true (sLastPointSize_drawPoints e)
                 (sLastPointSize_drawPointsSubset e)
                 (sLastPointSize_drawSphereImpostors e) (sActiveProgram e))
  else
    call (glBindVertexArray (vao mesh)) ;;;
    if isPointCloud mesh then call (glDrawArrays GL_POINTS 0 (vertexCount mesh))
    else if indexCount mesh =? 0 then ret tt
    else call (glDrawElements GL_TRIANGLES (indexCount mesh)
                              (if uses16BitIndices mesh then GL_UNSIGNED_SHORT
                               else GL_UNSIGNED_INT)).

Definition draw (m : t) : M unit :=
  forEachM drawMesh (mMeshes m) ;;; call (glBindVertexArray 0).

(** The loop shared, word for word, by [drawPoints] and
    [drawSphereImpostors]. *)
Definition drawMeshPoints (mesh : Mesh) : M unit :=
  if negb (valid (vao mesh)) || (vertexCount mesh =? 0) then ret tt
  else
    call (glBindVertexArray (vao mesh)) ;;;
    call (glDrawArrays GL_POINTS 0 (vertexCount mesh)).

(** [pointSize != sLastPointSize]. *)
Definition differs (a b : float) : bool := negb (SFeqb a b).

Definition drawPoints (m : t) (pointSize : float) : M unit :=
  e <~ get ;;
  (if differs pointSize (sLastPointSize_drawPoints e) then
     call (glPointSize pointSize) ;;;
     e <~ get ;;
     put (mkEnv (lastName e) (calls e) (warned e) pointSize
                (sLastPointSize_drawPointsSubset e)
                (sLastPointSize_drawSphereImpostors e) (sActiveProgram e))
   else ret tt) ;;;
  forEachM drawMeshPoints (mMeshes m) ;;;
  call (glBindVertexArray 0).

(** The loop that finds [maxIdx]. *)
Definition maxIndex (indices : list N) : N := fold_left N.max indices 0.

Definition drawPointsSubset (m : t) (indices : list N) (pointSize : float) : M unit :=
  if Octree.isEmpty indices then ret tt
  else
    e <~ get ;;
    (if differs pointSize (sLastPointSize_drawPointsSubset e) then
       call (glPointSize pointSize) ;;;
       e <~ get ;;
       put (mkEnv (lastName e) (calls e) (warned e) (sLastPointSize_drawPoints e)
                  pointSize (sLastPointSize_drawSphereImpostors e)
                  (sActiveProgram e))
     else ret tt) ;;;
    match mMeshes m with
    | mesh :: _ =>
        if isPointCloud mesh && valid (vao mesh) then
          tempEBO <~ gen glGenBuffers ;;
          call (glBindBuffer GL_ELEMENT_ARRAY_BUFFER tempEBO) ;;;
          call (glBufferData GL_ELEMENT_ARRAY_BUFFER (N.of_nat (List.length indices))
                             (UInt32 indices) GL_DYNAMIC_DRAW) ;;;
          let indexType :=
            if maxIndex indices <? 65536 then GL_UNSIGNED_SHORT
            else GL_UNSIGNED_INT in
          (match indexType with
           | GL_UNSIGNED_SHORT =>
               call (glBufferData GL_ELEMENT_ARRAY_BUFFER
                                  (N.of_nat (List.length indices))
                                  (UInt16 (map to_uint16 indices)) GL_DYNAMIC_DRAW)
           | _ => ret tt
           end) ;;;
          call (glBindVertexArray (vao mesh)) ;;;
          call (glDrawElements GL_POINTS (N.of_nat (List.length indices)) indexType) ;;;
          call (glBindVertexArray 0) ;;;
          call (glDeleteBuffers tempEBO) ;;;
          call (glBindBuffer GL_ELEMENT_ARRAY_BUFFER 0)
        else ret tt
    | [] => ret tt
    end.

Definition drawSphereImpostors (m : t) (pointSize : float) : M unit :=
  e <~ get ;;
  (if differs pointSize (sLastPointSize_drawSphereImpostors e) then
     call (glPointSize pointSize) ;;;
     e <~ get ;;
     put (mkEnv (lastName e) (calls e) (warned e) (sLastPointSize_drawPoints e)
                (sLastPointSize_drawPointsSubset e) pointSize (sActiveProgram e))
   else ret tt) ;;;
  forEachM drawMeshPoints (mMeshes m) ;;;
  call (glBindVertexArray 0).

(** [generateSphereMesh(2)]. The icosphere has 12 corners and 20 faces
    before subdivision; two rounds of splitting every face in four leave
    162 corners and 320 faces, so 960 indices, all below 65536. The
    coordinates are not computed here: the two uploads carry the geometry
    by name. *)
Definition generateSphereMesh (subdivisions : N) (sm : SphereMesh) : M SphereMesh :=
  if sm_initialized sm then ret sm
  else
    vao' <~ createVertexArray (sm_vao sm) ;;
    vbo' <~ createBuffer (sm_vbo sm) ;;
    ebo' <~ createBuffer (sm_ebo sm) ;;
    call (glBindVertexArray vao') ;;;
    call (glBindBuffer GL_ARRAY_BUFFER vbo') ;;;
    let faces := 20 * 4 ^ subdivisions in
    let corners := 2 + faces / 2 in
    call (glBufferData GL_ARRAY_BUFFER corners (IcosphereVertices subdivisions)
                       GL_STATIC_DRAW) ;;;
    let uses16 := corners <? 65536 in
    let type := if uses16 then GL_UNSIGNED_SHORT else GL_UNSIGNED_INT in
    call (glBindBuffer GL_ELEMENT_ARRAY_BUFFER ebo') ;;;
    call (glBufferData GL_ELEMENT_ARRAY_BUFFER (3 * faces)
                       (IcosphereIndices subdivisions type) GL_STATIC_DRAW) ;;;
    callAll (attribPointers false) ;;;
    call (glBindBuffer GL_ARRAY_BUFFER 0) ;;;
    call (glBindVertexArray vao') ;;;
    ret (mkSphereMesh vao' vbo' ebo' (3 * faces) uses16 true).

Definition drawInstancedMesh (sm : SphereMesh) (mesh : Mesh) : M unit :=
  if negb (isPointCloud mesh) || (vertexCount mesh =? 0) then ret tt
  else
    call (glBindVertexArray (sm_vao sm)) ;;;
    call (glBindBuffer GL_ARRAY_BUFFER (vbo mesh)) ;;;
    callAll [ glEnableVertexAttribArray 5;
              glVertexAttribPointer 5 3 GL_FLOAT LayoutVertex m_position;
              glVertexAttribDivisor 5 1;
              glEnableVertexAttribArray 6;
              glVertexAttribPointer 6 3 GL_FLOAT LayoutVertex m_color;
              glVertexAttribDivisor 6 1;
              glEnableVertexAttribArray 7;
              glVertexAttribPointer 7 1 GL_FLOAT LayoutVertex m_scalar;
              glVertexAttribDivisor 7 1;
              glDrawElementsInstanced GL_TRIANGLES (sm_indexCount sm)
                (if sm_uses16BitIndices sm then GL_UNSIGNED_SHORT
                 else GL_UNSIGNED_INT)
                (vertexCount mesh);
              glVertexAttribDivisor 5 0;
              glVertexAttribDivisor 6 0;
              glVertexAttribDivisor 7 0;
              glDisableVertexAttribArray 5;
              glDisableVertexAttribArray 6;
              glDisableVertexAttribArray 7 ].

(** [drawInstancedSpheres]; the sphere mesh is [mutable], so the model
    comes back. *)
Definition drawInstancedSpheres (m : t) (radius : float) : M t :=
  sm <~ (if negb (sm_initialized (mSphereMesh m))
         then generateSphereMesh 2 (mSphereMesh m)
         else ret (mSphereMesh m)) ;;
  let m' := mk (mMeshes m) (mMin m) (mMax m) (mScalarMin m) (mScalarMax m)
               (mSpatialIndex m) sm in
  if negb (valid (sm_vao sm)) then ret m'
  else
    forEachM (drawInstancedMesh sm) (mMeshes m) ;;;
    call (glBindVertexArray 0) ;;;
    ret m'.

End Model.

(* ================================================================== *)
(** * GLStateCache and FrameState (Utils.hpp, Utils.cpp) *)

Module GLStateCache.
Import GL.

Record t := mk {
  mDepthFunc : DepthFunc;
  mDepthWrite : bool;
  mColorWrite : bool * bool * bool * bool }.

Definition depthFunc_eqb (a b : DepthFunc) : bool :=
  match a, b with
  | GL_LESS, GL_LESS | GL_LEQUAL, GL_LEQUAL => true
  | _, _ => false
  end.

Definition depthFunc (func : DepthFunc) (c : t) : M t :=
  if negb (depthFunc_eqb (mDepthFunc c) func) then
    call (glDepthFunc func) ;;; ret (mk func (mDepthWrite c) (mColorWrite c))
  else ret c.

Definition depthMask (enabled : bool) (c : t) : M t :=
  if negb (Bool.eqb (mDepthWrite c) enabled) then
    call (glDepthMask enabled) ;;; ret (mk (mDepthFunc c) enabled (mColorWrite c))
  else ret c.

Definition colorMask (r g b a : bool) (c : t) : M t :=
  let '(r0, g0, b0, a0) := mColorWrite c in
  if negb (Bool.eqb r0 r) || negb (Bool.eqb g0 g) || negb (Bool.eqb b0 b)
     || negb (Bool.eqb a0 a)
  then call (glColorMask r g b a) ;;;
       ret (mk (mDepthFunc c) (mDepthWrite c) (r, g, b, a))
  else ret c.

(** A call of one of the three setters, so that a sequence of them can be
    spoken of. *)
Inductive Request :=
| SetDepthFunc (func : DepthFunc)
| SetDepthMask (enabled : bool)
| SetColorMask (r g b a : bool).

Definition perform (c : t) (rq : Request) : M t :=
  match rq with
  | SetDepthFunc func => depthFunc func c
  | SetDepthMask enabled => depthMask enabled c
  | SetColorMask r g b a => colorMask r g b a c
  end.

(** The cache that holds what a request asks for. *)
Definition asked (rq : Request) (c : t) : t :=
  match rq with
  | SetDepthFunc func => mk func (mDepthWrite c) (mColorWrite c)
  | SetDepthMask enabled => mk (mDepthFunc c) enabled (mColorWrite c)
  | SetColorMask r g b a => mk (mDepthFunc c) (mDepthWrite c) (r, g, b, a)
  end.

Fixpoint performAll (rqs : list Request) (c : t) : M t :=
  match rqs with
  | [] => ret c
  | rq :: rest => c' <~ perform c rq ;; performAll rest c'
  end.

End GLStateCache.

Record FrameState := mkFrameState {
  fs_view : mat4;
  fs_proj : mat4;
  fs_viewProj : mat4;
  fs_camPos : vec3 }.

(** [UniformBuffer::updateData]. The bytes written are not modelled, only
    which block is rewritten. *)
Definition UniformBuffer_updateData (mBuffer : GL.GlId) (block : GL.UboBlock)
  : GL.M unit :=
  if negb (mBuffer =? 0)%N then
    GL.call (GL.glBindBuffer GL.GL_UNIFORM_BUFFER mBuffer) ;;;
    GL.call (GL.glBufferSubData GL.GL_UNIFORM_BUFFER block)
  else GL.ret tt.

(** [Shader]: the program name, and [use] with its static cache. Uniforms
    are set by name; a name the program lacks is skipped by the driver-side
    lookup, which is not modelled. *)
Module Shader.
Import GL.

Record t := mk { mProgram : GlId }.

Definition use (s : t) : M unit :=
  e <~ get ;;
  if negb (sActiveProgram e =? mProgram s)%N then
    call (glUseProgram (mProgram s)) ;;;
    e <~ get ;;
    put (mkEnv (lastName e) (calls e) (warned e) (sLastPointSize_drawPoints e)
               (sLastPointSize_drawPointsSubset e)
               (sLastPointSize_drawSphereImpostors e) (mProgram s))
  else ret tt.

Definition setFloat (s : t) (name : String.string) (value : float) : M unit :=
  call (glUniform1f (mProgram s) name value).

Definition setVec3 (s : t) (name : String.string) (value : vec3) : M unit :=
  call (glUniform3fv (mProgram s) name value).

End Shader.

(* ================================================================== *)
(** * OcclusionCuller (OcclusionCuller.hpp, OcclusionCuller.cpp) *)

Module OcclusionCuller.
Import GL.
Local Open Scope N_scope.

Record t := mk {
  mOcclusionQuery : GlId;
  mOcclusionQuerySupported : bool;
  mLastOcclusionResult : bool;
  mOcclusionVAO : GlId;
  mOcclusionVBO : GlId;
  mOcclusionEBO : GlId }.

(** A default-constructed culler. *)
Definition fresh : t := mk 0 false true 0 0 0.

Definition isSupported (c : t) : bool := mOcclusionQuerySupported c.
Definition getLastResult (c : t) : bool := mLastOcclusionResult c.

(** The proxy box: 8 corners of the unit cube, 36 indices. *)
Definition proxyIndices : list N :=
  [ 0;1;2; 2;1;3;  4;6;5; 6;7;5;  0;2;4; 2;6;4;
    1;5;3; 3;5;7;  0;4;1; 1;4;5;  2;3;6; 3;7;6 ].

(** [initialize]. [glVersion] is what [glGetString(GL_VERSION)] and
    [sscanf] deliver: [None] for a null string, else major and minor. *)
Definition initialize (glVersion : option (Z * Z)) (c : t) : M t :=
  let supported :=
    match glVersion with
    | Some (major, minor) =>
        ((major >? 3) || ((major =? 3) && (minor >=? 3)))%Z
    | None => mOcclusionQuerySupported c
    end in
  if supported then
    query <~ (if mOcclusionQuery c =? 0 then gen glGenQueries
              else ret (mOcclusionQuery c)) ;;
    if negb (valid (mOcclusionVAO c)) then
      vao' <~ createVertexArray (mOcclusionVAO c) ;;
      vbo' <~ createBuffer (mOcclusionVBO c) ;;
      ebo' <~ createBuffer (mOcclusionEBO c) ;;
      call (glBindVertexArray vao') ;;;
      call (glBindBuffer GL_ARRAY_BUFFER vbo') ;;;
      call (glBufferData GL_ARRAY_BUFFER 8
              (Vertices []) GL_STATIC_DRAW) ;;;
      call (glBindBuffer GL_ELEMENT_ARRAY_BUFFER ebo') ;;;
      call (glBufferData GL_ELEMENT_ARRAY_BUFFER 36 (UInt16 proxyIndices)
              GL_STATIC_DRAW) ;;;
      call (glEnableVertexAttribArray 0) ;;;
      call (glVertexAttribPointer 0 3 GL_FLOAT LayoutVertex m_position) ;;;
      call (glBindBuffer GL_ARRAY_BUFFER 0) ;;;
      call (glBindVertexArray 0) ;;;
      ret (mk query supported (mLastOcclusionResult c) vao' vbo' ebo')
    else
      ret (mk query supported (mLastOcclusionResult c) (mOcclusionVAO c)
              (mOcclusionVBO c) (mOcclusionEBO c))
  else
    ret (mk (mOcclusionQuery c) supported (mLastOcclusionResult c)
            (mOcclusionVAO c) (mOcclusionVBO c) (mOcclusionEBO c)).

(** [testOcclusion]. [reply] is what the driver answers to the two
    [glGetQueryObjectuiv] calls: [None] when the result is not available
    yet, else the number of samples that passed. The result is the return
    value, the culler and the state cache afterwards. *)
Definition testOcclusion (c : t) (depthShader : Shader.t) (matricesUBO : GlId)
           (stateCache : option GLStateCache.t) (reply : option N)
  : M (bool * t * option GLStateCache.t) :=
  if negb (mOcclusionQuerySupported c) || (mOcclusionQuery c =? 0) then
    ret (true, c, stateCache)
  else
    stateCache <~
      (match stateCache with
       | Some sc =>
           sc <~ GLStateCache.colorMask false false false false sc ;;
           sc <~ GLStateCache.depthMask true sc ;;
           sc <~ GLStateCache.depthFunc GL_LESS sc ;;
           ret (Some sc)
       | None =>
           call (glColorMask false false false false) ;;;
           call (glDepthMask true) ;;;
           call (glDepthFunc GL_LESS) ;;;
           ret None
       end) ;;
    UniformBuffer_updateData matricesUBO MatricesUBO ;;;
    Shader.use depthShader ;;;
    call (glBeginQuery (mOcclusionQuery c)) ;;;
    call (glBindVertexArray (mOcclusionVAO c)) ;;;
    call (glDrawElements GL_TRIANGLES 36 GL_UNSIGNED_SHORT) ;;;
    call (glBindVertexArray 0) ;;;
    call glEndQuery ;;;
    stateCache <~
      (match stateCache with
       | Some sc =>
           sc <~ GLStateCache.colorMask true true true true sc ;;
           ret (Some sc)
       | None => call (glColorMask true true true true) ;;; ret None
       end) ;;
    call (glGetQueryObjectuiv (mOcclusionQuery c)) ;;;
    match reply with
    | Some samplesPassed =>
        call (glGetQueryObjectuiv (mOcclusionQuery c)) ;;;
        let visible := 0 <? samplesPassed in
        ret (visible,
             mk (mOcclusionQuery c) (mOcclusionQuerySupported c) visible
                (mOcclusionVAO c) (mOcclusionVBO c) (mOcclusionEBO c),
             stateCache)
    | None => ret (mLastOcclusionResult c, c, stateCache)
    end.

(** Whether [initialize] finds occlusion queries supported. *)
Definition supportedBy (glVersion : option (Z * Z)) (c : t) : bool :=
  match glVersion with
  | Some (major, minor) => ((major >? 3) || ((major =? 3) && (minor >=? 3)))%Z
  | None => mOcclusionQuerySupported c
  end.

(** What [testOcclusion] returns and stores, given the driver's reply. *)
Definition verdict (c : t) (reply : option N) : bool * t :=
  match reply with
  | Some n => (0 <? n,
               mk (mOcclusionQuery c) (mOcclusionQuerySupported c) (0 <? n)
                  (mOcclusionVAO c) (mOcclusionVBO c) (mOcclusionEBO c))
  | None => (mLastOcclusionResult c, c)
  end.

(** The calls around the proxy box, and the calls that read the query
    back. *)
Definition proxyDraw (c : t) : list Call :=
  [ glBeginQuery (mOcclusionQuery c); glBindVertexArray (mOcclusionVAO c);
    glDrawElements GL_TRIANGLES 36 GL_UNSIGNED_SHORT; glBindVertexArray 0;
    glEndQuery ].

Definition readBack (c : t) (reply : option N) : list Call :=
  glGetQueryObjectuiv (mOcclusionQuery c)
  :: match reply with
     | Some _ => [glGetQueryObjectuiv (mOcclusionQuery c)]
     | None => []
     end.

(** The depth function, depth mask and colour mask after a test. *)
Definition afterTest : GLStateCache.t :=
  GLStateCache.mk GL_LESS true (true, true, true, true).

End OcclusionCuller.

(* ================================================================== *)
(** * Scene (Scene.hpp, Scene.cpp) *)

Inductive PointCloudRenderMode := Points | SphereImpostors | InstancedSpheres.

Module Scene.
Import glm GL.
Local Open Scope N_scope.

(** The members that decide what is drawn. Material, light and colour
    mode only feed the bytes of the uniform buffers, which are not
    modelled, and are left out. *)
Record t := mk {
  model : Model.t;
  modelMatrix : mat4;
  pointSize : float;
  pointCloudMode : PointCloudRenderMode;
  autoLOD : bool;
  sphereRadius : float;
  enableFrustumCulling : bool;
  enableEarlyZPrepass : bool;
  enableSpatialIndexing : bool;
  enableOcclusionCulling : bool;
  mOcclusionCuller : OcclusionCuller.t;
  mMatricesUBO : GlId;
  mMaterialUBO : GlId;
  mLightingUBO : GlId }.

Definition LOD_FAR_THRESHOLD : float := Eval vm_compute in F32.lit 50 0.
Definition LOD_NEAR_THRESHOLD : float := Eval vm_compute in F32.lit 10 0.

Record ProfilingData := mkProfilingData {
  drawCalls : N;
  triangles : N;
  points : N }.

Definition withModel (s : t) (m : Model.t) : t :=
  mk m (modelMatrix s) (pointSize s) (pointCloudMode s) (autoLOD s)
     (sphereRadius s) (enableFrustumCulling s) (enableEarlyZPrepass s)
     (enableSpatialIndexing s) (enableOcclusionCulling s) (mOcclusionCuller s)
     (mMatricesUBO s) (mMaterialUBO s) (mLightingUBO s).

Definition updateUBOs (s : t) : M unit :=
  UniformBuffer_updateData (mMatricesUBO s) MatricesUBO ;;;
  UniformBuffer_updateData (mMaterialUBO s) MaterialUBO ;;;
  UniformBuffer_updateData (mLightingUBO s) LightingUBO.

Definition setupShaderUniforms (shader : Shader.t) (pointSizeOrRadius : float)
  : M unit :=
  if F32.gtb pointSizeOrRadius F32.zero
  then Shader.setFloat shader "uPointSize"%string pointSizeOrRadius
  else ret tt.

(** [profData->drawCalls++; profData->points += n]. *)
Definition countPoints (prof : option ProfilingData) (n : N) : option ProfilingData :=
  match prof with
  | Some p => Some (mkProfilingData (uint_succ (drawCalls p)) (triangles p)
                                    ((points p + n) mod UINT_WRAP))
  | None => None
  end.

Definition countTriangles (prof : option ProfilingData) (ms : list Model.Mesh)
  : option ProfilingData :=
  match prof with
  | Some p =>
      Some (fold_left
              (fun p mesh =>
                 mkProfilingData (drawCalls p)
                   ((triangles p + Model.indexCount mesh / 3) mod UINT_WRAP)
                   (points p))
              ms
              (mkProfilingData (uint_succ (drawCalls p)) (triangles p) (points p)))
  | None => None
  end.

(** [model.meshes()[0].vertexCount]; the model is a point cloud where this
    is read, so the first mesh exists. *)
Definition firstVertexCount (m : Model.t) : N :=
  match Model.mMeshes m with
  | mesh :: _ => Model.vertexCount mesh
  | [] => 0
  end.

(** The mode the [autoLOD] block selects. *)
Definition selectMode (s : t) (frameState : FrameState) : PointCloudRenderMode :=
  if autoLOD s then
    let modelCenter :=
      xyz (mulMV (modelMatrix s) (with_w (Model.center (model s)) F32.one)) in
    let distance := glm.length (sub3 (fs_camPos frameState) modelCenter) in
    if F32.gtb distance LOD_FAR_THRESHOLD then Points
    else if F32.ltb distance LOD_NEAR_THRESHOLD then InstancedSpheres
    else SphereImpostors
  else pointCloudMode s.

(** [Scene::draw]. The two optional shaders are null when [None]. The
    result is the scene (its model owns the lazily built sphere mesh) and
    the profiling record afterwards. *)
Definition draw (s : t) (shader : Shader.t)
           (sphereImpostorShader instancedSphereShader : option Shader.t)
           (frameState : FrameState) (wireframe : bool)
           (profData : option ProfilingData)
  : M (t * option ProfilingData) :=
  if enableFrustumCulling s
     && negb (Frustum.intersectsTransformedAABB
                (Frustum.extractFromMatrix (fs_viewProj frameState))
                (Model.min (model s)) (Model.max (model s)) (modelMatrix s))
  then ret (s, profData)
  else if enableOcclusionCulling s && negb (Model.isPointCloudModel (model s))
          && (negb (OcclusionCuller.isSupported (mOcclusionCuller s))
              || negb (OcclusionCuller.getLastResult (mOcclusionCuller s)))
  then ret (s, profData)
  else
    (if valid (mMatricesUBO s) then updateUBOs s else ret tt) ;;;
    if Model.isPointCloudModel (model s) then
      match selectMode s frameState with
      | Points =>
          Shader.use shader ;;;
          if enableSpatialIndexing s && Model.hasSpatialIndex (model s) then
            let visibleIndices :=
              Octree.getVisiblePoints (Model.spatialIndex (model s))
                (fs_viewProj frameState) (fs_camPos frameState) F32.max_float in
            if negb (Octree.isEmpty visibleIndices) then
              Model.drawPointsSubset (model s) visibleIndices (pointSize s) ;;;
              ret (s, countPoints profData
                        (Model.to_uint (List.length visibleIndices)))
            else ret (s, profData)
          else
            Model.drawPoints (model s) (pointSize s) ;;;
            ret (s, countPoints profData (firstVertexCount (model s)))
      | SphereImpostors =>
          match sphereImpostorShader with
          | Some sh =>
              Shader.use sh ;;;
              setupShaderUniforms sh (pointSize s) ;;;
              Model.drawSphereImpostors (model s) (pointSize s) ;;;
              ret (s, countPoints profData (firstVertexCount (model s)))
          | None => ret (s, profData)
          end
      | InstancedSpheres =>
          match instancedSphereShader with
          | Some sh =>
              Shader.use sh ;;;
              setupShaderUniforms sh F32.zero ;;;
              Shader.setFloat sh "uSphereRadius"%string (sphereRadius s) ;;;
              m' <~ Model.drawInstancedSpheres (model s) (sphereRadius s) ;;
              ret (withModel s m', countPoints profData (firstVertexCount (model s)))
          | None => ret (s, profData)
          end
      end
    else
      Shader.use shader ;;;
      Shader.setFloat shader "uWireframe"%string
                      (if wireframe then F32.one else F32.zero) ;;;
      Shader.setVec3 shader "uWireframeColor"%string
                     (mkVec3 F32.one F32.half F32.zero) ;;;
      Model.draw (model s) ;;;
      ret (s, countTriangles profData (Model.meshes (model s))).

(** [Scene::drawDepthOnly]. *)
Definition drawDepthOnly (s : t) (depthShader : Shader.t) (frameState : FrameState)
: M unit :=
if enableFrustumCulling s
   && negb (Frustum.intersectsTransformedAABB
              (Frustum.extractFromMatrix (fs_viewProj frameState))
              (Model.min (model s)) (Model.max (model s)) (modelMatrix s))
then ret tt
else
  (if valid (mMatricesUBO s) then updateUBOs s else ret tt) ;;;
  Shader.use depthShader ;;;
  if negb (Model.isPointCloudModel (model s)) then Model.draw (model s) else ret tt.

(** [Scene::testOcclusion]. *)
Definition testOcclusion (s : t) (depthShader : Shader.t)
           (stateCache : option GLStateCache.t) (reply : option N)
  : M (bool * t * option GLStateCache.t) :=
  if negb (enableOcclusionCulling s) then ret (true, s, stateCache)
  else
    r <~ OcclusionCuller.testOcclusion (mOcclusionCuller s) depthShader
           (mMatricesUBO s) stateCache reply ;;
    let '(visible, culler, sc) := r in
    ret (visible,
         mk (model s) (modelMatrix s) (pointSize s) (pointCloudMode s) (autoLOD s)
            (sphereRadius s) (enableFrustumCulling s) (enableEarlyZPrepass s)
            (enableSpatialIndexing s) (enableOcclusionCulling s) culler
            (mMatricesUBO s) (mMaterialUBO s) (mLightingUBO s),
         sc).

End Scene.

(* ================================================================== *)
(** * Camera presets (RenderUtils.hpp, Camera.hpp, View.hpp) *)

Module CameraPreset.

Record t := mk {
  eye : vec3;
  target : vec3;
  up : vec3;
  yaw : float;
  pitch : float }.

(** A value-initialised preset, as [std::vector::resize] creates it. *)
Definition zeroed : t :=
mk (glm.splat3 F32.zero) (glm.splat3 F32.zero) (glm.splat3 F32.zero)
   F32.zero F32.zero.

Definition save (e t0 u : vec3) (y p : float) : t := mk e t0 u y p.

(** [restore] writes through its five reference parameters. *)
Definition restore (p : t) : vec3 * vec3 * vec3 * float * float :=
(eye p, target p, up p, yaw p, pitch p).

End CameraPreset.

Module Camera3D.

Record t := mk {
  mEye : vec3;
  mTarget : vec3;
  mUp : vec3;
  mFovYDeg : float;
  mAspect : float;
  mNearZ : float;
  mFarZ : float }.

Definition setLookAt (eye target up : vec3) (c : t) : t :=
mk eye target up (mFovYDeg c) (mAspect c) (mNearZ c) (mFarZ c).

Definition eye (c : t) : vec3 := mEye c.
Definition target (c : t) : vec3 := mTarget c.
Definition up (c : t) : vec3 := mUp c.

End Camera3D.

Module View.

(** The members the preset functions read and write; the members that
    only the mouse and keyboard handling uses are left out. *)
Record t := mk {
  camera : Camera3D.t;
  yaw : float;
  pitch : float;
  presets : list CameraPreset.t }.

Definition MAX_PRESETS : Z := 10.

(** [presets.resize(n)] on a vector that is shorter than [n]. *)
Definition resize (n : nat) (ps : list CameraPreset.t) : list CameraPreset.t :=
ps ++ repeat CameraPreset.zeroed (n - List.length ps).

(** [presets[slot] = p]. *)
Fixpoint assign (slot : nat) (p : CameraPreset.t) (ps : list CameraPreset.t)
  : list CameraPreset.t :=
match ps, slot with
| [], _ => []
| _ :: rest, O => p :: rest
| q :: rest, S k => q :: assign k p rest
end.

Definition savePreset (slot : Z) (v : t) : t :=
if (slot <? 0)%Z || (slot >=? MAX_PRESETS)%Z then v
else
  let ps :=
    if (List.length (presets v) <=? Z.to_nat slot)%nat
    then resize (Z.to_nat slot + 1) (presets v)
    else presets v in
  let p := CameraPreset.save (Camera3D.eye (camera v)) (Camera3D.target (camera v))
                             (Camera3D.up (camera v)) (yaw v) (pitch v) in
  mk (camera v) (yaw v) (pitch v) (assign (Z.to_nat slot) p ps).

Definition restorePreset (slot : Z) (v : t) : t :=
if (slot <? 0)%Z || (List.length (presets v) <=? Z.to_nat slot)%nat then v
else
  match nth_error (presets v) (Z.to_nat slot) with
  | None => v
  | Some p =>
      let '(eye, target, up, y, pitchVal) := CameraPreset.restore p in
      mk (Camera3D.setLookAt eye target up (camera v)) y pitchVal (presets v)
  end.

End View.

(* ================================================================== *)
(** * The decoder of the half-float test (tests/test_utils.cpp) *)

Module TestUtils.

(** The float the loop body of [testHalfFloatRoundTrip] rebuilds from a
    half: zero for exponent field 0, infinity or NaN for 31, and otherwise
    the binary32 number with the same sign, the exponent rebiased and the
    ten mantissa bits moved up by 13. *)
Definition reconstruct (half : N) : float :=
let sign := N.land (N.shiftr half 15) 1 in
let exp := N.land (N.shiftr half 10) 31 in
let mantissa := N.land half 1023 in
let negative := (sign =? 1)%N in
if (exp =? 0)%N then S754_zero negative
else if (exp =? 31)%N then
  if (mantissa =? 0)%N then S754_infinity negative else S754_nan
else
  match (8388608 + N.shiftl mantissa 13)%N with
  | Npos m => S754_finite negative m (Z.of_N exp - 15 + 127 - 150)
  | N0 => S754_zero negative
  end.

End TestUtils.

(* ================================================================== *)
(** * The driver state that GLStateCache mirrors *)

Module Driver.
Import GL.

(** The depth function, depth write mask and colour write mask the driver
    holds, and what a call does to them. *)
Definition apply (st : GLStateCache.t) (c : Call) : GLStateCache.t :=
match c with
| glDepthFunc func =>
    GLStateCache.mk func (GLStateCache.mDepthWrite st) (GLStateCache.mColorWrite st)
| glDepthMask flag =>
    GLStateCache.mk (GLStateCache.mDepthFunc st) flag (GLStateCache.mColorWrite st)
| glColorMask r g b a =>
    GLStateCache.mk (GLStateCache.mDepthFunc st) (GLStateCache.mDepthWrite st)
                    (r, g, b, a)
| _ => st
end.

Definition run (st : GLStateCache.t) (cs : list Call) : GLStateCache.t :=
fold_left apply cs st.

End Driver.

(* ================================================================== *)
(** * Reading a sequence of driver calls *)

Module Trace.
Import GL.

(** The payloads of the [glBufferData] calls on one target, in order. *)
Definition vertexUpload (c : Call) : list Payload :=
  match c with
  | glBufferData GL_ARRAY_BUFFER _ data _ => [data]
  | _ => []
  end.
Definition vertexUploads (cs : list Call) : list Payload := flat_map vertexUpload cs.

Definition indexUpload (c : Call) : list Payload :=
  match c with
  | glBufferData GL_ELEMENT_ARRAY_BUFFER _ data _ => [data]
  | _ => []
  end.
Definition indexUploads (cs : list Call) : list Payload := flat_map indexUpload cs.

(** The attribute slot and component type of each [glVertexAttribPointer]
    call. *)
Definition attribType (c : Call) : list (N * DataType) :=
  match c with
  | glVertexAttribPointer index _ type _ _ => [(index, type)]
  | _ => []
  end.
Definition attribTypes (cs : list Call) : list (N * DataType) :=
  flat_map attribType cs.

(** The index values an element-array payload holds, and its element
    type. *)
Definition storedIndices (p : Payload) : list N :=
  match p with
  | UInt16 xs | UInt32 xs => xs
  | _ => []
  end.
Definition is16Bit (p : Payload) : bool :=
  match p with UInt16 _ => true | _ => false end.

Definition isDraw (c : Call) : bool :=
  match c with
  | glDrawArrays _ _ _ | glDrawElements _ _ _ | glDrawElementsInstanced _ _ _ _ => true
  | _ => false
  end.

(** The draw calls, each with the vertex array bound when it is issued;
    [bound] is the vertex array bound at the start. *)
Fixpoint drawsOn (bound : GlId) (cs : list Call) : list (GlId * Call) :=
  match cs with
  | [] => []
  | glBindVertexArray id :: rest => drawsOn id rest
  | c :: rest =>
      if isDraw c then (bound, c) :: drawsOn bound rest else drawsOn bound rest
  end.

(** The buffer names generated and the buffer names deleted, in order. *)
Definition generated (c : Call) : list GlId :=
match c with glGenBuffers id => [id] | _ => [] end.
Definition deleted (c : Call) : list GlId :=
match c with glDeleteBuffers id => [id] | _ => [] end.

(** Every object name a [glGen*] call returned. *)
Definition named (c : Call) : list GlId :=
match c with
| glGenBuffers id | glGenVertexArrays id | glGenQueries id => [id]
| _ => []
end.

(** The vertex array bound after some calls. *)
Definition boundAfter (bound : GlId) (cs : list Call) : GlId :=
  fold_left (fun b c => match c with glBindVertexArray id => id | _ => b end)
            cs bound.

(** The element type of each [glDrawElements] call, and the element type
    that fits an uploaded index payload. *)
Definition elementType (c : Call) : list DataType :=
  match c with glDrawElements _ _ type => [type] | _ => [] end.
Definition elementTypes (cs : list Call) : list DataType := flat_map elementType cs.
Definition widthType (p : Payload) : DataType :=
  if is16Bit p then GL_UNSIGNED_SHORT else GL_UNSIGNED_INT.

(** The sizes passed to [glPointSize], in order, and the point size the
    driver holds after some calls. *)
Definition pointSize (c : Call) : list float :=
  match c with glPointSize size => [size] | _ => [] end.
Definition pointSizes (cs : list Call) : list float := flat_map pointSize cs.
Definition pointSizeAfter (size : float) (cs : list Call) : float :=
  last (pointSizes cs) size.

(** The warnings written to [std::cerr]. *)
Definition warning (c : Call) : list Call :=
  match c with cerr_no_VAO => [c] | _ => [] end.
Definition warnings (cs : list Call) : list Call := flat_map warning cs.

(** A list that keeps some elements of another, in their order. *)
Inductive subseq {A : Type} : list A -> list A -> Prop :=
| subseq_nil : subseq [] []
| subseq_skip : forall x l1 l2, subseq l1 l2 -> subseq l1 (x :: l2)
| subseq_keep : forall x l1 l2, subseq l1 l2 -> subseq (x :: l1) (x :: l2).

(** The expected component types of the five attributes. *)
Definition optimizedTypes : list (N * DataType) :=
  [ (0, GL_HALF_FLOAT); (1, GL_FLOAT); (2, GL_HALF_FLOAT); (3, GL_FLOAT);
    (4, GL_FLOAT) ]%N.
Definition fullFloatTypes : list (N * DataType) :=
  [ (0, GL_FLOAT); (1, GL_FLOAT); (2, GL_FLOAT); (3, GL_FLOAT); (4, GL_FLOAT) ]%N.

End Trace.

(** What [uploadToGPU] decides for a mesh it has not uploaded before, read
    off the mesh: the two flags, what goes into the vertex and the index
    buffer, and the component types of the five attributes. *)
Module UploadShape.
Import GL Model.
Local Open Scope N_scope.

Definition optimizedFlag (mesh : Mesh) : bool :=
  negb (isPointCloud mesh) && (Config.VertexOptimizationMinVerts <=? vertexCount mesh).

Definition indexed (mesh : Mesh) : bool :=
  negb (isPointCloud mesh) && (0 <? indexCount mesh).

Definition sixteenBitFlag (mesh : Mesh) : bool :=
  if indexed mesh then (vertexCount mesh <? 65536) && allFit (indices mesh)
  else uses16BitIndices mesh.

Definition vertexPayload (mesh : Mesh) : Payload :=
  if optimizedFlag mesh then OptimizedVertices (map packVertex (vertices mesh))
  else Vertices (vertices mesh).

Definition indexPayload (mesh : Mesh) : list Payload :=
  if indexed mesh then
    [ if sixteenBitFlag mesh then UInt16 (map to_uint16 (indices mesh))
      else UInt32 (indices mesh) ]
  else [].

Definition attributeTypes (mesh : Mesh) : list (N * DataType) :=
  if optimizedFlag mesh then Trace.optimizedTypes else Trace.fullFloatTypes.

(** The mesh as the loop body leaves it, up to the three object names. *)
Definition sameData (mesh mesh' : Mesh) : Prop :=
  vertices mesh' = vertices mesh /\ indices mesh' = indices mesh
  /\ indexCount mesh' = indexCount mesh /\ vertexCount mesh' = vertexCount mesh
  /\ isPointCloud mesh' = isPointCloud mesh.

End UploadShape.

(** The scalar range of an accumulator of [loadFromFile] that has seen no
    scalar but 0: as initialised, or collapsed to 0. *)
Module LoadShape.
Import Model.

Definition scalarsUnset (b : Bounds) : Prop :=
  (bScalarMin b = F32.max_float /\ bScalarMax b = F32.opp F32.max_float)
  \/ (bScalarMin b = F32.zero /\ bScalarMax b = F32.zero).

(** Whether [loadFromFile] builds the octree for the meshes it made. *)
Definition buildsIndex (m : t) : bool :=
  isPointCloudModel m
  && (Config.PointCloudMinPointsForOctree <=? totalPoints (mMeshes m))%N.

End LoadShape.

(** What [Model::draw] does for one mesh, read off the mesh. *)
Module DrawShape.
Import GL Model.
Local Open Scope N_scope.

Definition drawCall (mesh : Mesh) : list Call :=
  if isPointCloud mesh then [glDrawArrays GL_POINTS 0 (vertexCount mesh)]
  else if indexCount mesh =? 0 then []
  else [glDrawElements GL_TRIANGLES (indexCount mesh)
                       (if uses16BitIndices mesh then GL_UNSIGNED_SHORT
                        else GL_UNSIGNED_INT)].

(** The draw calls of a mesh, each with the vertex array it runs on: none
    for a mesh that was never uploaded. *)
Definition drawn (mesh : Mesh) : list (GlId * Call) :=
  if valid (vao mesh) then map (pair (vao mesh)) (drawCall mesh) else [].

(** The same for the loop of [drawPoints] and [drawSphereImpostors]. *)
Definition drawnAsPoints (mesh : Mesh) : list (GlId * Call) :=
  if negb (valid (vao mesh)) || (vertexCount mesh =? 0) then []
  else [(vao mesh, glDrawArrays GL_POINTS 0 (vertexCount mesh))].

(** The instanced draw of [drawInstancedSpheres] for one mesh, with the
    vertex array of the sphere mesh. *)
Definition instanced (sm : SphereMesh) (mesh : Mesh) : list (GlId * Call) :=
  if negb (isPointCloud mesh) || (vertexCount mesh =? 0) then []
  else [(sm_vao sm,
         glDrawElementsInstanced GL_TRIANGLES (sm_indexCount sm)
           (if sm_uses16BitIndices sm then GL_UNSIGNED_SHORT else GL_UNSIGNED_INT)
           (vertexCount mesh))].

(** Whether [drawPointsSubset] finds a first mesh it can draw from. *)
Definition subsetDrawable (m : t) : bool :=
  match mMeshes m with
  | mesh :: _ => isPointCloud mesh && valid (vao mesh)
  | [] => false
  end.

End DrawShape.

(* ================================================================== *)
(** * Concrete inputs *)

Module Examples.
Import glm.

(** [m / 2^e] as a float, and the point with three equal coordinates. *)
Definition frac (m : Z) (e : Z) : float := F32.lit m (- e).
Definition diag3 (c : float) : vec3 := mkVec3 c c c.
Definition at0 : vec3 := diag3 F32.zero.

(** Two points in opposite octants of the unit box. *)
Definition twoPoints : list Octree.Point :=
  [ Octree.mkPoint (diag3 (frac 1 2)) 0; Octree.mkPoint (diag3 (frac 3 2)) 1 ].
Definition unitMax : vec3 := diag3 F32.one.




(** Three points in the box of side 3/4: two share the low octant, one
    sits in the high octant. *)
Definition threePoints : list Octree.Point :=
  [ Octree.mkPoint (diag3 (frac 1 4)) 0; Octree.mkPoint (diag3 (frac 1 2)) 1;
    Octree.mkPoint (diag3 (frac 1 1)) 2 ].
Definition smallMax : vec3 := diag3 (frac 3 2).

(** A camera 100 units from the centre of that box, and one close by. *)
Definition lodCamera : vec3 := mkVec3 (frac 803 3) (frac 3 3) (frac 3 3).
Definition nearCamera : vec3 := mkVec3 F32.one (frac 3 3) (frac 3 3).


(** A scene of one mesh with [n] vertices at the origin and the given
    faces, and the model [loadFromFile] makes of a scene. *)
Definition sceneOf (n : N) (faces : list (list N)) : Assimp.aiScene :=
  Assimp.mkScene
    [ Assimp.mkMesh n (Some (repeat at0 (N.to_nat n))) None None None
                    (map Assimp.mkFace faces) ].

(** Whether [loadFromFile] on a fresh model reports success. *)
Definition loads (scene : Assimp.aiScene) : bool :=
  match Model.loadFromFile [] (Some scene) Model.empty with
  | Done (true, _) => true
  | _ => false
  end.

Definition load (scene : Assimp.aiScene) : Model.t :=
  match Model.loadFromFile [] (Some scene) Model.empty with
  | Done (true, m) => m
  | _ => Model.empty
  end.

(** A point cloud in two meshes, one vertex in the first and two in the
    second, loaded and uploaded. *)
Definition twoCloudScene : Assimp.aiScene :=
  Assimp.mkScene
    [ Assimp.mkMesh 1 (Some [at0]) None None None [];
      Assimp.mkMesh 2 (Some [diag3 F32.one; diag3 F32.half]) None None None [] ].
Definition twoCloudModel : Model.t :=
  fst (Model.uploadToGPU false (load twoCloudScene) GL.initial).

Definition firstCloud : Model.Mesh := hd Model.emptyMesh (Model.mMeshes twoCloudModel).
Definition otherClouds : list Model.Mesh := tl (Model.mMeshes twoCloudModel).

(** One triangle, loaded and uploaded, in a scene with frustum culling
    off; the occlusion toggle and the culler are the arguments. *)
Definition triangleModel : Model.t :=
  fst (Model.uploadToGPU true (load (sceneOf 3 [[0; 1; 2]%N])) GL.initial).
Definition triangleEnv : GL.Env :=
  snd (Model.uploadToGPU true (load (sceneOf 3 [[0; 1; 2]%N])) GL.initial).
Definition triangleScene (occlusionCulling : bool) (culler : OcclusionCuller.t)
  : Scene.t :=
  Scene.mk triangleModel glm.identity (F32.lit 2 0) Points false
           (F32.lit 1 (-7)) false false true occlusionCulling culler 0%N 0%N 0%N.
Definition frame : FrameState :=
  mkFrameState glm.identity glm.identity glm.identity at0.

(** A culler initialised on an OpenGL 2.1 context. *)
Definition culler21 : OcclusionCuller.t :=
  fst (OcclusionCuller.initialize (Some (2, 1)%Z) OcclusionCuller.fresh
                                  triangleEnv).

(** The cache after [reset], and the requests of a frame with the depth
    prepass on (Renderer.cpp). *)
Definition resetCache : GLStateCache.t :=
  GLStateCache.mk GL.GL_LESS true (true, true, true, true).
Definition prepassRequests : list GLStateCache.Request :=
  [ GLStateCache.SetColorMask false false false false;
    GLStateCache.SetDepthMask true;
    GLStateCache.SetDepthFunc GL.GL_LESS;
    GLStateCache.SetColorMask true true true true;
    GLStateCache.SetDepthFunc GL.GL_LEQUAL;
    GLStateCache.SetDepthMask false ].

(** The two-mesh point cloud in a scene that draws plain points, with
    frustum culling and spatial indexing off. *)
Definition cloudScene : Scene.t :=
  Scene.mk twoCloudModel glm.identity (F32.lit 2 0) Points false
           (F32.lit 1 (-7)) false false false true culler21 0%N 0%N 0%N.
Definition counters0 : Scene.ProfilingData := Scene.mkProfilingData 0 0 0.

(** A view with the default camera and no presets. *)
Definition camera0 : Camera3D.t :=
  Camera3D.mk (mkVec3 F32.zero F32.zero (F32.lit 3 0)) (glm.splat3 F32.zero)
              (mkVec3 F32.zero F32.one F32.zero) (F32.lit 45 0) F32.one
              (frac 1 3) (F32.lit 100 0).
Definition view0 : View.t :=
  View.mk camera0 (F32.opp (F32.lit 90 0)) F32.zero [].

(** A culler initialised on an OpenGL 3.3 context, and a depth shader. *)
Definition culler33 : OcclusionCuller.t :=
  fst (OcclusionCuller.initialize (Some (3, 3)%Z) OcclusionCuller.fresh
                                  triangleEnv).
Definition culler33Env : GL.Env :=
  snd (OcclusionCuller.initialize (Some (3, 3)%Z) OcclusionCuller.fresh
                                  triangleEnv).
Definition depthShader : Shader.t := Shader.mk 7%N.

Definition hundred : float := F32.lit 100 0.
Definition ten : float := F32.lit 10 0.

End Examples.

(* ================================================================== *)
(** * Verification *)

Unset Implicit Arguments.

(** Float arithmetic and the tests built on it are compared by name, never
    by unfolding. *)
Opaque F32.add F32.sub F32.mul F32.div F32.sqrt F32.ltb F32.leb F32.gtb F32.geb
       F32.std_min F32.std_max F32.bits.

(* ================================================================== *)
(** * The box-against-frustum test *)

Module FrustumFacts.
Import glm Frustum.



End FrustumFacts.


Opaque Frustum.intersectsAABB Frustum.extractFromMatrix Octree.distanceToAABB.

(* ================================================================== *)
(** * Facts about the octree *)

Module OctreeFacts.
Import Octree OctreeShape.

(** Induction over a tree whose children sit in a list of optional
    slots. *)
Lemma Node_nested_ind (P : Node -> Prop) :
  (forall mn mx pts slots lv leaf,
      Forall (fun c => match c with Some k => P k | None => True end) slots ->
      P (mkNode mn mx pts slots lv leaf)) ->
  forall n, P n.
Proof.
  intros step. fix IH 1. intros [mn mx pts slots lv leaf].
  apply step. induction slots as [|[k|] rest IHrest]; constructor; auto.
Qed.



Lemma nodes_unfold mn mx pts slots lv leaf :
  nodes (mkNode mn mx pts slots lv leaf)
  = mkNode mn mx pts slots lv leaf :: flat_map slotNodes slots.
Proof. reflexivity. Qed.

Lemma leafIndices_flat_map (slots : list (option Node)) :
  flat_map pointIndices (filter isLeaf (flat_map slotNodes slots))
  = flat_map slotLeafIndices slots.
Proof.
  induction slots as [|c rest IH]; simpl; [reflexivity|].
  rewrite filter_app, flat_map_app, IH. destruct c; reflexivity.
Qed.

Lemma leafIndices_internal mn mx pts slots lv :
  leafIndices (mkNode mn mx pts slots lv false) = flat_map slotLeafIndices slots.
Proof.
  unfold leafIndices, leaves. rewrite nodes_unfold. simpl.
  apply leafIndices_flat_map.
Qed.

Lemma leafIndices_leaf mn mx pts slots lv :
  leafIndices (mkNode mn mx pts slots lv true)
  = pts ++ flat_map slotLeafIndices slots.
Proof.
  unfold leafIndices, leaves. rewrite nodes_unfold. simpl.
  now rewrite leafIndices_flat_map.
Qed.

Lemma flat_map_all_None {B : Type} (f : option Node -> list B) slots :
  f None = [] -> Forall (eq None) slots -> flat_map f slots = [].
Proof.
  intros Hf Hall. induction Hall as [|c rest <- _ IH]; simpl; [reflexivity|].
  now rewrite Hf, IH.
Qed.

Lemma repeat_None_all n : Forall (eq (@None Node)) (repeat None n).
Proof. induction n; simpl; constructor; auto. Qed.

(** ** Distribution over the octants *)

Lemma getChildIndex_lt8 p c : (getChildIndex p c < 8)%N.
Proof.
  unfold getChildIndex.
  destruct (F32.geb (glm.v3x p) (glm.v3x c)), (F32.geb (glm.v3y p) (glm.v3y c)),
    (F32.geb (glm.v3z p) (glm.v3z c)); simpl; lia.
Qed.

Lemma push_back_at_length k x bs :
  List.length (push_back_at k x bs) = List.length bs.
Proof.
  revert k; induction bs as [|b rest IH]; intros [|k]; simpl; auto.
Qed.

Lemma push_back_at_perm k x bs :
  (k < List.length bs)%nat ->
  Permutation (concat (push_back_at k x bs)) (concat bs ++ [x]).
Proof.
  revert k; induction bs as [|b rest IH]; intros [|k] Hk; simpl in *; try lia.
  - rewrite <- !app_assoc. apply Permutation_app_head.
    apply Permutation_app_comm.
  - rewrite <- app_assoc. apply Permutation_app_head. apply IH. lia.
Qed.


Lemma distribute_done points c idxs :
  forall bs,
    Forall (inRange points) idxs ->
    List.length bs = 8%nat ->
    exists bs',
      distribute points c idxs bs = Done bs'
      /\ List.length bs' = 8%nat
      /\ Permutation (concat bs') (concat bs ++ idxs).
Proof.
  induction idxs as [|i rest IH]; intros bs Hin Hlen; simpl.
  - exists bs. rewrite app_nil_r. auto.
  - inversion Hin as [|? ? Hi Hrest]; subst.
    destruct (nth_error points (N.to_nat i)) as [p|] eqn:Hp.
    2:{ apply nth_error_None in Hp. unfold inRange in Hi. lia. }
    pose proof (getChildIndex_lt8 (position p) c) as Hlt.
    apply N.ltb_lt in Hlt. rewrite Hlt. apply N.ltb_lt in Hlt.
    destruct (IH (push_back_at (N.to_nat (getChildIndex (position p) c)) i bs))
      as (bs' & Hd & Hl & Hperm); auto.
    { now rewrite push_back_at_length. }
    exists bs'. repeat split; auto.
    rewrite Hperm.
    rewrite push_back_at_perm by lia.
    now rewrite <- app_assoc.
Qed.

(** ** The loop over the eight slots *)

Lemma forEach_Forall2 {A B S : Type} (body : A -> S -> outcome (B * S))
      (R : A -> B -> Prop) (l : list A) :
  (forall a, In a l -> forall s, exists b s', body a s = Done (b, s') /\ R a b) ->
  forall s, exists bs s', forEach body l s = Done (bs, s') /\ Forall2 R l bs.
Proof.
  induction l as [|a rest IH]; intros Hbody s; simpl.
  - exists [], s. split; [reflexivity|constructor].
  - destruct (Hbody a (or_introl eq_refl) s) as (b & s1 & Hb & HR).
    rewrite Hb; simpl.
    destruct (IH (fun a' Hin => Hbody a' (or_intror Hin)) s1)
      as (bs & s2 & Hbs & HRs).
    rewrite Hbs; simpl. exists (b :: bs), s2. split; [reflexivity|].
    constructor; auto.
Qed.

(** ** What [buildRecursive] establishes *)

Section Build.
Variable points : list Point.
Variables maxPointsPerNode maxDepth : N.
Hypothesis maxDepth_uint : (maxDepth < UINT_WRAP)%N.

Local Abbreviation wellFormed := (wellFormed maxPointsPerNode maxDepth).
Local Abbreviation slotBuilt := (slotBuilt maxPointsPerNode maxDepth).

Lemma slots_perm l slots :
  Forall2 slotBuilt l slots ->
  Permutation (flat_map slotLeafIndices slots) (concat (map snd l)).
Proof.
  induction 1 as [|ib slot l slots Hs _ IH]; simpl; [constructor|].
  apply Permutation_app; [|exact IH].
  destruct slot as [child|]; simpl in *.
  - tauto.
  - rewrite Hs. constructor.
Qed.

Lemma slots_wellFormed l slots :
  Forall2 slotBuilt l slots -> Forall wellFormed (flat_map slotNodes slots).
Proof.
  induction 1 as [|ib slot l slots Hs _ IH]; simpl; [constructor|].
  apply Forall_app. split; [|exact IH].
  destruct slot as [child|]; simpl in *; [tauto|constructor].
Qed.

Lemma slots_hasChildren l slots :
  Forall2 slotBuilt l slots ->
  concat (map snd l) <> [] -> hasChildren slots = true.
Proof.
  induction 1 as [|ib slot l slots Hs _ IH]; simpl; intros Hne.
  - congruence.
  - destruct slot as [child|]; [reflexivity|]. simpl in *.
    apply IH. now rewrite Hs in Hne.
Qed.

Lemma map_snd_combine {A B : Type} (la : list A) (lb : list B) :
  List.length la = List.length lb -> map snd (combine la lb) = lb.
Proof.
  revert lb; induction la as [|a la IH]; intros [|b lb] Hlen; simpl in *;
    try congruence; try reflexivity.
  f_equal. apply IH. lia.
Qed.

Lemma buildRecursive_built fuel :
  forall node indices st,
    (level node <= maxDepth)%N ->
    (N.to_nat maxDepth - N.to_nat (level node) < fuel)%nat ->
    children node = repeat None 8 ->
    pointIndices node = [] ->
    Forall (inRange points) indices ->
    exists node' st',
      buildRecursive fuel node points indices maxPointsPerNode maxDepth st
      = Done (node', st')
      /\ level node' = level node
      /\ min node' = min node /\ max node' = max node
      /\ Permutation (leafIndices node') indices
      /\ Forall wellFormed (nodes node').
Proof.
  induction fuel as [|fuel IH]; intros node indices st Hlv Hfuel Hch Hpts Hin;
    [lia|].
  cbn [buildRecursive].
  destruct ((N.of_nat (List.length indices) <=? maxPointsPerNode)%N
            || (maxDepth <=? level node)%N) eqn:Hstop.
  - (* a leaf *)
    eexists _, _. split; [reflexivity|]. cbn [level min max].
    repeat split.
    + rewrite leafIndices_leaf, Hch.
      rewrite flat_map_all_None by (auto using repeat_None_all).
      now rewrite app_nil_r.
    + rewrite nodes_unfold, Hch.
      rewrite flat_map_all_None by (auto using repeat_None_all).
      constructor; [|constructor].
      unfold wellFormed; cbn [isLeaf pointIndices children level].
      split; [congruence|]. split; [|split].
      * intros _. apply repeat_None_all.
      * exact Hlv.
      * intros _. apply orb_true_iff in Hstop as [H|H].
        -- left. now apply N.leb_le.
        -- right. apply N.leb_le in H. lia.
  - (* an internal node *)
    apply orb_false_iff in Hstop as [Hmany Hdeep].
    apply N.leb_gt in Hmany. apply N.leb_gt in Hdeep.
    destruct (@distribute_done points (center node) indices (repeat [] 8) Hin
                eq_refl)
      as (bs & Hd & Hlen & Hperm).
    rewrite Hd. cbn [bind].
    simpl (concat (repeat [] 8)) in Hperm. simpl app in Hperm.
    set (body := fun (ib : N * list N) (st0 : Stats) => _).
    assert (Hsucc : uint_succ (level node) = (level node + 1)%N).
    { unfold uint_succ. apply N.mod_small. lia. }
    destruct (@forEach_Forall2 _ _ _ body slotBuilt
                (combine (map N.of_nat (seq 0 8)) bs)) with
      (s := mkStats (uint_succ (nodeCount st)) (maxDepthSeen st))
      as (slots & st' & Hloop & Hslots).
    { intros [i bucket] Hib s. unfold body.
      destruct bucket as [|x bucket'] eqn:Hb; cbn [isEmpty].
      - eexists _, _. split; [reflexivity|]. reflexivity.
      - destruct (IH (newNode (childMin node (center node) i)
                              (childMax node (center node) i)
                              (uint_succ (level node)))
                     (x :: bucket') s)
          as (child' & s' & Hrec & _ & _ & _ & Hp & Hwf).
        + cbn [newNode level]. lia.
        + cbn [newNode level]. lia.
        + reflexivity.
        + reflexivity.
        + apply in_combine_r in Hib.
          rewrite Forall_forall in Hin |- *. intros y Hy. apply Hin.
          eapply Permutation_in; [exact Hperm|].
          apply in_concat. exists (x :: bucket'). auto.
        + rewrite Hrec. cbn [bind]. eexists _, _. split; [reflexivity|].
          cbn [slotBuilt snd]. repeat split; auto. congruence. }
    rewrite Hloop. cbn [bind].
    assert (Hsnd : map snd (combine (map N.of_nat (seq 0 8)) bs) = bs).
    { apply map_snd_combine. now rewrite Hlen. }
    rewrite (slots_hasChildren _ _ Hslots).
    2:{ rewrite Hsnd. intros Hnil. rewrite Hnil in Hperm.
        apply Permutation_nil in Hperm. subst indices. simpl in Hmany. lia. }
    eexists _, _. split; [reflexivity|]. cbn [level min max].
    repeat split.
    + rewrite leafIndices_internal, (slots_perm _ _ Hslots), Hsnd. exact Hperm.
    + rewrite nodes_unfold. constructor; [|exact (slots_wellFormed _ _ Hslots)].
      unfold wellFormed; cbn [isLeaf pointIndices children level].
      split; [auto|]. split; [congruence|]. split; [lia|congruence].
Qed.

End Build.

Lemma indexSet_inRange points : Forall (inRange points) (indexSet points).
Proof.
  unfold indexSet. apply Forall_forall. intros i Hi.
  apply in_map_iff in Hi as (k & <- & Hk). apply in_seq in Hk.
  unfold inRange. rewrite Nat2N.id. lia.
Qed.

(** [build] returns a tree whenever its arguments are in the range of
    their C++ types, and the tree has the shape above. *)
Lemma build_built points mn mx maxPointsPerNode maxDepth :
  (N.of_nat (List.length points) < UINT_WRAP)%N ->
  (maxDepth < UINT_WRAP)%N ->
  exists root count depth,
    build points mn mx maxPointsPerNode maxDepth
    = Done (mk (Some root) count depth)
    /\ level root = 0%N /\ min root = mn /\ max root = mx
    /\ Permutation (leafIndices root) (indexSet points)
    /\ Forall (wellFormed maxPointsPerNode maxDepth) (nodes root).
Proof.
  intros Hn Hd. unfold build.
  apply N.leb_gt in Hn. rewrite Hn.
  assert (Hlv : (level (newNode mn mx 0) <= maxDepth)%N)
    by (cbn [newNode level]; lia).
  assert (Hfuel : (N.to_nat maxDepth - N.to_nat (level (newNode mn mx 0))
                   < S (N.to_nat maxDepth))%nat)
    by (cbn [newNode level]; lia).
  destruct (@buildRecursive_built points maxPointsPerNode maxDepth Hd
              (S (N.to_nat maxDepth)) (newNode mn mx 0) (indexSet points)
              (mkStats 0 0) Hlv Hfuel eq_refl eq_refl (indexSet_inRange points))
    as (root & st & Hb & Hl & Hmin & Hmax & Hp & Hwf).
  fold (indexSet points). rewrite Hb. cbn [bind].
  exists root, (nodeCount st), (maxDepthSeen st).
  cbn [newNode level min max] in Hl, Hmin, Hmax. repeat split; assumption.
Qed.

End OctreeFacts.

(* ================================================================== *)
(** * Facts about the queries *)

Module QueryFacts.
Import Octree OctreeShape OctreeFacts.


(** No computed distance exceeds +infinity. *)
Lemma withinDistance_infinity camPos nd :
  withinDistance camPos F32.infinity nd = true.
Proof.
  unfold withinDistance. apply negb_true_iff.
  change (SFltb F32.infinity (distanceToAABB camPos (min nd) (max nd)) = false).
  destruct (distanceToAABB camPos (min nd) (max nd)) as [s|[|]| |s m e];
    reflexivity.
Qed.

(** The accumulator of the LOD traversal only grows at its end. *)
Lemma leafChildrenPoints_app slots :
  forall out, leafChildrenPoints slots out = out ++ flat_map slotDirect slots.
Proof.
  unfold leafChildrenPoints.
  induction slots as [|c rest IH]; intros out; cbn [fold_left flat_map].
  - now rewrite app_nil_r.
  - rewrite IH. destruct c as [child|]; cbn [slotDirect].
    + destruct (isLeaf child); cbn [app]; [now rewrite app_assoc|reflexivity].
    + reflexivity.
Qed.

Section LOD.
Variables (camPos : vec3) (distance farThreshold nearThreshold : float).

Local Abbreviation descend :=
  (fun out c =>
     match c with
     | Some child =>
         getLODPointsRecursive child camPos distance farThreshold
                               nearThreshold out
     | None => out
     end).

Lemma descend_app slots :
  Forall (fun c =>
            match c with
            | Some k =>
                forall out,
                  getLODPointsRecursive k camPos distance farThreshold
                                        nearThreshold out
                  = out ++ getLODPointsRecursive k camPos distance farThreshold
                                                 nearThreshold []
            | None => True
            end) slots ->
  forall out,
    fold_left descend slots out
    = out ++ flat_map (slotLOD camPos distance farThreshold nearThreshold) slots.
Proof.
  induction 1 as [|c rest Hc _ IH]; intros out; cbn [fold_left flat_map].
  - now rewrite app_nil_r.
  - rewrite IH. destruct c as [child|]; cbn [slotLOD].
    + rewrite Hc. now rewrite app_assoc.
    + reflexivity.
Qed.

Lemma getLODPointsRecursive_app :
  forall node out,
    getLODPointsRecursive node camPos distance farThreshold nearThreshold out
    = out ++ getLODPointsRecursive node camPos distance farThreshold
                                   nearThreshold [].
Proof.
  induction node as [mn mx pts slots lv leaf IH] using Node_nested_ind.
  intros out. cbn [getLODPointsRecursive].
  match goal with
  | |- context [if ?c || leaf then _ else _] => destruct (c || leaf)
  end.
  - destruct leaf; [reflexivity|].
    now rewrite (leafChildrenPoints_app slots out), (leafChildrenPoints_app slots []).
  - now rewrite (descend_app slots IH out), (descend_app slots IH []).
Qed.

(** One step of the traversal, with the three cases apart. *)
Lemma getLODPointsRecursive_step node :
  getLODPointsRecursive node camPos distance farThreshold nearThreshold []
  = if isLeaf node then pointIndices node
    else if useNode camPos farThreshold node
         then flat_map slotDirect (children node)
         else flat_map (slotLOD camPos distance farThreshold nearThreshold)
                       (children node).
Proof.
  destruct node as [mn mx pts slots lv leaf].
  cbn [getLODPointsRecursive isLeaf pointIndices children].
  change (F32.gtb _ farThreshold || F32.ltb _ F32.one_hundredth)
    with (useNode camPos farThreshold (mkNode mn mx pts slots lv leaf)).
  destruct leaf.
  - now rewrite orb_true_r.
  - rewrite orb_false_r.
    destruct (useNode camPos farThreshold (mkNode mn mx pts slots lv false)).
    + now rewrite leafChildrenPoints_app.
    + rewrite descend_app; [reflexivity|].
      apply Forall_forall. intros [k|] _; [|exact I].
      apply getLODPointsRecursive_app.
Qed.

End LOD.

End QueryFacts.

(* ================================================================== *)
(** * The octree claims *)

Section OctreeClaims.
Import Octree OctreeShape OctreeFacts QueryFacts.

Lemma indexSet_NoDup points : NoDup (indexSet points).
Proof.
  unfold indexSet. generalize (seq_NoDup (List.length points) 0).
  generalize (seq 0 (List.length points)) as l.
  induction l as [|k l IH]; intros Hnd; cbn [map]; [constructor|].
  inversion Hnd as [|? ? Hk Hl]; subst. constructor; [|auto].
  intros Hin. apply in_map_iff in Hin as (j & Hj & Hjin).
  apply Nat2N.inj in Hj. now subst.
Qed.

Lemma indexSet_In points i :
  In i (indexSet points) <-> (i < N.of_nat (List.length points))%N.
Proof.
  unfold indexSet. rewrite in_map_iff. split.
  - intros (k & <- & Hk). apply in_seq in Hk. lia.
  - intros Hi. exists (N.to_nat i). rewrite N2Nat.id. split; [reflexivity|].
    apply in_seq. lia.
Qed.

Lemma wellFormed_in maxPointsPerNode maxDepth root nd :
  Forall (wellFormed maxPointsPerNode maxDepth) (nodes root) ->
  In nd (nodes root) -> wellFormed maxPointsPerNode maxDepth nd.
Proof. intros Hall Hin. rewrite Forall_forall in Hall. auto. Qed.

End OctreeClaims.

(** C1. [build] on n points (n and maxDepth in the range of
    [unsigned int]) returns a tree; the index lists of its leaves, put
    together, hold each of 0, ..., n-1 exactly once, and no internal node
    has indices of its own. *)
Theorem build_leaves_partition_the_indices :
  forall (points : list Octree.Point) (mn mx : vec3) (maxPointsPerNode maxDepth : N),
    (N.of_nat (List.length points) < UINT_WRAP)%N ->
    (maxDepth < UINT_WRAP)%N ->
    exists tree root,
      Octree.build points mn mx maxPointsPerNode maxDepth = Done tree
      /\ Octree.mRoot tree = Some root
      /\ Permutation (OctreeShape.leafIndices root) (OctreeShape.indexSet points)
      /\ NoDup (OctreeShape.leafIndices root)
      /\ (forall i, In i (OctreeShape.leafIndices root)
                    <-> (i < N.of_nat (List.length points))%N)
      /\ (forall nd, In nd (OctreeShape.nodes root) ->
                     Octree.isLeaf nd = false -> Octree.pointIndices nd = []).
Proof.
  intros points mn mx mpp md Hn Hd.
  destruct (OctreeFacts.build_built points mn mx mpp md Hn Hd)
    as (root & count & depth & Hb & _ & _ & _ & Hperm & Hwf).
  exists (Octree.mk (Some root) count depth), root.
  split; [exact Hb|]. split; [reflexivity|]. split; [exact Hperm|]. split.
  - apply (Permutation_NoDup (Permutation_sym Hperm)), indexSet_NoDup.
  - split.
    + intros i. rewrite <- indexSet_In. split; apply Permutation_in;
        [exact Hperm|exact (Permutation_sym Hperm)].
    + intros nd Hin Hleaf.
      exact (proj1 (wellFormed_in mpp md root nd Hwf Hin) Hleaf).
Qed.

Lemma build_leaves_partition_the_indices_witness :
  exists tree root,
    Octree.build Examples.twoPoints Examples.at0 Examples.unitMax 1 8 = Done tree
    /\ Octree.mRoot tree = Some root
    /\ Permutation (OctreeShape.leafIndices root)
                   (OctreeShape.indexSet Examples.twoPoints)
    /\ NoDup (OctreeShape.leafIndices root)
    /\ (forall i, In i (OctreeShape.leafIndices root)
                  <-> (i < N.of_nat (List.length Examples.twoPoints))%N)
    /\ (forall nd, In nd (OctreeShape.nodes root) ->
                   Octree.isLeaf nd = false -> Octree.pointIndices nd = []).
Proof.
  apply (build_leaves_partition_the_indices Examples.twoPoints Examples.at0
           Examples.unitMax 1 8); reflexivity.
Defined.

(** C6. In a tree that [build] returns, no node lies deeper than
    [maxDepth], and every leaf either holds at most [maxPointsPerNode]
    indices or sits at level [maxDepth]. *)
Theorem build_leaves_respect_the_limits :
  forall (points : list Octree.Point) (mn mx : vec3) (maxPointsPerNode maxDepth : N),
    (N.of_nat (List.length points) < UINT_WRAP)%N ->
    (maxDepth < UINT_WRAP)%N ->
    exists tree root,
      Octree.build points mn mx maxPointsPerNode maxDepth = Done tree
      /\ Octree.mRoot tree = Some root
      /\ (forall nd, In nd (OctreeShape.nodes root) ->
                     (Octree.level nd <= maxDepth)%N)
      /\ (forall nd, In nd (OctreeShape.leaves root) ->
                     (N.of_nat (List.length (Octree.pointIndices nd))
                      <= maxPointsPerNode)%N
                     \/ Octree.level nd = maxDepth).
Proof.
  intros points mn mx mpp md Hn Hd.
  destruct (OctreeFacts.build_built points mn mx mpp md Hn Hd)
    as (root & count & depth & Hb & _ & _ & _ & _ & Hwf).
  exists (Octree.mk (Some root) count depth), root.
  split; [exact Hb|]. split; [reflexivity|]. split.
  - intros nd Hin. exact (proj1 (proj2 (proj2 (wellFormed_in mpp md root nd Hwf Hin)))).
  - intros nd Hin. unfold OctreeShape.leaves in Hin.
    apply filter_In in Hin as [Hin Hleaf].
    exact (proj2 (proj2 (proj2 (wellFormed_in mpp md root nd Hwf Hin))) Hleaf).
Qed.

Lemma build_leaves_respect_the_limits_witness :
  exists tree root,
    Octree.build Examples.threePoints Examples.at0 Examples.smallMax 1 8 = Done tree
    /\ Octree.mRoot tree = Some root
    /\ (forall nd, In nd (OctreeShape.nodes root) -> (Octree.level nd <= 8)%N)
    /\ (forall nd, In nd (OctreeShape.leaves root) ->
                   (N.of_nat (List.length (Octree.pointIndices nd)) <= 1)%N
                   \/ Octree.level nd = 8%N).
Proof.
  apply (build_leaves_respect_the_limits Examples.threePoints Examples.at0
           Examples.smallMax 1 8); reflexivity.
Defined.




(** C8, as stated, fails twice. A leaf whose centre is 5/8 away from the
    camera and spans 3/4 is neither far nor small, yet its points are
    emitted at once. And the root of the three-point tree, 100 units from
    the camera, spans 3/4 along each axis (below a hundredth of the
    distance) while its diagonal does not fall below a hundredth: the
    code stops there and emits only the one child that is a leaf, where
    descending would have emitted all three indices. *)
Lemma getLODPoints_direct_use_counterexample :
  (exists tree root,
      Octree.build [Octree.mkPoint (Examples.diag3 (Examples.frac 1 2)) 0]
                   Examples.at0 Examples.smallMax 1000 8 = Done tree
      /\ Octree.mRoot tree = Some root
      /\ OctreeShape.specUsedDirectly Examples.nearCamera Examples.hundred root = false
      /\ Octree.getLODPoints tree Examples.nearCamera Examples.hundred
                             Examples.hundred Examples.ten = [0%N]
      /\ flat_map (OctreeShape.slotLOD Examples.nearCamera Examples.hundred
                                       Examples.hundred Examples.ten)
                  (Octree.children root) = [])
  /\ (exists tree root,
         Octree.build Examples.threePoints Examples.at0 Examples.smallMax 1 8
         = Done tree
         /\ Octree.mRoot tree = Some root
         /\ Octree.isLeaf root = false
         /\ OctreeShape.specUsedDirectly Examples.lodCamera Examples.hundred root
            = false
         /\ Octree.getLODPoints tree Examples.lodCamera Examples.hundred
                                Examples.hundred Examples.ten = [2%N]
         /\ flat_map (OctreeShape.slotLOD Examples.lodCamera Examples.hundred
                                          Examples.hundred Examples.ten)
                     (Octree.children root) = [0%N; 1%N; 2%N]).
Proof.
  split; eexists _, _; (split; [vm_compute; reflexivity|]);
    repeat split; vm_compute; reflexivity.
Qed.

(** C8, amended. [getLODPoints] treats a visited node in one of three
    ways. A leaf always emits its own points. An internal node whose centre
    is farther from the camera than [farThreshold], or whose largest extent
    along an axis divided by that distance is below 0.01, is used directly:
    the points of those of its children that are leaves are emitted and
    nothing below is visited. Any other internal node has each of its
    children visited in turn. *)
Theorem getLODPoints_node_cases :
  forall (node : Octree.Node) (camPos : vec3)
         (distance farThreshold nearThreshold : float),
    Octree.getLODPoints (Octree.mk (Some node) 0 0) camPos distance farThreshold
                        nearThreshold
    = if Octree.isLeaf node then Octree.pointIndices node
      else if F32.gtb (glm.length (glm.sub3 camPos (Octree.center node)))
                      farThreshold
              || F32.ltb (F32.div (Octree.maxDim node)
                                  (glm.length (glm.sub3 camPos (Octree.center node))))
                         F32.one_hundredth
           then flat_map OctreeShape.slotDirect (Octree.children node)
           else flat_map (fun c =>
                            match c with
                            | Some child =>
                                Octree.getLODPoints (Octree.mk (Some child) 0 0)
                                  camPos distance farThreshold nearThreshold
                            | None => []
                            end)
                         (Octree.children node).
Proof.
  intros node camPos distance farThreshold nearThreshold.
  unfold Octree.getLODPoints. cbn [Octree.mRoot].
  rewrite QueryFacts.getLODPointsRecursive_step. reflexivity.
Qed.

(* ================================================================== *)
(** * Running driver calls *)

Module GLFacts.
Import GL.

Lemma issued_exact {A : Type} (m : M A) (e : Env) (cs : list Call) :
  calls (snd (m e)) = calls e ++ cs -> issued m e = cs.
Proof.
  intros H. unfold issued. rewrite H, skipn_app, skipn_all, Nat.sub_diag.
  reflexivity.
Qed.

Lemma vertexUploads_app a b :
  Trace.vertexUploads (a ++ b) = Trace.vertexUploads a ++ Trace.vertexUploads b.
Proof. apply flat_map_app. Qed.

Lemma indexUploads_app a b :
  Trace.indexUploads (a ++ b) = Trace.indexUploads a ++ Trace.indexUploads b.
Proof. apply flat_map_app. Qed.

Lemma forEachM_cons {A B : Type} (body : A -> M B) a rest e :
  forEachM body (a :: rest) e
  = let (b, e1) := body a e in
    let (bs, e2) := forEachM body rest e1 in (b :: bs, e2).
Proof.
  cbn [forEachM]. unfold seq, ret. destruct (body a e) as [b e1].
  destruct (forEachM body rest e1); reflexivity.
Qed.

Lemma attribTypes_app a b :
  Trace.attribTypes (a ++ b) = Trace.attribTypes a ++ Trace.attribTypes b.
Proof. apply flat_map_app. Qed.

End GLFacts.

(** Unfolds the monad of driver calls down to the environment, arguments
    first so that an environment is built once. *)
Ltac gl_run :=
  cbv beta iota zeta delta
      [GL.seq GL.call GL.gen GL.ret GL.get GL.put GL.createVertexArray
       GL.createBuffer GL.calls GL.lastName GL.warned GL.sActiveProgram
       GL.sLastPointSize_drawPoints GL.sLastPointSize_drawPointsSubset
       GL.sLastPointSize_drawSphereImpostors fst snd Model.callAll
       Model.attribPointers].

Ltac gl_run_in H :=
  cbv beta iota zeta delta
      [GL.seq GL.call GL.gen GL.ret GL.get GL.put GL.createVertexArray
       GL.createBuffer GL.calls GL.lastName GL.warned GL.sActiveProgram
       GL.sLastPointSize_drawPoints GL.sLastPointSize_drawPointsSubset
       GL.sLastPointSize_drawSphereImpostors fst snd Model.callAll
       Model.attribPointers] in H.

(** Brings [(l ++ [a]) ++ [b]] to [l ++ [a; b]]. *)
Ltac flatten_calls := repeat rewrite <- app_assoc; cbn [app].

(* ================================================================== *)
(** * Facts about the upload *)

Module UploadFacts.
Import GL Model UploadShape.
Local Open Scope N_scope.

Lemma uploadIndices_run mesh ebo' e :
  exists cs,
    calls (snd (uploadIndices mesh ebo' e)) = calls e ++ cs
    /\ lastName (snd (uploadIndices mesh ebo' e)) = lastName e
    /\ fst (uploadIndices mesh ebo' e) = sixteenBitFlag mesh
    /\ Trace.vertexUploads cs = []
    /\ Trace.indexUploads cs = indexPayload mesh
    /\ Trace.attribTypes cs = [].
Proof.
  unfold uploadIndices, indexPayload, sixteenBitFlag, indexed.
  destruct e as [ln cs0 w s1 s2 s3 sp].
  destruct (negb (isPointCloud mesh) && (0 <? indexCount mesh)).
  - destruct (vertexCount mesh <? 65536); cbn [andb];
      [destruct (allFit (indices mesh))|]; gl_run;
      (eexists; split; [flatten_calls; reflexivity|]); repeat split.
  - gl_run. exists []. rewrite app_nil_r. repeat split.
Qed.

Lemma uploadMesh_run mesh e :
  vao mesh = 0 ->
  exists cs,
    calls (snd (uploadMesh mesh e)) = calls e ++ cs
    /\ usesOptimizedVertices (fst (uploadMesh mesh e)) = optimizedFlag mesh
    /\ uses16BitIndices (fst (uploadMesh mesh e)) = sixteenBitFlag mesh
    /\ sameData mesh (fst (uploadMesh mesh e))
    /\ vao (fst (uploadMesh mesh e)) <> 0
    /\ Trace.vertexUploads cs = [vertexPayload mesh]
    /\ Trace.indexUploads cs = indexPayload mesh
    /\ Trace.attribTypes cs = attributeTypes mesh.
Proof.
  intros Hvao. destruct (uploadMesh mesh e) as [mesh' e'] eqn:Hrun.
  cbn [fst snd]. unfold uploadMesh in Hrun. rewrite Hvao in Hrun.
  cbn [valid N.eqb negb] in Hrun.
  unfold vertexPayload, attributeTypes.
  fold (optimizedFlag mesh) in Hrun.
  unfold createVertexArray, createBuffer in Hrun. cbn [N.eqb] in Hrun.
  destruct e as [ln cs0 w s1 s2 s3 sp].
  destruct (vbo mesh =? 0), (isPointCloud mesh) eqn:Hpc; cbn [negb] in Hrun;
    try destruct (ebo mesh =? 0);
    destruct (optimizedFlag mesh); gl_run_in Hrun;
    match type of Hrun with
    | context [uploadIndices mesh ?ebo' ?env] =>
        destruct (uploadIndices_run mesh ebo' env)
          as (ics & Hcalls & Hname & Hflag & Hv & Hi & Ha);
        destruct (uploadIndices mesh ebo' env) as [flag [ln' cs' w' s1' s2' s3' sp']];
        cbn [fst snd calls lastName] in *; subst flag cs'
    end;
    injection Hrun as <- <-;
    cbn [calls usesOptimizedVertices uses16BitIndices vao];
    (eexists; split; [flatten_calls; reflexivity|]);
    (split; [reflexivity|]); (split; [reflexivity|]);
    (split; [repeat split; cbn [isPointCloud]; congruence|]); (split; [lia|]);
    unfold Trace.vertexUploads, Trace.indexUploads, Trace.attribTypes in *;
    repeat split;
    cbn [flat_map Trace.vertexUpload Trace.indexUpload Trace.attribType app];
    rewrite ?flat_map_app, ?Hv, ?Hi, ?Ha;
    cbn [flat_map Trace.vertexUpload Trace.indexUpload Trace.attribType app];
    rewrite ?app_nil_r; reflexivity.
Qed.

Lemma forEachM_uploadMesh l :
  Forall (fun mesh => vao mesh = 0) l ->
  forall e,
  exists cs,
    calls (snd (forEachM uploadMesh l e)) = calls e ++ cs
    /\ map usesOptimizedVertices (fst (forEachM uploadMesh l e))
       = map optimizedFlag l
    /\ map uses16BitIndices (fst (forEachM uploadMesh l e)) = map sixteenBitFlag l
    /\ Forall2 sameData l (fst (forEachM uploadMesh l e))
    /\ Trace.vertexUploads cs = map vertexPayload l
    /\ Trace.indexUploads cs = flat_map indexPayload l
    /\ Trace.attribTypes cs = flat_map attributeTypes l.
Proof.
  induction 1 as [|mesh rest Hvao _ IH]; intros e.
  - exists []. cbn. rewrite app_nil_r. repeat split. constructor.
  - rewrite GLFacts.forEachM_cons.
    destruct (uploadMesh_run mesh e Hvao)
      as (cs1 & Hc1 & Ho1 & Hs1 & Hd1 & _ & Hv1 & Hi1 & Ha1).
    destruct (uploadMesh mesh e) as [mesh' e1]. cbn [fst snd] in *.
    destruct (IH e1) as (cs2 & Hc2 & Ho2 & Hs2 & Hd2 & Hv2 & Hi2 & Ha2).
    destruct (forEachM uploadMesh rest e1) as [rest' e2]. cbn [fst snd] in *.
    exists (cs1 ++ cs2). rewrite Hc2, Hc1, app_assoc.
    rewrite GLFacts.vertexUploads_app, GLFacts.indexUploads_app,
      GLFacts.attribTypes_app, Hv1, Hv2, Hi1, Hi2, Ha1, Ha2.
    cbn [map flat_map app]. rewrite Ho1, Ho2, Hs1, Hs2.
    repeat split. constructor; assumption.
Qed.

Lemma dropCpuArrays_flags ms :
  map usesOptimizedVertices (map dropCpuArrays ms) = map usesOptimizedVertices ms
  /\ map uses16BitIndices (map dropCpuArrays ms) = map uses16BitIndices ms.
Proof. rewrite !map_map. split; reflexivity. Qed.

(** The whole upload of a model none of whose meshes was uploaded
    before. *)
Lemma uploadToGPU_run dropCpu m e :
  Forall (fun mesh => vao mesh = 0) (mMeshes m) ->
  map usesOptimizedVertices (mMeshes (fst (uploadToGPU dropCpu m e)))
  = map optimizedFlag (mMeshes m)
  /\ map uses16BitIndices (mMeshes (fst (uploadToGPU dropCpu m e)))
     = map sixteenBitFlag (mMeshes m)
  /\ Trace.vertexUploads (issued (uploadToGPU dropCpu m) e)
     = map vertexPayload (mMeshes m)
  /\ Trace.indexUploads (issued (uploadToGPU dropCpu m) e)
     = flat_map indexPayload (mMeshes m)
  /\ Trace.attribTypes (issued (uploadToGPU dropCpu m) e)
     = flat_map attributeTypes (mMeshes m).
Proof.
  intros Hvao.
  destruct (forEachM_uploadMesh (mMeshes m) Hvao e)
    as (cs & Hc & Ho & Hs & _ & Hv & Hi & Ha).
  assert (Hcalls : calls (snd (uploadToGPU dropCpu m e))
                   = calls e ++ (cs ++ [glBindVertexArray 0])).
  { unfold uploadToGPU, seq at 1.
    destruct (forEachM uploadMesh (mMeshes m) e) as [ms [ln cs0 w s1 s2 s3 sp]].
    cbn [fst snd calls] in *. subst cs0. gl_run. now rewrite app_assoc. }
  rewrite (GLFacts.issued_exact _ _ _ Hcalls).
  rewrite GLFacts.vertexUploads_app, GLFacts.indexUploads_app,
    GLFacts.attribTypes_app, Hv, Hi, Ha. cbn. rewrite !app_nil_r.
  assert (Hms : mMeshes (fst (uploadToGPU dropCpu m e))
                = if dropCpu
                  then map dropCpuArrays (fst (forEachM uploadMesh (mMeshes m) e))
                  else fst (forEachM uploadMesh (mMeshes m) e)).
  { unfold uploadToGPU, seq at 1.
    destruct (forEachM uploadMesh (mMeshes m) e) as [ms e1]. reflexivity. }
  rewrite Hms.
  destruct dropCpu; [destruct (dropCpuArrays_flags
                                 (fst (forEachM uploadMesh (mMeshes m) e)))
                       as [-> ->]|]; auto.
Qed.





End UploadFacts.

(* ================================================================== *)
(** * The upload claims *)

(** C4, as stated, fails: a point cloud of 10000 vertices is at the
    threshold, yet after the upload its mesh is not flagged as optimized
    and its vertex buffer is laid out in full floats. *)
Lemma uploadToGPU_point_cloud_not_optimized_counterexample :
  let scene := Examples.sceneOf 10000%N [] in
  let m' := fst (Model.uploadToGPU true (Examples.load scene) GL.initial) in
  Examples.loads scene = true
  /\ map Model.vertexCount (Model.mMeshes m') = [10000%N]
  /\ (Config.VertexOptimizationMinVerts <=? 10000)%N = true
  /\ map Model.usesOptimizedVertices (Model.mMeshes m') = [false]
  /\ Trace.attribTypes
       (GL.issued (Model.uploadToGPU true (Examples.load scene)) GL.initial)
     = Trace.fullFloatTypes.
Proof.
  cbv zeta. repeat split; vm_compute; reflexivity.
Qed.

(** C4, amended. After [uploadToGPU] on meshes not uploaded before, a mesh
    is flagged as optimized exactly when it is not a point cloud and its
    vertex count is at or above [Config::VertexOptimizationMinVerts]. For a
    flagged mesh the vertex buffer receives the packed vertices, in which
    position and texture coordinate are half floats and normal, colour and
    scalar are the floats of the source vertex, and the attributes are
    declared accordingly; for any other mesh the buffer receives the
    vertices unchanged and every attribute is declared as float. *)
Theorem uploadToGPU_optimized_vertices :
  forall (dropCpu : bool) (m : Model.t) (e : GL.Env),
    Forall (fun mesh => Model.vao mesh = 0%N) (Model.mMeshes m) ->
    let m' := fst (Model.uploadToGPU dropCpu m e) in
    let cs := GL.issued (Model.uploadToGPU dropCpu m) e in
    let optimized mesh :=
      negb (Model.isPointCloud mesh)
      && (Config.VertexOptimizationMinVerts <=? Model.vertexCount mesh)%N in
    map Model.usesOptimizedVertices (Model.mMeshes m')
    = map optimized (Model.mMeshes m)
    /\ Trace.vertexUploads cs
       = map (fun mesh =>
                if optimized mesh
                then GL.OptimizedVertices (map Model.packVertex (Model.vertices mesh))
                else GL.Vertices (Model.vertices mesh))
             (Model.mMeshes m)
    /\ Trace.attribTypes cs
       = flat_map (fun mesh =>
                     if optimized mesh then Trace.optimizedTypes
                     else Trace.fullFloatTypes)
                  (Model.mMeshes m)
    /\ (forall v : Vertex,
           ov_pos (Model.packVertex v)
           = (Half.floatToHalf (glm.v3x (v_position v)),
              Half.floatToHalf (glm.v3y (v_position v)),
              Half.floatToHalf (glm.v3z (v_position v)))
           /\ ov_uv (Model.packVertex v)
              = (Half.floatToHalf (glm.v2x (v_texcoord v)),
                 Half.floatToHalf (glm.v2y (v_texcoord v)))
           /\ ov_normal (Model.packVertex v)
              = (glm.v3x (v_normal v), glm.v3y (v_normal v), glm.v3z (v_normal v))
           /\ ov_color (Model.packVertex v)
              = (glm.v3x (v_color v), glm.v3y (v_color v), glm.v3z (v_color v))
           /\ ov_scalar (Model.packVertex v) = v_scalar v).
Proof.
  intros dropCpu m e Hvao m' cs optimized.
  destruct (UploadFacts.uploadToGPU_run dropCpu m e Hvao)
    as (Ho & _ & Hv & _ & Ha).
  split; [exact Ho|]. split; [exact Hv|]. split; [exact Ha|].
  intros v. repeat split.
Qed.

Lemma uploadToGPU_optimized_vertices_witness :
  let m := Examples.load (Examples.sceneOf 3%N [[0; 1; 2]%N]) in
  map Model.usesOptimizedVertices
      (Model.mMeshes (fst (Model.uploadToGPU true m GL.initial)))
  = [false].
Proof.
  cbv zeta.
  refine (proj1 (uploadToGPU_optimized_vertices true
                   (Examples.load (Examples.sceneOf 3%N [[0; 1; 2]%N])) GL.initial _)).
  vm_compute. repeat constructor.
Defined.




(* ================================================================== *)
(** * Loading, drawing a subset, and the occlusion gate *)

Module DrawFacts.
Import GL Model.
Local Open Scope N_scope.

Lemma maxIndex_bound indices :
  forall acc bound,
    fold_left N.max indices acc < bound ->
    acc < bound /\ Forall (fun i => i < bound) indices.
Proof.
  induction indices as [|i rest IH]; intros acc bound H; cbn [fold_left] in H.
  - split; [exact H|constructor].
  - destruct (IH _ _ H) as [Hacc Hrest]. split; [lia|].
    constructor; [lia|exact Hrest].
Qed.

Lemma to_uint16_small indices :
  maxIndex indices < 65536 -> map to_uint16 indices = indices.
Proof.
  intros H. apply maxIndex_bound in H as [_ H].
  induction H as [|i rest Hi _ IH]; cbn [map]; [reflexivity|].
  rewrite IH. unfold to_uint16. now rewrite N.mod_small.
Qed.

(** The points handed to the octree run through all meshes. *)
Lemma collectPoints_length ms :
  forall globalIndex,
    List.length (collectPoints ms globalIndex)
    = list_sum (map (fun mesh =>
                       Nat.min (N.to_nat (vertexCount mesh))
                               (List.length (vertices mesh)))
                    ms).
Proof.
  induction ms as [|mesh rest IH]; intros g; cbn [collectPoints map list_sum];
    [reflexivity|].
  rewrite length_app, length_map, length_combine, length_seq, IH.
  rewrite length_firstn, Nat.min_id. reflexivity.
Qed.

End DrawFacts.

(** C10. When [loadFromFile] succeeds and the scalar range it computed has
    its maximum at or below its minimum, the model reports 0 as scalar
    minimum and 1 as scalar maximum. *)
Theorem loadFromFile_normalizes_degenerate_scalar_range :
  forall (mergeOrder : list nat) (scene : Assimp.aiScene) (m0 m : Model.t),
    Model.loadFromFile mergeOrder (Some scene) m0 = Done (true, m) ->
    F32.leb (Model.bScalarMax (Model.aggregate mergeOrder scene))
            (Model.bScalarMin (Model.aggregate mergeOrder scene)) = true ->
    Model.scalarMin m = F32.zero /\ Model.scalarMax m = F32.one.
Proof.
  intros mergeOrder scene m0 m Hload Hdeg.
  unfold Model.loadFromFile in Hload.
  destruct (Assimp.HasMeshes scene); cbn [negb] in Hload; [|discriminate].
  unfold Model.normalizeScalarRange in Hload. rewrite Hdeg in Hload.
  match type of Hload with
  | (if ?c then _ else _) = _ => destruct c
  end.
  - match type of Hload with
    | (if ?c then _ else _) = _ => destruct c
    end.
    + match type of Hload with
      | bind ?b _ = _ => destruct b as [tree| |]; cbn [bind] in Hload
      end; try discriminate.
      injection Hload as <-. split; reflexivity.
    + injection Hload as <-. split; reflexivity.
  - injection Hload as <-. split; reflexivity.
Qed.

Lemma loadFromFile_normalizes_degenerate_scalar_range_witness :
  Model.scalarMin (Examples.load (Examples.sceneOf 3 [[0; 1; 2]%N])) = F32.zero
  /\ Model.scalarMax (Examples.load (Examples.sceneOf 3 [[0; 1; 2]%N])) = F32.one.
Proof.
  apply (loadFromFile_normalizes_degenerate_scalar_range
           [] (Examples.sceneOf 3 [[0; 1; 2]%N]) Model.empty);
    vm_compute; reflexivity.
Defined.

(** C9. On a model whose first mesh is an uploaded point cloud,
    [drawPointsSubset] with a non-empty index list issues exactly one draw
    call: an indexed point draw of that many elements while the first
    mesh's vertex array is bound. The element buffer it reads holds the
    given indices value for value, whatever their relation to the first
    mesh's vertex count. The points handed to the octree, on the other
    hand, run through the vertices of all meshes. *)
Theorem drawPointsSubset_draws_against_first_mesh :
  forall (m : Model.t) (mesh0 : Model.Mesh) (rest : list Model.Mesh)
         (indices : list N) (pointSize : float) (e : GL.Env),
    Model.mMeshes m = mesh0 :: rest ->
    Model.isPointCloud mesh0 = true ->
    Model.vao mesh0 <> 0%N ->
    indices <> [] ->
    let cs := GL.issued (Model.drawPointsSubset m indices pointSize) e in
    exists type payload,
      Trace.drawsOn 0%N cs
      = [(Model.vao mesh0,
          GL.glDrawElements GL.GL_POINTS (N.of_nat (List.length indices)) type)]
      /\ last (Trace.indexUploads cs) (GL.UInt32 []) = payload
      /\ Trace.storedIndices payload = indices
      /\ type = (if Trace.is16Bit payload then GL.GL_UNSIGNED_SHORT
                 else GL.GL_UNSIGNED_INT)
      /\ List.length (Model.collectPoints (Model.mMeshes m) 0%N)
         = list_sum (map (fun mesh =>
                            Nat.min (N.to_nat (Model.vertexCount mesh))
                                    (List.length (Model.vertices mesh)))
                         (Model.mMeshes m)).
Proof.
  intros m mesh0 rest indices pointSize e Hm Hpc Hvao Hne cs.
  assert (Hvalid : GL.valid (Model.vao mesh0) = true).
  { unfold GL.valid. apply negb_true_iff, N.eqb_neq, Hvao. }
  set (fits := (Model.maxIndex indices <? 65536)%N).
  set (type := if fits then GL.GL_UNSIGNED_SHORT else GL.GL_UNSIGNED_INT).
  set (id := N.succ (GL.lastName e)).
  set (count := N.of_nat (List.length indices)).
  set (pre := (if Model.differs pointSize (GL.sLastPointSize_drawPointsSubset e)
               then [GL.glPointSize pointSize] else [])
              ++ [GL.glGenBuffers id;
                  GL.glBindBuffer GL.GL_ELEMENT_ARRAY_BUFFER id;
                  GL.glBufferData GL.GL_ELEMENT_ARRAY_BUFFER count
                                  (GL.UInt32 indices) GL.GL_DYNAMIC_DRAW]
              ++ (if fits
                  then [GL.glBufferData GL.GL_ELEMENT_ARRAY_BUFFER count
                          (GL.UInt16 (map to_uint16 indices)) GL.GL_DYNAMIC_DRAW]
                  else [])).
  assert (Hrun :
             GL.calls (snd (Model.drawPointsSubset m indices pointSize e))
             = GL.calls e
               ++ pre
               ++ [GL.glBindVertexArray (Model.vao mesh0);
                   GL.glDrawElements GL.GL_POINTS count type;
                   GL.glBindVertexArray 0%N;
                   GL.glDeleteBuffers id;
                   GL.glBindBuffer GL.GL_ELEMENT_ARRAY_BUFFER 0%N]
             /\ (forall b rest', Trace.drawsOn b (pre ++ rest') = Trace.drawsOn b rest')
             /\ Trace.storedIndices (last (Trace.indexUploads pre) (GL.UInt32 []))
                = indices
             /\ type = (if Trace.is16Bit (last (Trace.indexUploads pre) (GL.UInt32 []))
                        then GL.GL_UNSIGNED_SHORT else GL.GL_UNSIGNED_INT)).
  { subst pre type id count. unfold Model.drawPointsSubset.
    rewrite Hm, Hpc, Hvalid.
    destruct indices as [|i0 indices']; [congruence|].
    cbn [Octree.isEmpty andb].
    destruct e as [ln cs0 w s1 s2 s3 sp]. gl_run.
    destruct (Model.differs pointSize s2); gl_run;
      fold fits; destruct fits eqn:Hfits; gl_run; flatten_calls;
      (split; [reflexivity|]); (split; [reflexivity|]);
      cbn [Trace.indexUploads flat_map Trace.indexUpload app last
           Trace.storedIndices Trace.is16Bit];
      (split; [|reflexivity]);
      try reflexivity; apply DrawFacts.to_uint16_small; now apply N.ltb_lt. }
  destruct Hrun as (Hcalls & Hskip & Hstored & Htype).
  subst cs. rewrite (GLFacts.issued_exact _ _ _ Hcalls).
  exists type, (last (Trace.indexUploads pre) (GL.UInt32 [])).
  split; [rewrite Hskip; reflexivity|]. split.
  - rewrite GLFacts.indexUploads_app. cbn [Trace.indexUploads flat_map
      Trace.indexUpload app]. now rewrite app_nil_r.
  - split; [exact Hstored|]. split; [exact Htype|].
    apply DrawFacts.collectPoints_length.
Qed.

Lemma drawPointsSubset_draws_against_first_mesh_witness :
  exists type payload,
    Trace.drawsOn 0%N
      (GL.issued (Model.drawPointsSubset Examples.twoCloudModel [2%N] F32.one)
                 GL.initial)
    = [(1%N, GL.glDrawElements GL.GL_POINTS 1%N type)]
    /\ last (Trace.indexUploads
               (GL.issued (Model.drawPointsSubset Examples.twoCloudModel [2%N]
                                                  F32.one) GL.initial))
            (GL.UInt32 []) = payload
    /\ Trace.storedIndices payload = [2%N]
    /\ type = (if Trace.is16Bit payload then GL.GL_UNSIGNED_SHORT
               else GL.GL_UNSIGNED_INT)
    /\ List.length (Model.collectPoints (Model.mMeshes Examples.twoCloudModel) 0%N)
       = 3%nat.
Proof.
  apply (drawPointsSubset_draws_against_first_mesh
           Examples.twoCloudModel Examples.firstCloud Examples.otherClouds
           [2%N] F32.one GL.initial).
  - vm_compute. reflexivity.
  - vm_compute. reflexivity.
  - vm_compute. discriminate.
  - discriminate.
Defined.

(** C3: the code at the failing input. With frustum culling off, occlusion
    culling on, a triangle mesh and a culler initialised on OpenGL 2.1
    (queries unsupported), [Scene::draw] issues no call at all, although
    [Scene::testOcclusion] on the same scene answers "visible"; with
    occlusion culling off the same scene draws its triangle. *)
Theorem draw_skips_when_occlusion_queries_unsupported :
  let s := Examples.triangleScene true Examples.culler21 in
  let shader := Shader.mk 7%N in
  OcclusionCuller.isSupported (Scene.mOcclusionCuller s) = false
  /\ Model.isPointCloudModel (Scene.model s) = false
  /\ GL.issued (Scene.draw s shader None None Examples.frame false None)
               Examples.triangleEnv = []
  /\ fst (fst (fst (Scene.testOcclusion s (Shader.mk 8%N) None None
                                        Examples.triangleEnv))) = true
  /\ Trace.drawsOn 0%N
       (GL.issued (Scene.draw (Examples.triangleScene false Examples.culler21)
                              shader None None Examples.frame false None)
                  Examples.triangleEnv)
     = [(1%N, GL.glDrawElements GL.GL_TRIANGLES 3%N GL.GL_UNSIGNED_SHORT)].
Proof.
  cbv zeta. repeat split; vm_compute; reflexivity.
Qed.
(* ================================================================== *)
(** * Further facts about the octree *)

Module SubseqFacts.
Import Trace.

Lemma subseq_nil_l {A : Type} (l : list A) : subseq [] l.
Proof. induction l; constructor; assumption. Qed.

Lemma subseq_refl {A : Type} (l : list A) : subseq l l.
Proof. induction l; constructor; assumption. Qed.

Lemma subseq_app {A : Type} (a b c d : list A) :
  subseq a b -> subseq c d -> subseq (a ++ c) (b ++ d).
Proof.
  induction 1; intros Hcd; cbn [app];
    [assumption|apply subseq_skip|apply subseq_keep]; auto.
Qed.

Lemma subseq_In {A : Type} (a b : list A) x : subseq a b -> In x a -> In x b.
Proof.
  induction 1; cbn [In]; intros Hin; auto.
  destruct Hin; auto.
Qed.

Lemma subseq_NoDup {A : Type} (a b : list A) : subseq a b -> NoDup b -> NoDup a.
Proof.
  induction 1; intros Hnd; [constructor| |];
    inversion Hnd as [|? ? Hx Hrest]; subst; auto.
  apply NoDup_cons; auto. intros Hin. apply Hx. eapply subseq_In; eassumption.
Qed.

Lemma subseq_app_l {A : Type} (a b : list A) : subseq a (a ++ b).
Proof.
  rewrite <- (app_nil_r a) at 1. apply subseq_app; [apply subseq_refl|].
  apply subseq_nil_l.
Qed.

End SubseqFacts.

Module QuerySoundness.
Import Octree OctreeShape OctreeFacts QueryFacts Trace SubseqFacts.

(** Whatever the camera, the visible-point traversal adds to its output a
    selection of the leaves' indices, in depth-first order. *)
Lemma getVisiblePointsRecursive_subseq viewProj camPos maxDistance :
  forall node out,
  exists l,
    getVisiblePointsRecursive node viewProj camPos maxDistance out = out ++ l
    /\ subseq l (leafIndices node).
Proof.
  induction node as [mn mx pts slots lv leaf IH] using Node_nested_ind.
  intros out. cbn [getVisiblePointsRecursive].
  destruct (F32.gtb (distanceToAABB camPos mn mx) maxDistance).
  { exists []. rewrite app_nil_r. split; [reflexivity|apply subseq_nil_l]. }
  destruct (Frustum.intersectsAABB (Frustum.extractFromMatrix viewProj) mn mx);
    cbn [negb].
  2:{ exists []. rewrite app_nil_r. split; [reflexivity|apply subseq_nil_l]. }
  destruct leaf.
  - exists pts. split; [reflexivity|]. rewrite leafIndices_leaf.
    apply subseq_app_l.
  - rewrite leafIndices_internal. revert out.
    induction IH as [|c rest Hc _ IHrest]; intros out; cbn [fold_left flat_map].
    + exists []. rewrite app_nil_r. split; [reflexivity|constructor].
    + destruct c as [child|].
      * destruct (Hc out) as (l1 & -> & Hs1).
        destruct (IHrest (out ++ l1)) as (l2 & -> & Hs2).
        exists (l1 ++ l2). rewrite app_assoc. split; [reflexivity|].
        apply subseq_app; assumption.
      * destruct (IHrest out) as (l2 & -> & Hs2).
        exists l2. split; [reflexivity|exact Hs2].
Qed.

Lemma slotDirect_subseq slots :
  subseq (flat_map slotDirect slots) (flat_map slotLeafIndices slots).
Proof.
  induction slots as [|c rest IH]; cbn [flat_map]; [constructor|].
  apply subseq_app; [|exact IH].
  destruct c as [[mn mx pts ch lv leaf]|]; cbn [slotDirect slotLeafIndices isLeaf
                                                 pointIndices]; [|constructor].
  destruct leaf.
  - rewrite leafIndices_leaf. apply subseq_app_l.
  - apply subseq_nil_l.
Qed.

Lemma getLODPointsRecursive_subseq camPos distance farThreshold nearThreshold :
  forall node,
    subseq (getLODPointsRecursive node camPos distance farThreshold nearThreshold [])
           (leafIndices node).
Proof.
  induction node as [mn mx pts slots lv leaf IH] using Node_nested_ind.
  rewrite getLODPointsRecursive_step. cbn [isLeaf pointIndices children].
  destruct leaf.
  - rewrite leafIndices_leaf. apply subseq_app_l.
  - rewrite leafIndices_internal.
    destruct (useNode camPos farThreshold (mkNode mn mx pts slots lv false)).
    + apply slotDirect_subseq.
    + induction IH as [|c rest Hc _ IHrest]; cbn [flat_map]; [constructor|].
      apply subseq_app; [|exact IHrest].
      destruct c as [child|]; cbn [slotLOD slotLeafIndices]; [exact Hc|constructor].
Qed.

(** A selection of the leaves' indices of a built tree has no duplicates
    and stays below the number of points. *)
Lemma selection_of_indices points root l :
  Permutation (leafIndices root) (indexSet points) ->
  subseq l (leafIndices root) ->
  subseq l (leafIndices root)
  /\ NoDup l
  /\ (forall i, In i l -> (i < N.of_nat (List.length points))%N)
  /\ (List.length l <= List.length points)%nat.
Proof.
  intros Hperm Hsub. split; [exact Hsub|].
  assert (Hnd : NoDup l).
  { apply (subseq_NoDup _ _ Hsub).
    apply (Permutation_NoDup (Permutation_sym Hperm)), indexSet_NoDup. }
  assert (Hin : forall i, In i l -> In i (indexSet points)).
  { intros i Hi. apply (Permutation_in _ Hperm).
    exact (subseq_In _ _ _ Hsub Hi). }
  split; [exact Hnd|]. split.
  - intros i Hi. apply indexSet_In. auto.
  - replace (List.length points) with (List.length (indexSet points))
      by (unfold indexSet; now rewrite length_map, length_seq).
    apply NoDup_incl_length; assumption.
Qed.

(** The two arguments [distance] and [nearThreshold] are passed down and
    never read. *)
Lemma getLODPointsRecursive_unused camPos farThreshold d d' nt nt' :
  forall node out,
    getLODPointsRecursive node camPos d farThreshold nt out
    = getLODPointsRecursive node camPos d' farThreshold nt' out.
Proof.
  induction node as [mn mx pts slots lv leaf IH] using Node_nested_ind.
  intros out. cbn [getLODPointsRecursive].
  match goal with |- (if ?c then _ else _) = _ => destruct c end;
    [reflexivity|].
  revert out. induction IH as [|c rest Hc _ IHrest]; intros out;
    cbn [fold_left]; [reflexivity|].
  destruct c as [child|]; [rewrite Hc|]; apply IHrest.
Qed.

End QuerySoundness.

Module StatsFacts.
Import Octree OctreeShape OctreeFacts.

Lemma deepest_app a b : deepest (a ++ b) = N.max (deepest a) (deepest b).
Proof.
  induction a as [|x a IH]; cbn [app deepest fold_right].
  - fold (deepest b). lia.
  - fold (deepest (a ++ b)). fold (deepest a). rewrite IH. lia.
Qed.

Lemma deepest_bound l M :
  Forall (fun nd => (level nd <= M)%N) l -> (deepest l <= M)%N.
Proof.
  induction 1 as [|x l Hx _ IH]; cbn [deepest fold_right]; [lia|].
  fold (deepest l). lia.
Qed.

Lemma deepest_filter f l : (deepest (filter f l) <= deepest l)%N.
Proof.
  induction l as [|x l IH]; cbn [filter deepest fold_right]; [lia|].
  fold (deepest l). destruct (f x); cbn [deepest fold_right];
    fold (deepest (filter f l)); lia.
Qed.

Lemma deepest_In l nd : In nd l -> (level nd <= deepest l)%N.
Proof.
  induction l as [|x l IH]; cbn [In deepest fold_right]; [tauto|].
  fold (deepest l). intros [->|Hin]; [lia|]. specialize (IH Hin). lia.
Qed.

Lemma nodes_head nd : In nd (nodes nd).
Proof. destruct nd. rewrite nodes_unfold. now left. Qed.

Section Stats.
Variable points : list Point.
Variables maxPointsPerNode maxDepth : N.
Hypothesis maxDepth_uint : (maxDepth < UINT_WRAP)%N.

(** The counters after [buildRecursive] on a node: one more per node of
    the subtree, and the deepest leaf seen. Every node of the subtree has
    a leaf at its level or below. *)
Lemma buildRecursive_stats fuel :
  forall node indices st,
    (level node <= maxDepth)%N ->
    (N.to_nat maxDepth - N.to_nat (level node) < fuel)%nat ->
    children node = repeat None 8 ->
    Forall (inRange points) indices ->
    (nodeCount st < UINT_WRAP)%N ->
    exists node' st',
      buildRecursive fuel node points indices maxPointsPerNode maxDepth st
      = Done (node', st')
      /\ level node' = level node
      /\ Permutation (leafIndices node') indices
      /\ nodeCount st'
         = ((nodeCount st + N.of_nat (List.length (nodes node'))) mod UINT_WRAP)%N
      /\ maxDepthSeen st' = N.max (maxDepthSeen st) (deepest (leaves node'))
      /\ Forall (fun nd => (level nd <= deepest (leaves node'))%N) (nodes node').
Proof.
  assert (HW : (0 < UINT_WRAP)%N) by (unfold UINT_WRAP; lia).
  induction fuel as [|fuel IH]; intros node indices st Hlv Hfuel Hch Hin Hst;
    [lia|].
  cbn [buildRecursive].
  destruct ((N.of_nat (List.length indices) <=? maxPointsPerNode)%N
            || (maxDepth <=? level node)%N) eqn:Hstop.
  - (* a leaf *)
    eexists _, _. split; [reflexivity|]. cbn [level nodeCount maxDepthSeen].
    assert (Hn : nodes (mkNode (min node) (max node) indices (children node)
                               (level node) true)
                 = [mkNode (min node) (max node) indices (children node)
                           (level node) true]).
    { rewrite nodes_unfold, Hch.
      now rewrite flat_map_all_None by (auto using repeat_None_all). }
    unfold leaves. rewrite Hn. cbn [filter isLeaf deepest fold_right List.length level].
    split; [reflexivity|]. split.
    { rewrite leafIndices_leaf, Hch.
      rewrite flat_map_all_None by (auto using repeat_None_all).
      now rewrite app_nil_r. }
    split; [|split].
    + unfold uint_succ. reflexivity.
    + rewrite N.max_0_r. reflexivity.
    + constructor; [|constructor]. cbn [level]. lia.
  - (* an internal node *)
    apply orb_false_iff in Hstop as [Hmany Hdeep].
    apply N.leb_gt in Hmany. apply N.leb_gt in Hdeep.
    destruct (@distribute_done points (center node) indices (repeat [] 8) Hin
                eq_refl)
      as (bs & Hd & Hlen & Hperm).
    rewrite Hd. cbn [bind].
    simpl (concat (repeat [] 8)) in Hperm. simpl app in Hperm.
    set (body := fun (ib : N * list N) (st0 : Stats) => _).
    assert (Hsucc : uint_succ (level node) = (level node + 1)%N).
    { unfold uint_succ. apply N.mod_small. lia. }
    assert (Hloop : forall l s,
               (forall ib, In ib l -> Forall (inRange points) (snd ib)) ->
               (nodeCount s < UINT_WRAP)%N ->
               exists slots s',
                 forEach body l s = Done (slots, s')
                 /\ Permutation (flat_map slotLeafIndices slots) (concat (map snd l))
                 /\ nodeCount s'
                    = ((nodeCount s
                        + N.of_nat (List.length (flat_map slotNodes slots)))
                       mod UINT_WRAP)%N
                 /\ maxDepthSeen s'
                    = N.max (maxDepthSeen s)
                            (deepest (filter isLeaf (flat_map slotNodes slots)))
                 /\ Forall (fun nd =>
                              (level nd
                               <= deepest (filter isLeaf (flat_map slotNodes slots)))%N)
                           (flat_map slotNodes slots)
                 /\ (concat (map snd l) <> [] ->
                     hasChildren slots = true
                     /\ (level node + 1
                         <= deepest (filter isLeaf (flat_map slotNodes slots)))%N)).
    { induction l as [|[i bucket] rest IHl]; intros s Hl Hs; cbn [forEach].
      - exists [], s. split; [reflexivity|]. cbn [flat_map map concat List.length
                                                  filter deepest fold_right].
        split; [constructor|]. split.
        { rewrite N.add_0_r. symmetry. now apply N.mod_small. }
        split; [now rewrite N.max_0_r|]. split; [constructor|congruence].
      - assert (Hrest : forall ib, In ib rest -> Forall (inRange points) (snd ib))
          by (intros ib Hib; apply Hl; now right).
        unfold body at 1.
        destruct bucket as [|x bucket']; cbn [isEmpty bind].
        + destruct (IHl s Hrest Hs) as (slots & s' & Hf & Hp & Hc & Hm & Hall & Hne).
          fold body. rewrite Hf. cbn [bind].
          exists (None :: slots), s'. split; [reflexivity|].
          cbn [flat_map slotLeafIndices slotNodes app map snd concat hasChildren
               existsb orb].
          repeat (split; [assumption|]). exact Hne.
        + destruct (IH (newNode (childMin node (center node) i)
                                (childMax node (center node) i)
                                (uint_succ (level node)))
                       (x :: bucket') s)
            as (child & s1 & Hrec & Hclv & Hcp & Hcc & Hcm & Hcall).
          { cbn [newNode level]. lia. }
          { cbn [newNode level]. lia. }
          { reflexivity. }
          { exact (Hl _ (or_introl eq_refl)). }
          { exact Hs. }
          rewrite Hrec. cbn [bind]. fold body.
          assert (Hs1 : (nodeCount s1 < UINT_WRAP)%N).
          { rewrite Hcc. apply N.mod_lt. lia. }
          destruct (IHl s1 Hrest Hs1)
            as (slots & s' & Hf & Hp & Hc & Hm & Hall & _).
          rewrite Hf. cbn [bind].
          exists (Some child :: slots), s'. split; [reflexivity|].
          cbn [flat_map slotLeafIndices slotNodes map snd concat hasChildren existsb
               orb newNode level] in *.
          rewrite filter_app, deepest_app, length_app.
          fold (leaves child).
          assert (Hroot : (level node + 1 <= deepest (leaves child))%N).
          { rewrite Forall_forall in Hcall.
            specialize (Hcall child (nodes_head child)). lia. }
          split; [now apply Permutation_app|]. split.
          { rewrite Hc, Hcc, Nat2N.inj_add.
            rewrite N.Div0.add_mod_idemp_l. f_equal. lia. }
          split; [rewrite Hm, Hcm; lia|]. split.
          { apply Forall_app. split.
            - eapply Forall_impl; [|exact Hcall]. cbn beta. intros nd Hnd. lia.
            - eapply Forall_impl; [|exact Hall]. cbn beta. intros nd Hnd. lia. }
          intros _. split; [reflexivity|lia]. }
    assert (Hsnd : map snd (combine (map N.of_nat (seq 0 8)) bs) = bs).
    { apply (map_snd_combine maxDepth maxDepth_uint). now rewrite Hlen. }
    destruct (Hloop (combine (map N.of_nat (seq 0 8)) bs)
                    (mkStats (uint_succ (nodeCount st)) (maxDepthSeen st)))
      as (slots & s' & Hf & Hp & Hc & Hm & Hall & Hne).
    { intros [i bucket] Hib. apply in_combine_r in Hib. cbn [snd].
      rewrite Forall_forall in Hin |- *. intros y Hy. apply Hin.
      eapply Permutation_in; [exact Hperm|].
      apply in_concat. exists bucket. auto. }
    { cbn [nodeCount]. unfold uint_succ. apply N.mod_lt. lia. }
    rewrite Hf. cbn [bind]. rewrite Hsnd in Hp, Hne.
    destruct Hne as [Hhas Hdeepest].
    { intros Hnil. rewrite Hnil in Hperm.
      apply Permutation_nil in Hperm. subst indices. simpl in Hmany. lia. }
    rewrite Hhas.
    eexists _, _. split; [reflexivity|]. cbn [level].
    split; [reflexivity|]. split.
    { rewrite leafIndices_internal, Hp. exact Hperm. }
    unfold leaves. rewrite nodes_unfold. cbn [filter isLeaf List.length].
    cbn [nodeCount maxDepthSeen] in Hc, Hm.
    split; [|split].
    + rewrite Hc. unfold uint_succ. rewrite N.Div0.add_mod_idemp_l.
      f_equal. lia.
    + exact Hm.
    + constructor; [cbn [level]; lia|exact Hall].
Qed.
End Stats.
End StatsFacts.

(** X1. The two counters that [build] leaves in the tree describe it:
    [nodeCount()] is the number of nodes (as an [unsigned int]) and
    [maxDepth()] is the largest level of any node. *)
Theorem build_counters_describe_the_tree :
  forall (points : list Octree.Point) (mn mx : vec3) (maxPointsPerNode maxDepth : N),
    (N.of_nat (List.length points) < UINT_WRAP)%N ->
    (maxDepth < UINT_WRAP)%N ->
    exists tree root,
      Octree.build points mn mx maxPointsPerNode maxDepth = Done tree
      /\ Octree.mRoot tree = Some root
      /\ Octree.mNodeCount tree
         = (N.of_nat (List.length (OctreeShape.nodes root)) mod UINT_WRAP)%N
      /\ Octree.mMaxDepth tree = OctreeShape.deepest (OctreeShape.nodes root).
Proof.
  intros points mn mx mpp md Hn Hd. unfold Octree.build.
  apply N.leb_gt in Hn. rewrite Hn.
  destruct (StatsFacts.buildRecursive_stats points mpp md Hd
              (S (N.to_nat md)) (Octree.newNode mn mx 0)
              (OctreeShape.indexSet points) (Octree.mkStats 0 0))
    as (root & st & Hb & _ & _ & Hc & Hm & Hall).
  - cbn [Octree.newNode Octree.level]. lia.
  - cbn [Octree.newNode Octree.level]. lia.
  - reflexivity.
  - apply OctreeFacts.indexSet_inRange.
  - cbn [Octree.nodeCount]. unfold UINT_WRAP. lia.
  - fold (OctreeShape.indexSet points). rewrite Hb. cbn [bind].
    eexists _, root. split; [reflexivity|]. split; [reflexivity|].
    cbn [Octree.mNodeCount Octree.mMaxDepth Octree.nodeCount Octree.maxDepthSeen]
      in *.
    split; [exact Hc|]. rewrite Hm, N.max_0_l.
    apply N.le_antisymm.
    + apply StatsFacts.deepest_filter.
    + apply StatsFacts.deepest_bound. exact Hall.
Qed.

Lemma build_counters_describe_the_tree_witness :
  exists tree root,
    Octree.build Examples.twoPoints Examples.at0 Examples.unitMax 1 8 = Done tree
    /\ Octree.mRoot tree = Some root
    /\ Octree.mNodeCount tree
       = (N.of_nat (List.length (OctreeShape.nodes root)) mod UINT_WRAP)%N
    /\ Octree.mMaxDepth tree = OctreeShape.deepest (OctreeShape.nodes root).
Proof.
  apply (build_counters_describe_the_tree Examples.twoPoints Examples.at0
           Examples.unitMax 1 8); reflexivity.
Defined.

(** X2. When the cloud has no more than [maxPointsPerNode] points (an
    empty cloud included) or [maxDepth] is 0, [build] makes a tree of one
    leaf that holds the indices 0, ..., n-1 in order, and reports one node
    and depth 0. *)
Theorem build_small_cloud_is_one_leaf :
  forall (points : list Octree.Point) (mn mx : vec3) (maxPointsPerNode maxDepth : N),
    (N.of_nat (List.length points) < UINT_WRAP)%N ->
    (N.of_nat (List.length points) <= maxPointsPerNode)%N \/ maxDepth = 0%N ->
    Octree.build points mn mx maxPointsPerNode maxDepth
    = Done (Octree.mk
              (Some (Octree.mkNode mn mx (OctreeShape.indexSet points)
                                   (repeat None 8) 0 true))
              1 0).
Proof.
  intros points mn mx mpp md Hn Hsmall. unfold Octree.build.
  apply N.leb_gt in Hn. rewrite Hn.
  cbn [Octree.buildRecursive].
  fold (OctreeShape.indexSet points).
  assert (Hlen : List.length (OctreeShape.indexSet points) = List.length points).
  { unfold OctreeShape.indexSet. now rewrite length_map, length_seq. }
  rewrite Hlen. cbn [Octree.newNode Octree.level Octree.min Octree.max
                     Octree.children Octree.nodeCount Octree.maxDepthSeen].
  assert (Hstop : ((N.of_nat (List.length points) <=? mpp)%N
                   || (md <=? 0)%N) = true).
  { apply orb_true_iff. destruct Hsmall as [H|H].
    - left. now apply N.leb_le.
    - right. apply N.leb_le. lia. }
  rewrite Hstop. cbn [bind]. reflexivity.
Qed.

Lemma build_small_cloud_is_one_leaf_witness :
  Octree.build Examples.twoPoints Examples.at0 Examples.unitMax 2 8
  = Done (Octree.mk
            (Some (Octree.mkNode Examples.at0 Examples.unitMax
                                 (OctreeShape.indexSet Examples.twoPoints)
                                 (repeat None 8) 0 true))
            1 0).
Proof.
  apply (build_small_cloud_is_one_leaf Examples.twoPoints Examples.at0
           Examples.unitMax 2 8); [reflexivity|left; vm_compute; discriminate].
Defined.

(** X3. Whatever the view-projection matrix, the camera and the distance
    limit, [getVisiblePoints] on a built tree returns indices below n,
    none of them twice: a selection of the leaves' indices in traversal
    order. *)
Theorem getVisiblePoints_selects_valid_indices :
  forall (points : list Octree.Point) (mn mx : vec3) (maxPointsPerNode maxDepth : N),
    (N.of_nat (List.length points) < UINT_WRAP)%N ->
    (maxDepth < UINT_WRAP)%N ->
    exists tree root,
      Octree.build points mn mx maxPointsPerNode maxDepth = Done tree
      /\ Octree.mRoot tree = Some root
      /\ forall (viewProj : mat4) (camPos : vec3) (maxDistance : float),
           let visible := Octree.getVisiblePoints tree viewProj camPos maxDistance in
           Trace.subseq visible (OctreeShape.leafIndices root)
           /\ NoDup visible
           /\ (forall i, In i visible -> (i < N.of_nat (List.length points))%N)
           /\ (List.length visible <= List.length points)%nat.
Proof.
  intros points mn mx mpp md Hn Hd.
  destruct (OctreeFacts.build_built points mn mx mpp md Hn Hd)
    as (root & count & depth & Hb & _ & _ & _ & Hperm & _).
  exists (Octree.mk (Some root) count depth), root.
  split; [exact Hb|]. split; [reflexivity|].
  intros viewProj camPos maxDistance visible.
  assert (Hsub : Trace.subseq visible (OctreeShape.leafIndices root)).
  { subst visible. unfold Octree.getVisiblePoints. cbn [Octree.mRoot].
    destruct (QuerySoundness.getVisiblePointsRecursive_subseq
                viewProj camPos maxDistance root [])
      as (l & -> & Hl).
    exact Hl. }
  exact (QuerySoundness.selection_of_indices points root visible Hperm Hsub).
Qed.

Lemma getVisiblePoints_selects_valid_indices_witness :
  exists tree root,
    Octree.build Examples.twoPoints Examples.at0 Examples.unitMax 1 8 = Done tree
    /\ Octree.mRoot tree = Some root
    /\ forall (viewProj : mat4) (camPos : vec3) (maxDistance : float),
         let visible := Octree.getVisiblePoints tree viewProj camPos maxDistance in
         Trace.subseq visible (OctreeShape.leafIndices root)
         /\ NoDup visible
         /\ (forall i, In i visible
                       -> (i < N.of_nat (List.length Examples.twoPoints))%N)
         /\ (List.length visible <= List.length Examples.twoPoints)%nat.
Proof.
  apply (getVisiblePoints_selects_valid_indices Examples.twoPoints Examples.at0
           Examples.unitMax 1 8); reflexivity.
Defined.

(** X4. The same for [getLODPoints]: whatever the camera and the
    thresholds, the result is a selection of the leaves' indices, so every
    index is below n and none is returned twice. *)
Theorem getLODPoints_selects_valid_indices :
  forall (points : list Octree.Point) (mn mx : vec3) (maxPointsPerNode maxDepth : N),
    (N.of_nat (List.length points) < UINT_WRAP)%N ->
    (maxDepth < UINT_WRAP)%N ->
    exists tree root,
      Octree.build points mn mx maxPointsPerNode maxDepth = Done tree
      /\ Octree.mRoot tree = Some root
      /\ forall (camPos : vec3) (distance farThreshold nearThreshold : float),
           let chosen :=
             Octree.getLODPoints tree camPos distance farThreshold nearThreshold in
           Trace.subseq chosen (OctreeShape.leafIndices root)
           /\ NoDup chosen
           /\ (forall i, In i chosen -> (i < N.of_nat (List.length points))%N)
           /\ (List.length chosen <= List.length points)%nat.
Proof.
  intros points mn mx mpp md Hn Hd.
  destruct (OctreeFacts.build_built points mn mx mpp md Hn Hd)
    as (root & count & depth & Hb & _ & _ & _ & Hperm & _).
  exists (Octree.mk (Some root) count depth), root.
  split; [exact Hb|]. split; [reflexivity|].
  intros camPos distance farThreshold nearThreshold chosen.
  assert (Hsub : Trace.subseq chosen (OctreeShape.leafIndices root)).
  { subst chosen. unfold Octree.getLODPoints. cbn [Octree.mRoot].
    apply QuerySoundness.getLODPointsRecursive_subseq. }
  exact (QuerySoundness.selection_of_indices points root chosen Hperm Hsub).
Qed.

Lemma getLODPoints_selects_valid_indices_witness :
  exists tree root,
    Octree.build Examples.twoPoints Examples.at0 Examples.unitMax 1 8 = Done tree
    /\ Octree.mRoot tree = Some root
    /\ forall (camPos : vec3) (distance farThreshold nearThreshold : float),
         let chosen :=
           Octree.getLODPoints tree camPos distance farThreshold nearThreshold in
         Trace.subseq chosen (OctreeShape.leafIndices root)
         /\ NoDup chosen
         /\ (forall i, In i chosen
                       -> (i < N.of_nat (List.length Examples.twoPoints))%N)
         /\ (List.length chosen <= List.length Examples.twoPoints)%nat.
Proof.
  apply (getLODPoints_selects_valid_indices Examples.twoPoints Examples.at0
           Examples.unitMax 1 8); reflexivity.
Defined.

(** X5. [getLODPoints] never reads its [distance] and [nearThreshold]
    arguments: the result depends on the camera position and
    [farThreshold] alone. *)
Theorem getLODPoints_ignores_distance_and_nearThreshold :
  forall (tree : Octree.t) (camPos : vec3) (farThreshold : float)
         (distance distance' nearThreshold nearThreshold' : float),
    Octree.getLODPoints tree camPos distance farThreshold nearThreshold
    = Octree.getLODPoints tree camPos distance' farThreshold nearThreshold'.
Proof.
  intros tree camPos farThreshold d d' nt nt'. unfold Octree.getLODPoints.
  destruct (Octree.mRoot tree) as [root|]; [|reflexivity].
  apply QuerySoundness.getLODPointsRecursive_unused.
Qed.
(* ================================================================== *)
(** * Further facts about the upload and the draw loops *)

Module TraceFacts.
Import GL.

Lemma drawsOn_app b a c :
  Trace.drawsOn b (a ++ c)
  = Trace.drawsOn b a ++ Trace.drawsOn (Trace.boundAfter b a) c.
Proof.
  revert b. induction a as [|x a IH]; intros b; [reflexivity|].
  destruct x; cbn [app Trace.drawsOn Trace.boundAfter fold_left Trace.isDraw];
    rewrite IH; reflexivity.
Qed.

Lemma elementTypes_app a b :
  Trace.elementTypes (a ++ b) = Trace.elementTypes a ++ Trace.elementTypes b.
Proof. apply flat_map_app. Qed.

Lemma warnings_app a b :
  Trace.warnings (a ++ b) = Trace.warnings a ++ Trace.warnings b.
Proof. apply flat_map_app. Qed.

Lemma pointSizes_app a b :
  Trace.pointSizes (a ++ b) = Trace.pointSizes a ++ Trace.pointSizes b.
Proof. apply flat_map_app. Qed.

(** The calls issued by two computations in a row. *)
Lemma calls_trans (e e1 e2 : Env) cs1 cs2 :
  calls e1 = calls e ++ cs1 -> calls e2 = calls e1 ++ cs2 ->
  calls e2 = calls e ++ (cs1 ++ cs2).
Proof. intros H1 H2. now rewrite H2, H1, app_assoc. Qed.

End TraceFacts.

Module DrawLoopFacts.
Import GL Model UploadShape DrawShape TraceFacts.
Local Open Scope N_scope.

(** One round of the loop of [Model::draw]. *)
Lemma drawMesh_run mesh e :
  exists cs,
    calls (snd (drawMesh mesh e)) = calls e ++ cs
    /\ warned (snd (drawMesh mesh e)) = warned e || negb (valid (vao mesh))
    /\ (forall b, Trace.drawsOn b cs = drawn mesh)
    /\ Trace.elementTypes cs = Trace.elementTypes (map snd (drawn mesh))
    /\ Trace.warnings cs
       = (if warned e || valid (vao mesh) then [] else [cerr_no_VAO])
    /\ Trace.pointSizes cs = [].
Proof.
  unfold drawMesh, drawn, drawCall. destruct e as [ln cs0 w s1 s2 s3 sp].
  destruct (valid (vao mesh)); cbn [negb].
  - rewrite orb_false_r, orb_true_r.
    destruct (isPointCloud mesh); [|destruct (indexCount mesh =? 0)]; gl_run;
      (eexists; split; [flatten_calls; reflexivity|]); repeat split.
  - rewrite orb_true_r, orb_false_r. gl_run. destruct w; gl_run.
    + exists []. rewrite app_nil_r. repeat split.
    + eexists. split; [reflexivity|]. repeat split.
Qed.

Lemma forEachM_drawMesh l :
  forall e,
  exists cs,
    calls (snd (forEachM drawMesh l e)) = calls e ++ cs
    /\ warned (snd (forEachM drawMesh l e))
       = warned e || existsb (fun mesh => negb (valid (vao mesh))) l
    /\ (forall b, Trace.drawsOn b cs = flat_map drawn l)
    /\ Trace.elementTypes cs = Trace.elementTypes (map snd (flat_map drawn l))
    /\ Trace.warnings cs
       = (if warned e || forallb (fun mesh => valid (vao mesh)) l then []
          else [cerr_no_VAO])
    /\ Trace.pointSizes cs = [].
Proof.
  induction l as [|mesh rest IH]; intros e.
  - exists []. cbn. rewrite app_nil_r, !orb_false_r, orb_true_r. repeat split.
  - rewrite GLFacts.forEachM_cons.
    destruct (drawMesh_run mesh e) as (cs1 & Hc1 & Hw1 & Hd1 & He1 & Hn1 & Hp1).
    destruct (drawMesh mesh e) as [u e1]. cbn [fst snd] in *.
    destruct (IH e1) as (cs2 & Hc2 & Hw2 & Hd2 & He2 & Hn2 & Hp2).
    destruct (forEachM drawMesh rest e1) as [us e2]. cbn [fst snd] in *.
    exists (cs1 ++ cs2). split; [exact (calls_trans _ _ _ _ _ Hc1 Hc2)|].
    cbn [existsb forallb flat_map]. split; [|split; [|split; [|split]]].
    + rewrite Hw2, Hw1. now rewrite orb_assoc.
    + intros b. now rewrite drawsOn_app, Hd1, Hd2.
    + now rewrite elementTypes_app, map_app, elementTypes_app, He1, He2.
    + rewrite warnings_app, Hn1, Hn2, Hw1.
      destruct (warned e), (valid (vao mesh)); cbn [orb andb negb app];
        try reflexivity.
    + now rewrite pointSizes_app, Hp1, Hp2.
Qed.

(** [Model::draw] as a whole. *)
Lemma draw_run m e :
  exists cs,
    calls (snd (draw m e)) = calls e ++ cs ++ [glBindVertexArray 0]
    /\ warned (snd (draw m e))
       = warned e || existsb (fun mesh => negb (valid (vao mesh))) (mMeshes m)
    /\ (forall b, Trace.drawsOn b cs = flat_map drawn (mMeshes m))
    /\ Trace.elementTypes cs
       = Trace.elementTypes (map snd (flat_map drawn (mMeshes m)))
    /\ Trace.warnings cs
       = (if warned e || forallb (fun mesh => valid (vao mesh)) (mMeshes m)
          then [] else [cerr_no_VAO]).
Proof.
  destruct (forEachM_drawMesh (mMeshes m) e) as (cs & Hc & Hw & Hd & He & Hn & _).
  exists cs.
  assert (Hrun : snd (draw m e)
                 = log [glBindVertexArray 0] (snd (forEachM drawMesh (mMeshes m) e))).
  { unfold draw, seq at 1.
    destruct (forEachM drawMesh (mMeshes m) e) as [us [ln cs0 w s1 s2 s3 sp]].
    reflexivity. }
  rewrite Hrun. unfold log. cbn [calls warned]. rewrite Hc, Hw, <- app_assoc.
  repeat split; assumption.
Qed.

(** Every mesh has a vertex array after the loop of [uploadToGPU]. *)
Lemma uploadMesh_valid mesh e : valid (vao (fst (uploadMesh mesh e))) = true.
Proof.
  destruct (valid (vao mesh)) eqn:Hv.
  - unfold uploadMesh. rewrite Hv. exact Hv.
  - assert (Hz : vao mesh = 0).
    { unfold valid in Hv. apply negb_false_iff, N.eqb_eq in Hv. exact Hv. }
    destruct (UploadFacts.uploadMesh_run mesh e Hz)
      as (_ & _ & _ & _ & _ & Hne & _).
    unfold valid. apply negb_true_iff, N.eqb_neq. exact Hne.
Qed.

Lemma forEachM_uploadMesh_valid l :
  forall e, forallb (fun mesh => valid (vao mesh)) (fst (forEachM uploadMesh l e))
            = true.
Proof.
  induction l as [|mesh rest IH]; intros e; [reflexivity|].
  rewrite GLFacts.forEachM_cons.
  pose proof (uploadMesh_valid mesh e) as Hv.
  destruct (uploadMesh mesh e) as [mesh' e1]. cbn [fst] in Hv.
  specialize (IH e1). destruct (forEachM uploadMesh rest e1) as [rest' e2].
  cbn [fst forallb] in *. now rewrite Hv, IH.
Qed.

(** A mesh that has a vertex array is passed over. *)
Lemma forEachM_uploadMesh_skip l :
  forallb (fun mesh => valid (vao mesh)) l = true ->
  forall e, forEachM uploadMesh l e = (l, e).
Proof.
  induction l as [|mesh rest IH]; intros Hall e; [reflexivity|].
  cbn [forallb] in Hall. apply andb_true_iff in Hall as [Hv Hrest].
  rewrite GLFacts.forEachM_cons. unfold uploadMesh at 1. rewrite Hv.
  unfold ret. now rewrite (IH Hrest).
Qed.

Lemma dropCpuArrays_valid ms :
  forallb (fun mesh => valid (vao mesh)) (map dropCpuArrays ms)
  = forallb (fun mesh => valid (vao mesh)) ms.
Proof. induction ms as [|mesh rest IH]; cbn; [reflexivity|]. now rewrite IH. Qed.

Lemma uploadToGPU_meshes dropCpu m e :
  mMeshes (fst (uploadToGPU dropCpu m e))
  = (if dropCpu then map dropCpuArrays (fst (forEachM uploadMesh (mMeshes m) e))
     else fst (forEachM uploadMesh (mMeshes m) e)).
Proof.
  unfold uploadToGPU, seq at 1.
  destruct (forEachM uploadMesh (mMeshes m) e) as [ms e1]. reflexivity.
Qed.

Lemma uploadToGPU_valid dropCpu m e :
  forallb (fun mesh => valid (vao mesh)) (mMeshes (fst (uploadToGPU dropCpu m e)))
  = true.
Proof.
  rewrite uploadToGPU_meshes.
  destruct dropCpu; [rewrite dropCpuArrays_valid|];
    apply forEachM_uploadMesh_valid.
Qed.

End DrawLoopFacts.

Module UploadDrawFacts.
Import GL Model UploadShape DrawShape TraceFacts DrawLoopFacts.
Local Open Scope N_scope.

Lemma elementTypes_drawn ms :
  Trace.elementTypes (map snd (flat_map drawn ms))
  = flat_map (fun mesh => Trace.elementTypes (map snd (drawn mesh))) ms.
Proof.
  induction ms as [|mesh rest IH]; cbn [flat_map]; [reflexivity|].
  now rewrite map_app, elementTypes_app, IH.
Qed.

Lemma drawn_dropCpuArrays mesh : drawn (dropCpuArrays mesh) = drawn mesh.
Proof. reflexivity. Qed.

(** The element type [Model::draw] passes for a mesh is the one of the
    index buffer the upload filled for it. *)
Lemma uploadMesh_elementTypes mesh e :
  vao mesh = 0 ->
  Trace.elementTypes (map snd (drawn (fst (uploadMesh mesh e))))
  = map Trace.widthType (indexPayload mesh).
Proof.
  intros Hvao.
  pose proof (uploadMesh_valid mesh e) as Hvalid.
  destruct (UploadFacts.uploadMesh_run mesh e Hvao)
    as (_ & _ & _ & H16 & (_ & _ & Hic & _ & Hpc) & _).
  destruct (fst (uploadMesh mesh e)) as [vs' is' vao' vbo' ebo' ic' vc' pc' u16' opt'].
  cbn [uses16BitIndices indexCount isPointCloud vao] in *. subst ic' pc' u16'.
  unfold drawn, drawCall, indexPayload, indexed.
  cbn [uses16BitIndices indexCount isPointCloud vao]. rewrite Hvalid.
  destruct (isPointCloud mesh); cbn [negb andb]; [reflexivity|].
  destruct (N.eqb_spec (indexCount mesh) 0) as [Hz|Hnz].
  - rewrite Hz. reflexivity.
  - assert (Hpos : (0 <? indexCount mesh) = true) by (apply N.ltb_lt; lia).
    rewrite Hpos. destruct (sixteenBitFlag mesh); reflexivity.
Qed.

Lemma forEachM_uploadMesh_elementTypes l :
  Forall (fun mesh => vao mesh = 0) l ->
  forall e,
    flat_map (fun mesh => Trace.elementTypes (map snd (drawn mesh)))
             (fst (forEachM uploadMesh l e))
    = map Trace.widthType (flat_map indexPayload l).
Proof.
  induction 1 as [|mesh rest Hvao _ IH]; intros e; [reflexivity|].
  rewrite GLFacts.forEachM_cons.
  pose proof (uploadMesh_elementTypes mesh e Hvao) as H1.
  destruct (uploadMesh mesh e) as [mesh' e1]. cbn [fst] in H1.
  specialize (IH e1). destruct (forEachM uploadMesh rest e1) as [rest' e2].
  cbn [fst flat_map] in *. now rewrite map_app, H1, IH.
Qed.

End UploadDrawFacts.

(** X6. After [uploadToGPU] every mesh has a vertex array, so a second
    [uploadToGPU] uploads nothing: its only call unbinds the vertex array,
    and the meshes stay as they are but for the CPU arrays it is told to
    drop. *)
Theorem uploadToGPU_again_uploads_nothing :
  forall (dropCpu dropCpu' : bool) (m : Model.t) (e : GL.Env),
    let m1 := fst (Model.uploadToGPU dropCpu m e) in
    let e1 := snd (Model.uploadToGPU dropCpu m e) in
    forallb (fun mesh => GL.valid (Model.vao mesh)) (Model.mMeshes m1) = true
    /\ GL.issued (Model.uploadToGPU dropCpu' m1) e1 = [GL.glBindVertexArray 0%N]
    /\ Model.mMeshes (fst (Model.uploadToGPU dropCpu' m1 e1))
       = (if dropCpu' then map Model.dropCpuArrays (Model.mMeshes m1)
          else Model.mMeshes m1).
Proof.
  intros d d' m e m1 e1.
  pose proof (DrawLoopFacts.uploadToGPU_valid d m e) as Hvalid. fold m1 in Hvalid.
  split; [exact Hvalid|].
  pose proof (DrawLoopFacts.forEachM_uploadMesh_skip _ Hvalid e1) as Hskip.
  split.
  - unfold GL.issued, Model.uploadToGPU, GL.seq at 1. rewrite Hskip.
    destruct e1 as [ln cs0 w s1 s2 s3 sp]. gl_run.
    rewrite skipn_app, skipn_all, Nat.sub_diag. reflexivity.
  - rewrite DrawLoopFacts.uploadToGPU_meshes, Hskip. reflexivity.
Qed.

(** X7. Upload and draw agree on the width of the indices: for a model
    uploaded from scratch, the element types of the [glDrawElements] calls
    of [Model::draw] are, mesh by mesh, the element types of the index
    buffers that [uploadToGPU] filled. *)
Theorem draw_element_types_match_the_upload :
  forall (dropCpu : bool) (m : Model.t) (e : GL.Env),
    Forall (fun mesh => Model.vao mesh = 0%N) (Model.mMeshes m) ->
    let m1 := fst (Model.uploadToGPU dropCpu m e) in
    let e1 := snd (Model.uploadToGPU dropCpu m e) in
    Trace.elementTypes (GL.issued (Model.draw m1) e1)
    = map Trace.widthType
          (Trace.indexUploads (GL.issued (Model.uploadToGPU dropCpu m) e)).
Proof.
  intros d m e Hvao m1 e1.
  destruct (UploadFacts.uploadToGPU_run d m e Hvao) as (_ & _ & _ & -> & _).
  destruct (DrawLoopFacts.draw_run m1 e1) as (cs & Hc & _ & _ & He & _).
  rewrite (GLFacts.issued_exact _ _ _ Hc).
  rewrite TraceFacts.elementTypes_app, He.
  cbn [Trace.elementTypes flat_map Trace.elementType app]. rewrite app_nil_r.
  fold (Trace.elementTypes (map snd (flat_map DrawShape.drawn (Model.mMeshes m1)))).
  rewrite UploadDrawFacts.elementTypes_drawn.
  subst m1. rewrite DrawLoopFacts.uploadToGPU_meshes.
  rewrite <- (UploadDrawFacts.forEachM_uploadMesh_elementTypes _ Hvao e).
  destruct d; [|reflexivity].
  rewrite flat_map_concat_map, map_map, <- flat_map_concat_map. reflexivity.
Qed.

Lemma draw_element_types_match_the_upload_witness :
  Trace.elementTypes (GL.issued (Model.draw Examples.triangleModel)
                                Examples.triangleEnv)
  = map Trace.widthType
        (Trace.indexUploads
           (GL.issued (Model.uploadToGPU true
                         (Examples.load (Examples.sceneOf 3 [[0; 1; 2]%N])))
                      GL.initial)).
Proof.
  apply (draw_element_types_match_the_upload true
           (Examples.load (Examples.sceneOf 3 [[0; 1; 2]%N])) GL.initial).
  vm_compute. repeat constructor.
Defined.

(** X8. [Model::draw] issues the draw call of every mesh that has a vertex
    array while that vertex array is bound, in mesh order, passes over the
    others, and leaves no vertex array bound. *)
Theorem draw_draws_each_mesh_on_its_vertex_array :
  forall (m : Model.t) (e : GL.Env) (bound : GL.GlId),
    Trace.drawsOn bound (GL.issued (Model.draw m) e)
    = flat_map DrawShape.drawn (Model.mMeshes m)
    /\ Trace.boundAfter bound (GL.issued (Model.draw m) e) = 0%N.
Proof.
  intros m e b.
  destruct (DrawLoopFacts.draw_run m e) as (cs & Hc & _ & Hd & _).
  rewrite (GLFacts.issued_exact _ _ _ Hc). split.
  - rewrite TraceFacts.drawsOn_app, Hd. cbn [Trace.drawsOn]. apply app_nil_r.
  - unfold Trace.boundAfter. rewrite fold_left_app. reflexivity.
Qed.

Module PointLoopFacts.
Import GL Model DrawShape TraceFacts DrawLoopFacts.
Local Open Scope N_scope.

Lemma log_nil e : log [] e = e.
Proof. destruct e. unfold log. cbn. now rewrite app_nil_r. Qed.

Lemma log_log a b e : log b (log a e) = log (a ++ b) e.
Proof. unfold log. cbn. now rewrite app_assoc. Qed.

Lemma issued_log {A : Type} (m : M A) e cs :
  snd (m e) = log cs e -> issued m e = cs.
Proof. intros H. apply GLFacts.issued_exact. now rewrite H. Qed.

(** A float that is not NaN equals itself. *)
Lemma differs_same (x : float) : x <> S754_nan -> differs x x = false.
Proof.
  intros Hx. unfold differs, SFeqb.
  destruct x as [s|s| |s m e]; try congruence; destruct s; cbn [SFcompare negb];
    rewrite ?Z.compare_refl, ?Pos.compare_refl; cbn; 
    rewrite ?Pos.compare_refl; reflexivity.
Qed.

Lemma differs_nan (x : float) : differs S754_nan x = true.
Proof. destruct x; reflexivity. Qed.

(** One round of the loop of [drawPoints] and [drawSphereImpostors]. *)
Lemma drawMeshPoints_run mesh e :
  exists cs,
    snd (drawMeshPoints mesh e) = log cs e
    /\ (forall b, Trace.drawsOn b cs = drawnAsPoints mesh)
    /\ Trace.pointSizes cs = [].
Proof.
  unfold drawMeshPoints, drawnAsPoints.
  destruct (negb (valid (vao mesh)) || (vertexCount mesh =? 0)).
  - exists []. rewrite log_nil. repeat split.
  - destruct e as [ln cs0 w s1 s2 s3 sp]. gl_run. unfold log. cbn.
    eexists. split; [flatten_calls; reflexivity|]. repeat split.
Qed.

Lemma forEachM_drawMeshPoints l :
  forall e,
  exists cs,
    snd (forEachM drawMeshPoints l e) = log cs e
    /\ (forall b, Trace.drawsOn b cs = flat_map drawnAsPoints l)
    /\ Trace.pointSizes cs = [].
Proof.
  induction l as [|mesh rest IH]; intros e.
  - exists []. cbn. rewrite log_nil. repeat split.
  - rewrite GLFacts.forEachM_cons.
    destruct (drawMeshPoints_run mesh e) as (cs1 & H1 & Hd1 & Hp1).
    destruct (drawMeshPoints mesh e) as [u e1]. cbn [snd] in H1. subst e1.
    destruct (IH (log cs1 e)) as (cs2 & H2 & Hd2 & Hp2).
    destruct (forEachM drawMeshPoints rest (log cs1 e)) as [us e2].
    cbn [snd] in *. subst e2. exists (cs1 ++ cs2).
    split; [apply log_log|]. split.
    + intros b. cbn [flat_map]. now rewrite drawsOn_app, Hd1, Hd2.
    + now rewrite pointSizes_app, Hp1, Hp2.
Qed.

(** [drawPoints] as a whole: the point size is set when it differs from
    the one this function set last, then the loop runs. *)
Lemma drawPoints_env m pointSize ln cs0 w s1 s2 s3 sp :
  exists cs,
    snd (drawPoints m pointSize (mkEnv ln cs0 w s1 s2 s3 sp))
    = mkEnv ln
            (cs0 ++ (if differs pointSize s1 then [glPointSize pointSize] else [])
                 ++ cs ++ [glBindVertexArray 0])
            w (if differs pointSize s1 then pointSize else s1) s2 s3 sp
    /\ (forall b, Trace.drawsOn b cs = flat_map drawnAsPoints (mMeshes m))
    /\ Trace.pointSizes cs = [].
Proof.
  unfold drawPoints. unfold seq at 1. unfold get.
  cbn [sLastPointSize_drawPoints].
  destruct (differs pointSize s1); gl_run;
    match goal with
    | |- context [forEachM drawMeshPoints (mMeshes m) ?env] =>
        destruct (forEachM_drawMeshPoints (mMeshes m) env) as (cs & Hrun & Hd & Hp);
        destruct (forEachM drawMeshPoints (mMeshes m) env) as [us e1];
        cbn [snd] in Hrun; subst e1
    end;
    exists cs; unfold log; cbn;
    (split; [rewrite <- ?app_assoc; reflexivity|]); split; assumption.
Qed.

Lemma drawPoints_run m pointSize e :
  exists cs,
    issued (drawPoints m pointSize) e
    = (if differs pointSize (sLastPointSize_drawPoints e)
       then [glPointSize pointSize] else []) ++ cs ++ [glBindVertexArray 0]
    /\ sLastPointSize_drawPoints (snd (drawPoints m pointSize e))
       = (if differs pointSize (sLastPointSize_drawPoints e)
          then pointSize else sLastPointSize_drawPoints e)
    /\ sLastPointSize_drawSphereImpostors (snd (drawPoints m pointSize e))
       = sLastPointSize_drawSphereImpostors e
    /\ (forall b, Trace.drawsOn b cs = flat_map drawnAsPoints (mMeshes m))
    /\ Trace.pointSizes cs = [].
Proof.
  destruct e as [ln cs0 w s1 s2 s3 sp].
  destruct (drawPoints_env m pointSize ln cs0 w s1 s2 s3 sp) as (cs & Hrun & Hd & Hp).
  exists cs. split.
  - apply GLFacts.issued_exact. now rewrite Hrun.
  - rewrite Hrun. repeat split; assumption.
Qed.

Lemma drawSphereImpostors_env m pointSize ln cs0 w s1 s2 s3 sp :
  exists cs,
    snd (drawSphereImpostors m pointSize (mkEnv ln cs0 w s1 s2 s3 sp))
    = mkEnv ln
            (cs0 ++ (if differs pointSize s3 then [glPointSize pointSize] else [])
                 ++ cs ++ [glBindVertexArray 0])
            w s1 s2 (if differs pointSize s3 then pointSize else s3) sp
    /\ (forall b, Trace.drawsOn b cs = flat_map drawnAsPoints (mMeshes m))
    /\ Trace.pointSizes cs = [].
Proof.
  unfold drawSphereImpostors. unfold seq at 1. unfold get.
  cbn [sLastPointSize_drawSphereImpostors].
  destruct (differs pointSize s3); gl_run;
    match goal with
    | |- context [forEachM drawMeshPoints (mMeshes m) ?env] =>
        destruct (forEachM_drawMeshPoints (mMeshes m) env) as (cs & Hrun & Hd & Hp);
        destruct (forEachM drawMeshPoints (mMeshes m) env) as [us e1];
        cbn [snd] in Hrun; subst e1
    end;
    exists cs; unfold log; cbn;
    (split; [rewrite <- ?app_assoc; reflexivity|]); split; assumption.
Qed.

Lemma drawSphereImpostors_run m pointSize e :
  exists cs,
    issued (drawSphereImpostors m pointSize) e
    = (if differs pointSize (sLastPointSize_drawSphereImpostors e)
       then [glPointSize pointSize] else []) ++ cs ++ [glBindVertexArray 0]
    /\ sLastPointSize_drawPoints (snd (drawSphereImpostors m pointSize e))
       = sLastPointSize_drawPoints e
    /\ sLastPointSize_drawSphereImpostors (snd (drawSphereImpostors m pointSize e))
       = (if differs pointSize (sLastPointSize_drawSphereImpostors e)
          then pointSize else sLastPointSize_drawSphereImpostors e)
    /\ (forall b, Trace.drawsOn b cs = flat_map drawnAsPoints (mMeshes m))
    /\ Trace.pointSizes cs = [].
Proof.
  destruct e as [ln cs0 w s1 s2 s3 sp].
  destruct (drawSphereImpostors_env m pointSize ln cs0 w s1 s2 s3 sp)
    as (cs & Hrun & Hd & Hp).
  exists cs. split.
  - apply GLFacts.issued_exact. now rewrite Hrun.
  - rewrite Hrun. repeat split; assumption.
Qed.

Lemma pointSizes_run pre cs :
  Trace.pointSizes cs = [] ->
  Trace.pointSizes (pre ++ cs ++ [glBindVertexArray 0]) = Trace.pointSizes pre.
Proof.
  intros H. rewrite !pointSizes_app, H. cbn. now rewrite app_nil_r.
Qed.

End PointLoopFacts.

Module PointCallFacts.
Import GL Model DrawShape TraceFacts DrawLoopFacts PointLoopFacts.
Local Open Scope N_scope.

Lemma drawPoints_calls m pointSize e :
  exists cs,
    calls (snd (drawPoints m pointSize e))
    = calls e ++ (if differs pointSize (sLastPointSize_drawPoints e)
                  then [glPointSize pointSize] else [])
              ++ cs ++ [glBindVertexArray 0]
    /\ sLastPointSize_drawPoints (snd (drawPoints m pointSize e))
       = (if differs pointSize (sLastPointSize_drawPoints e)
          then pointSize else sLastPointSize_drawPoints e)
    /\ sLastPointSize_drawSphereImpostors (snd (drawPoints m pointSize e))
       = sLastPointSize_drawSphereImpostors e
    /\ Trace.pointSizes cs = [].
Proof.
  destruct e as [ln cs0 w s1 s2 s3 sp].
  destruct (drawPoints_env m pointSize ln cs0 w s1 s2 s3 sp) as (cs & Hrun & _ & Hp).
  exists cs. rewrite Hrun. repeat split; assumption.
Qed.

Lemma drawSphereImpostors_calls m pointSize e :
  exists cs,
    calls (snd (drawSphereImpostors m pointSize e))
    = calls e ++ (if differs pointSize (sLastPointSize_drawSphereImpostors e)
                  then [glPointSize pointSize] else [])
              ++ cs ++ [glBindVertexArray 0]
    /\ sLastPointSize_drawPoints (snd (drawSphereImpostors m pointSize e))
       = sLastPointSize_drawPoints e
    /\ sLastPointSize_drawSphereImpostors (snd (drawSphereImpostors m pointSize e))
       = (if differs pointSize (sLastPointSize_drawSphereImpostors e)
          then pointSize else sLastPointSize_drawSphereImpostors e)
    /\ Trace.pointSizes cs = [].
Proof.
  destruct e as [ln cs0 w s1 s2 s3 sp].
  destruct (drawSphereImpostors_env m pointSize ln cs0 w s1 s2 s3 sp)
    as (cs & Hrun & _ & Hp).
  exists cs. rewrite Hrun. repeat split; assumption.
Qed.

End PointCallFacts.

Module WarningFacts.
Import GL Model DrawShape TraceFacts DrawLoopFacts.
Local Open Scope N_scope.

(** Across any number of [Model::draw] calls, the warning goes out when
    the flag was down, and the flag is up afterwards. *)
Lemma forEachM_draw_warnings ms :
  forall e,
  exists cs,
    calls (snd (forEachM draw ms e)) = calls e ++ cs
    /\ (warned e = true -> warned (snd (forEachM draw ms e)) = true)
    /\ (Trace.warnings cs = []
        \/ (Trace.warnings cs = [cerr_no_VAO] /\ warned e = false
            /\ warned (snd (forEachM draw ms e)) = true)).
Proof.
  induction ms as [|m rest IH]; intros e.
  - exists []. cbn. rewrite app_nil_r. auto.
  - rewrite GLFacts.forEachM_cons.
    destruct (draw_run m e) as (cs1 & Hc1 & Hw1 & _ & _ & Hn1).
    destruct (draw m e) as [u e1]. cbn [fst snd] in *.
    destruct (IH e1) as (cs2 & Hc2 & Hk2 & Hn2).
    destruct (forEachM draw rest e1) as [us e2]. cbn [fst snd] in *.
    exists ((cs1 ++ [glBindVertexArray 0]) ++ cs2).
    split; [exact (calls_trans _ _ _ _ _ Hc1 Hc2)|].
    rewrite !warnings_app. cbn [Trace.warnings flat_map Trace.warning app].
    rewrite app_nil_r, Hn1. split.
    + intros Hw. apply Hk2. rewrite Hw1, Hw. reflexivity.
    + destruct (warned e) eqn:Hw; cbn [orb] in *.
      * destruct Hn2 as [H2|(_ & H2 & _)]; [left; exact H2|congruence].
      * destruct (forallb (fun mesh => valid (vao mesh)) (mMeshes m)) eqn:Hall.
        -- destruct Hn2 as [H2|(H2 & _ & H3)]; [left; exact H2|].
           right. cbn [app]. auto.
        -- assert (He1 : warned e1 = true).
           { rewrite Hw1. clear - Hall. induction (mMeshes m) as [|mesh l IHl];
               cbn [forallb existsb] in *; [discriminate|].
             destruct (valid (vao mesh)); cbn [negb orb andb] in *; auto. }
           destruct Hn2 as [H2|(_ & H2 & _)]; [|congruence].
           right. rewrite H2. cbn [app]. auto.
Qed.

End WarningFacts.

Module SubsetFacts.
Import GL Model DrawShape TraceFacts.
Local Open Scope N_scope.

Lemma drawPointsSubset_run m indices pointSize e :
  exists cs,
    calls (snd (drawPointsSubset m indices pointSize e)) = calls e ++ cs
    /\ flat_map Trace.generated cs = flat_map Trace.deleted cs
    /\ (indices = [] -> cs = [])
    /\ (subsetDrawable m = false ->
        (forall b, Trace.drawsOn b cs = []) /\ flat_map Trace.generated cs = []
        /\ Trace.indexUploads cs = []).
Proof.
  unfold drawPointsSubset, subsetDrawable.
  destruct indices as [|i0 indices']; cbn [Octree.isEmpty].
  { exists []. cbn. rewrite app_nil_r. repeat split. }
  destruct e as [ln cs0 w s1 s2 s3 sp].
  unfold seq at 1. unfold get. cbn [sLastPointSize_drawPointsSubset].
  destruct (mMeshes m) as [|mesh rest];
    [|destruct (isPointCloud mesh && valid (vao mesh));
      [destruct (maxIndex (i0 :: indices') <? 65536)|]];
    destruct (differs pointSize s2); gl_run;
    (first [ exists []; split; [symmetry; apply app_nil_r|]
           | eexists; split; [flatten_calls; reflexivity|] ]);
    (split; [reflexivity|]); (split; [discriminate|]);
    intros Hd; try discriminate Hd; repeat split.
Qed.
End SubsetFacts.

(** X9. However many models are drawn one after the other with
    [Model::draw], and whatever their meshes, the missing-VAO warning is
    written at most once, and not at all once it has been written
    before. *)
Theorem draw_warns_at_most_once :
  forall (ms : list Model.t) (e : GL.Env),
    (List.length (Trace.warnings (GL.issued (GL.forEachM Model.draw ms) e)) <= 1)%nat
    /\ (GL.warned e = true
        -> Trace.warnings (GL.issued (GL.forEachM Model.draw ms) e) = []).
Proof.
  intros ms e.
  destruct (WarningFacts.forEachM_draw_warnings ms e) as (cs & Hc & _ & Hn).
  rewrite (GLFacts.issued_exact _ _ _ Hc).
  destruct Hn as [->|(-> & Hw & _)]; cbn [List.length]; split; auto; congruence.
Qed.

(** X10. [drawPoints] draws every mesh that has a vertex array and at
    least one vertex as points on that vertex array, whether the mesh is a
    point cloud or not. It calls [glPointSize] only when the size differs
    from the one it set last: a second call with the same size sets
    nothing. A NaN size is the exception: it differs from itself and is
    set on every call. *)
Theorem drawPoints_draws_all_meshes_and_caches_the_size :
  forall (m m' : Model.t) (pointSize : float) (e : GL.Env) (bound : GL.GlId),
    pointSize <> S754_nan ->
    Trace.drawsOn bound (GL.issued (Model.drawPoints m pointSize) e)
    = flat_map DrawShape.drawnAsPoints (Model.mMeshes m)
    /\ Trace.pointSizes (GL.issued (Model.drawPoints m' pointSize)
                                   (snd (Model.drawPoints m pointSize e)))
       = []
    /\ Trace.pointSizes (GL.issued (Model.drawPoints m S754_nan) e) = [S754_nan].
Proof.
  intros m m' ps e b Hnan. split; [|split].
  - destruct (PointLoopFacts.drawPoints_run m ps e) as (cs & -> & _ & _ & Hd & Hp).
    rewrite TraceFacts.drawsOn_app, TraceFacts.drawsOn_app, Hd.
    destruct (Model.differs ps (GL.sLastPointSize_drawPoints e));
      cbn [Trace.drawsOn Trace.isDraw app]; now rewrite app_nil_r.
  - destruct (PointLoopFacts.drawPoints_run m ps e) as (_ & _ & Hs & _).
    destruct (PointLoopFacts.drawPoints_run m' ps (snd (Model.drawPoints m ps e)))
      as (cs & -> & _ & _ & _ & Hp).
    rewrite (PointLoopFacts.pointSizes_run _ _ Hp), Hs.
    destruct (Model.differs ps (GL.sLastPointSize_drawPoints e)) eqn:Hd.
    + now rewrite (PointLoopFacts.differs_same ps Hnan).
    + now rewrite Hd.
  - destruct (PointLoopFacts.drawPoints_run m S754_nan e) as (cs & -> & _ & _ & _ & Hp).
    rewrite (PointLoopFacts.pointSizes_run _ _ Hp).
    now rewrite PointLoopFacts.differs_nan.
Qed.

Lemma drawPoints_draws_all_meshes_and_caches_the_size_witness :
  Trace.drawsOn 0%N (GL.issued (Model.drawPoints Examples.twoCloudModel F32.one)
                               GL.initial)
  = flat_map DrawShape.drawnAsPoints (Model.mMeshes Examples.twoCloudModel)
  /\ Trace.pointSizes (GL.issued (Model.drawPoints Examples.twoCloudModel F32.one)
                                 (snd (Model.drawPoints Examples.twoCloudModel
                                                        F32.one GL.initial)))
     = []
  /\ Trace.pointSizes (GL.issued (Model.drawPoints Examples.twoCloudModel S754_nan)
                                 GL.initial) = [S754_nan].
Proof.
  apply (drawPoints_draws_all_meshes_and_caches_the_size
           Examples.twoCloudModel Examples.twoCloudModel F32.one GL.initial 0%N).
  discriminate.
Defined.

(** X11. The three point-drawing functions keep one remembered point size
    each, while the driver has a single one. After [drawPoints] with size
    a and [drawSphereImpostors] with a size b that it has to set, a further
    [drawPoints] with size a sets nothing, so its points are drawn with
    the driver's point size at b. *)
Theorem drawPoints_size_cache_goes_stale :
  forall (m : Model.t) (a b : float) (e : GL.Env) (size0 : float),
    a <> S754_nan ->
    Model.differs b (GL.sLastPointSize_drawSphereImpostors e) = true ->
    let e1 := snd (Model.drawPoints m a e) in
    let e2 := snd (Model.drawSphereImpostors m b e1) in
    Trace.pointSizes (GL.issued (Model.drawPoints m a) e2) = []
    /\ Trace.pointSizeAfter size0
         (GL.issued (Model.drawPoints m a ;;; Model.drawSphereImpostors m b ;;;
                     Model.drawPoints m a) e)
       = b.
Proof.
  intros m a b e size0 Hnan Hb e1 e2.
  destruct (PointCallFacts.drawPoints_calls m a e) as (cs1 & Hc1 & Hs1 & Hi1 & Hp1).
  fold e1 in Hc1, Hs1, Hi1.
  destruct (PointCallFacts.drawSphereImpostors_calls m b e1)
    as (cs2 & Hc2 & Hs2 & _ & Hp2).
  fold e2 in Hc2, Hs2. rewrite Hi1, Hb in Hc2.
  destruct (PointCallFacts.drawPoints_calls m a e2) as (cs3 & Hc3 & _ & _ & Hp3).
  assert (Hsame : Model.differs a (GL.sLastPointSize_drawPoints e2) = false).
  { rewrite Hs2, Hs1.
    destruct (Model.differs a (GL.sLastPointSize_drawPoints e)) eqn:Hd;
      [now apply PointLoopFacts.differs_same|exact Hd]. }
  rewrite Hsame in Hc3. split.
  - rewrite (GLFacts.issued_exact _ _ _ Hc3).
    now rewrite (PointLoopFacts.pointSizes_run _ _ Hp3).
  - assert (Hall : GL.calls (snd ((Model.drawPoints m a ;;;
                                   Model.drawSphereImpostors m b ;;;
                                   Model.drawPoints m a) e))
                   = GL.calls (snd (Model.drawPoints m a e2))).
    { unfold GL.seq. subst e2 e1.
      destruct (Model.drawPoints m a e) as [u1 x1]. cbn [snd].
      destruct (Model.drawSphereImpostors m b x1) as [u2 x2]. reflexivity. }
    unfold GL.issued. rewrite Hall, Hc3, Hc2, Hc1.
    rewrite <- !app_assoc, skipn_app, skipn_all, Nat.sub_diag. cbn [skipn].
    unfold Trace.pointSizeAfter.
    rewrite !TraceFacts.pointSizes_app, Hp1, Hp2, Hp3.
    cbn [Trace.pointSizes flat_map Trace.pointSize app].
    rewrite ?app_nil_r. apply last_last.
Qed.

Lemma drawPoints_size_cache_goes_stale_witness :
  Trace.pointSizes
    (GL.issued (Model.drawPoints Examples.twoCloudModel F32.half)
       (snd (Model.drawSphereImpostors Examples.twoCloudModel F32.one
               (snd (Model.drawPoints Examples.twoCloudModel F32.half GL.initial)))))
  = []
  /\ Trace.pointSizeAfter F32.zero
       (GL.issued (Model.drawPoints Examples.twoCloudModel F32.half ;;;
                   Model.drawSphereImpostors Examples.twoCloudModel F32.one ;;;
                   Model.drawPoints Examples.twoCloudModel F32.half) GL.initial)
     = F32.one.
Proof.
  apply (drawPoints_size_cache_goes_stale Examples.twoCloudModel F32.half F32.one
           GL.initial F32.zero); [discriminate|reflexivity].
Defined.

(** X12. [drawPointsSubset] deletes the temporary index buffer it
    generates: in every case the buffer names generated are the buffer
    names deleted. *)
Theorem drawPointsSubset_releases_its_buffer :
  forall (m : Model.t) (indices : list N) (pointSize : float) (e : GL.Env),
    flat_map Trace.generated (GL.issued (Model.drawPointsSubset m indices pointSize) e)
    = flat_map Trace.deleted (GL.issued (Model.drawPointsSubset m indices pointSize) e).
Proof.
  intros m indices ps e.
  destruct (SubsetFacts.drawPointsSubset_run m indices ps e) as (cs & Hc & Hg & _).
  now rewrite (GLFacts.issued_exact _ _ _ Hc).
Qed.

(** Given no indices, [drawPointsSubset] issues no call at all. When
    the model has no meshes, or its first mesh is not a point cloud or has
    no vertex array, it draws nothing, generates no buffer and uploads no
    indices. *)
Theorem drawPointsSubset_without_a_cloud_draws_nothing :
  forall (m : Model.t) (indices : list N) (pointSize : float) (e : GL.Env)
         (bound : GL.GlId),
    indices = [] \/ DrawShape.subsetDrawable m = false ->
    let cs := GL.issued (Model.drawPointsSubset m indices pointSize) e in
    (indices = [] -> cs = [])
    /\ Trace.drawsOn bound cs = []
    /\ flat_map Trace.generated cs = []
    /\ Trace.indexUploads cs = [].
Proof.
  intros m indices ps e b Hcase cs.
  destruct (SubsetFacts.drawPointsSubset_run m indices ps e)
    as (cs' & Hc & _ & Hnil & Hnone).
  subst cs. rewrite (GLFacts.issued_exact _ _ _ Hc).
  split; [exact Hnil|].
  destruct Hcase as [Hi|Hd].
  - rewrite (Hnil Hi). repeat split.
  - destruct (Hnone Hd) as (H1 & H2 & H3). repeat split; auto.
Qed.

Lemma drawPointsSubset_without_a_cloud_draws_nothing_witness :
  let cs := GL.issued (Model.drawPointsSubset Examples.triangleModel [0%N] F32.one)
                      Examples.triangleEnv in
  ([0%N] = [] -> cs = [])
  /\ Trace.drawsOn 0%N cs = []
  /\ flat_map Trace.generated cs = []
  /\ Trace.indexUploads cs = [].
Proof.
  apply (drawPointsSubset_without_a_cloud_draws_nothing Examples.triangleModel
           [0%N] F32.one Examples.triangleEnv 0%N).
  right. reflexivity.
Defined.

(* ================================================================== *)
(** * Facts about the state cache and the occlusion culler *)

Module CacheFacts.
Import GL GLStateCache.
Local Open Scope N_scope.

Lemma run_app st a b : Driver.run st (a ++ b) = Driver.run (Driver.run st a) b.
Proof. apply fold_left_app. Qed.

(** Each setter leaves the cache where the calls it issued leave a driver
    that started where the cache was. *)
Lemma depthFunc_run func c e :
  exists cs,
    snd (depthFunc func c e) = log cs e
    /\ fst (depthFunc func c e) = Driver.run c cs
    /\ fst (depthFunc func c e) = mk func (mDepthWrite c) (mColorWrite c).
Proof.
  destruct c as [f w cw], e as [ln cs0 w0 s1 s2 s3 sp]. unfold depthFunc.
  destruct f, func; cbn [mDepthFunc depthFunc_eqb negb]; gl_run;
    first [ exists []; unfold log; cbn; rewrite app_nil_r; repeat split; fail
          | eexists; unfold log; cbn; repeat split ].
Qed.

Lemma depthMask_run enabled c e :
  exists cs,
    snd (depthMask enabled c e) = log cs e
    /\ fst (depthMask enabled c e) = Driver.run c cs
    /\ fst (depthMask enabled c e) = mk (mDepthFunc c) enabled (mColorWrite c).
Proof.
  destruct c as [f w cw], e as [ln cs0 w0 s1 s2 s3 sp]. unfold depthMask.
  destruct w, enabled; cbn [mDepthWrite Bool.eqb negb]; gl_run;
    first [ exists []; unfold log; cbn; rewrite app_nil_r; repeat split; fail
          | eexists; unfold log; cbn; repeat split ].
Qed.

Lemma colorMask_run r g b a c e :
  exists cs,
    snd (colorMask r g b a c e) = log cs e
    /\ fst (colorMask r g b a c e) = Driver.run c cs
    /\ fst (colorMask r g b a c e) = mk (mDepthFunc c) (mDepthWrite c) (r, g, b, a).
Proof.
  destruct c as [f w [[[r0 g0] b0] a0]], e as [ln cs0 w0 s1 s2 s3 sp].
  unfold colorMask. cbn [mColorWrite].
  destruct r0, g0, b0, a0, r, g, b, a; cbn [Bool.eqb negb orb]; gl_run;
    first [ exists []; unfold log; cbn; rewrite app_nil_r; repeat split; fail
          | eexists; unfold log; cbn; repeat split ].
Qed.

Lemma perform_run rq c e :
  exists cs,
    snd (perform c rq e) = log cs e
    /\ fst (perform c rq e) = Driver.run c cs
    /\ fst (perform c rq e) = asked rq c.
Proof.
  destruct rq; cbn [perform asked];
    [apply depthFunc_run|apply depthMask_run|apply colorMask_run].
Qed.

Lemma performAll_run rqs :
  forall c e,
  exists cs,
    snd (performAll rqs c e) = log cs e
    /\ fst (performAll rqs c e) = Driver.run c cs.
Proof.
  induction rqs as [|rq rest IH]; intros c e.
  - exists []. cbn. rewrite PointLoopFacts.log_nil. split; reflexivity.
  - cbn [performAll]. unfold seq.
    destruct (perform_run rq c e) as (cs1 & He1 & Hc1 & _).
    destruct (perform c rq e) as [c1 e1]. cbn [fst snd] in *. subst c1 e1.
    destruct (IH (Driver.run c cs1) (log cs1 e)) as (cs2 & He2 & Hc2).
    exists (cs1 ++ cs2). rewrite He2, Hc2, PointLoopFacts.log_log, run_app.
    split; reflexivity.
Qed.

End CacheFacts.

(** X14. The state cache mirrors the driver: if the cache holds the depth
    function, depth mask and colour mask that the calls so far have left
    in the driver, then after any sequence of [depthFunc], [depthMask] and
    [colorMask] requests through the cache it holds what the calls so far
    have left in the driver then. *)
Theorem GLStateCache_mirrors_the_driver :
  forall (rqs : list GLStateCache.Request) (driver0 c : GLStateCache.t) (e : GL.Env),
    c = Driver.run driver0 (GL.calls e) ->
    fst (GLStateCache.performAll rqs c e)
    = Driver.run driver0 (GL.calls (snd (GLStateCache.performAll rqs c e))).
Proof.
  intros rqs d0 c e Hc.
  destruct (CacheFacts.performAll_run rqs c e) as (cs & He & Hr).
  rewrite Hr, He. unfold GL.log. cbn [GL.calls].
  now rewrite CacheFacts.run_app, Hc.
Qed.

Lemma GLStateCache_mirrors_the_driver_witness :
  fst (GLStateCache.performAll Examples.prepassRequests Examples.resetCache
                               GL.initial)
  = Driver.run Examples.resetCache
      (GL.calls (snd (GLStateCache.performAll Examples.prepassRequests
                                              Examples.resetCache GL.initial))).
Proof.
  apply (GLStateCache_mirrors_the_driver Examples.prepassRequests
           Examples.resetCache Examples.resetCache GL.initial).
  reflexivity.
Defined.

(** A request for the value the cache already holds issues no call
    and changes nothing: the second of two equal requests in a row is
    dropped. *)
Theorem GLStateCache_drops_a_repeated_request :
  forall (rq : GLStateCache.Request) (c : GLStateCache.t) (e : GL.Env),
    let c1 := fst (GLStateCache.perform c rq e) in
    let e1 := snd (GLStateCache.perform c rq e) in
    GLStateCache.perform c1 rq e1 = (c1, e1).
Proof.
  intros rq c e c1 e1.
  destruct (CacheFacts.perform_run rq c e) as (_ & _ & _ & Hc).
  fold c1 in Hc. rewrite Hc.
  destruct c as [f w [[[r0 g0] b0] a0]].
  destruct rq as [func|enabled|r g b a];
    cbn [GLStateCache.asked GLStateCache.perform GLStateCache.mDepthFunc
         GLStateCache.mDepthWrite GLStateCache.mColorWrite].
  - unfold GLStateCache.depthFunc. cbn [GLStateCache.mDepthFunc].
    destruct func; reflexivity.
  - unfold GLStateCache.depthMask. cbn [GLStateCache.mDepthWrite].
    destruct enabled; reflexivity.
  - unfold GLStateCache.colorMask. cbn [GLStateCache.mColorWrite].
    destruct r, g, b, a; reflexivity.
Qed.

Module CullerFacts.
Import GL OcclusionCuller CacheFacts.
Local Open Scope N_scope.

Lemma succ_nonzero x : (N.succ x =? 0) = false.
Proof. apply N.eqb_neq. lia. Qed.

(** The uniform buffer update and [Shader::use] touch none of the state
    the cache mirrors. *)
Lemma updateData_run ubo block e :
  exists cs,
    snd (UniformBuffer_updateData ubo block e) = log cs e
    /\ (forall d, Driver.run d cs = d)
    /\ (forall b rest, Trace.drawsOn b (cs ++ rest) = Trace.drawsOn b rest).
Proof.
  unfold UniformBuffer_updateData. destruct e as [ln cs0 w s1 s2 s3 sp].
  destruct (negb (ubo =? 0)); gl_run.
  - eexists. unfold log. cbn. split; [flatten_calls; reflexivity|].
    split; reflexivity.
  - exists []. unfold log. cbn. rewrite app_nil_r. repeat split.
Qed.

Lemma use_run sh e :
  exists cs,
    calls (snd (Shader.use sh e)) = calls e ++ cs
    /\ (forall d, Driver.run d cs = d)
    /\ (forall b rest, Trace.drawsOn b (cs ++ rest) = Trace.drawsOn b rest).
Proof.
  unfold Shader.use. destruct e as [ln cs0 w s1 s2 s3 sp].
  unfold seq at 1. unfold get. cbn [sActiveProgram].
  destruct (negb (sp =? Shader.mProgram sh)); gl_run.
  - eexists. split; [reflexivity|]. split; reflexivity.
  - exists []. rewrite app_nil_r. repeat split.
Qed.


(** Runs the next driver call of a sequence, keeping the environment as
    a [log] over the one before. *)
Ltac step_call :=
  match goal with
  | |- context [call ?c ?env] =>
      change (call c env) with (tt, log [c] env); cbv beta iota
  end.

Lemma calls_log cs e : calls (log cs e) = calls e ++ cs.
Proof. reflexivity. Qed.

Lemma testOcclusion_cached c sh ubo sc reply e :
  mOcclusionQuerySupported c = true -> mOcclusionQuery c <> 0 ->
  exists cs e',
    testOcclusion c sh ubo (Some sc) reply e
    = (verdict c reply, Some (Driver.run sc cs), e')
    /\ calls e' = calls e ++ cs
    /\ Driver.run sc cs = afterTest.
Proof.
  intros Hs Hq. unfold testOcclusion. rewrite Hs.
  apply N.eqb_neq in Hq. rewrite Hq. cbn [negb orb].
  unfold seq.
  destruct (colorMask_run false false false false sc e) as (cs1 & He1 & Hr1 & Hv1).
  destruct (GLStateCache.colorMask false false false false sc e) as [sc1 e1].
  cbn [fst snd] in He1, Hr1, Hv1.
  destruct (depthMask_run true sc1 e1) as (cs2 & He2 & Hr2 & Hv2).
  destruct (GLStateCache.depthMask true sc1 e1) as [sc2 e2].
  cbn [fst snd] in He2, Hr2, Hv2.
  destruct (depthFunc_run GL_LESS sc2 e2) as (cs3 & He3 & Hr3 & Hv3).
  destruct (GLStateCache.depthFunc GL_LESS sc2 e2) as [sc3 e3].
  cbn [fst snd] in He3, Hr3, Hv3. unfold ret at 1.
  destruct (updateData_run ubo MatricesUBO e3) as (cs4 & He4 & Hn4 & _).
  destruct (UniformBuffer_updateData ubo MatricesUBO e3) as [u4 e4].
  cbn [snd] in He4.
  destruct (use_run sh e4) as (cs5 & He5 & Hn5 & _).
  destruct (Shader.use sh e4) as [u5 e5]. cbn [snd] in He5.
  do 5 step_call.
  match goal with
  | |- context [GLStateCache.colorMask true true true true sc3 ?env] =>
      destruct (colorMask_run true true true true sc3 env) as (cs6 & He6 & Hr6 & Hv6);
      destruct (GLStateCache.colorMask true true true true sc3 env) as [sc6 e6];
      cbn [fst snd] in He6, Hr6, Hv6
  end.
  unfold ret at 1. step_call.
  exists (cs1 ++ cs2 ++ cs3 ++ cs4 ++ cs5 ++ proxyDraw c ++ cs6 ++ readBack c reply).
  assert (Hrun : Driver.run sc
                   (cs1 ++ cs2 ++ cs3 ++ cs4 ++ cs5 ++ proxyDraw c ++ cs6
                    ++ readBack c reply)
                 = sc6).
  { rewrite !run_app, <- Hr1, <- Hr2, <- Hr3, Hn4, Hn5.
    unfold proxyDraw at 1. cbn [Driver.run fold_left Driver.apply].
    fold (Driver.run sc3 cs6). rewrite <- Hr6.
    unfold readBack. destruct reply; reflexivity. }
  rewrite Hrun. subst e6 e4 e3 e2 e1.
  rewrite !PointLoopFacts.log_log, calls_log in He5.
  unfold verdict, readBack. rewrite Hs.
  destruct reply; [step_call|]; unfold ret; (eexists; split; [reflexivity|]);
    (split; [|rewrite Hv6, Hv3, Hv2, Hv1; reflexivity]);
    rewrite !PointLoopFacts.log_log, calls_log, He5; unfold proxyDraw;
    rewrite <- !app_assoc; reflexivity.
Qed.

Lemma testOcclusion_uncached c sh ubo reply e :
  mOcclusionQuerySupported c = true -> mOcclusionQuery c <> 0 ->
  exists cs e',
    testOcclusion c sh ubo None reply e = (verdict c reply, None, e')
    /\ calls e' = calls e ++ cs
    /\ (forall d, Driver.run d cs = afterTest).
Proof.
  intros Hs Hq. unfold testOcclusion. rewrite Hs.
  apply N.eqb_neq in Hq. rewrite Hq. cbn [negb orb].
  unfold seq. do 3 step_call. unfold ret at 1. cbv beta iota.
  match goal with
  | |- context [UniformBuffer_updateData ubo MatricesUBO ?env] =>
      destruct (updateData_run ubo MatricesUBO env) as (cs4 & He4 & Hn4 & _);
      destruct (UniformBuffer_updateData ubo MatricesUBO env) as [u4 e4];
      cbn [snd] in He4
  end.
  destruct (use_run sh e4) as (cs5 & He5 & Hn5 & _).
  destruct (Shader.use sh e4) as [u5 e5]. cbn [snd] in He5.
  do 6 step_call. unfold ret at 1. cbv beta iota. step_call.
  exists ([glColorMask false false false false; glDepthMask true;
           glDepthFunc GL_LESS]
          ++ cs4 ++ cs5 ++ proxyDraw c ++ [glColorMask true true true true]
          ++ readBack c reply).
  subst e4. rewrite !PointLoopFacts.log_log, calls_log in He5.
  unfold verdict, readBack. rewrite Hs.
  destruct reply; [step_call|]; unfold ret; (eexists; split; [reflexivity|]);
    (split;
     [rewrite !PointLoopFacts.log_log, calls_log, He5; unfold proxyDraw;
      rewrite <- !app_assoc; reflexivity
     |intros d; rewrite !run_app, Hn4, Hn5; destruct d; reflexivity]).
Qed.

Lemma initialize_result glVersion c e :
  mOcclusionQuerySupported (fst (initialize glVersion c e)) = supportedBy glVersion c
  /\ mLastOcclusionResult (fst (initialize glVersion c e)) = mLastOcclusionResult c
  /\ (supportedBy glVersion c = true ->
      mOcclusionQuery (fst (initialize glVersion c e)) <> 0
      /\ mOcclusionVAO (fst (initialize glVersion c e)) <> 0).
Proof.
  destruct c as [q s l vao vbo ebo], e as [ln cs0 w s1 s2 s3 sp].
  unfold initialize. fold (supportedBy glVersion (mk q s l vao vbo ebo)).
  destruct (supportedBy glVersion (mk q s l vao vbo ebo)).
  2:{ cbn [fst mOcclusionQuerySupported mLastOcclusionResult ret].
      split; [reflexivity|]. split; [reflexivity|]. discriminate. }
  cbn [mOcclusionQuery mOcclusionQuerySupported mLastOcclusionResult
       mOcclusionVAO mOcclusionVBO mOcclusionEBO].
  unfold valid, createVertexArray, createBuffer.
  destruct (N.eqb_spec q 0) as [Hq|Hq], (N.eqb_spec vao 0) as [Hvao|Hvao];
    cbn [negb]; try (destruct (vbo =? 0), (ebo =? 0)); gl_run;
    cbn [mOcclusionQuery mOcclusionQuerySupported mLastOcclusionResult
         mOcclusionVAO];
    (split; [reflexivity|]); (split; [reflexivity|]); intros _; split;
    try assumption; apply N.neq_succ_0.
Qed.

Lemma initialize_settled glVersion c e :
  mOcclusionQuerySupported c = supportedBy glVersion c ->
  (supportedBy glVersion c = true -> mOcclusionQuery c <> 0 /\ mOcclusionVAO c <> 0) ->
  initialize glVersion c e = (c, e).
Proof.
  destruct c as [q s l vao vbo ebo]. unfold initialize.
  fold (supportedBy glVersion (mk q s l vao vbo ebo)).
  cbn [mOcclusionQuery mOcclusionQuerySupported mLastOcclusionResult
       mOcclusionVAO mOcclusionVBO mOcclusionEBO].
  intros Hflag Hobjects.
  destruct (supportedBy glVersion (mk q s l vao vbo ebo)); rewrite Hflag;
    [|reflexivity].
  destruct (Hobjects eq_refl) as [Hq Hvao].
  apply N.eqb_neq in Hq, Hvao. unfold valid. rewrite Hq, Hvao. reflexivity.
Qed.

Lemma supportedBy_flag glVersion c c' :
  mOcclusionQuerySupported c' = supportedBy glVersion c ->
  supportedBy glVersion c' = supportedBy glVersion c.
Proof. destruct glVersion as [[major minor]|]; cbn; auto. Qed.

End CullerFacts.

(** X16. A supported [testOcclusion] leaves the driver with colour writes
    on, depth writes on and the depth function GL_LESS, whatever they were
    before; and a state cache that mirrored the driver when it was passed
    in mirrors it afterwards. *)
Theorem testOcclusion_restores_colour_writes :
  forall (c : OcclusionCuller.t) (depthShader : Shader.t) (matricesUBO : GL.GlId)
         (stateCache : option GLStateCache.t) (reply : option N) (e : GL.Env)
         (driver0 : GLStateCache.t),
    OcclusionCuller.mOcclusionQuerySupported c = true ->
    OcclusionCuller.mOcclusionQuery c <> 0%N ->
    (forall sc, stateCache = Some sc -> sc = Driver.run driver0 (GL.calls e)) ->
    let r := OcclusionCuller.testOcclusion c depthShader matricesUBO stateCache
                                           reply e in
    Driver.run driver0 (GL.calls (snd r)) = OcclusionCuller.afterTest
    /\ snd (fst r) = option_map (fun _ => OcclusionCuller.afterTest) stateCache.
Proof.
  intros c sh ubo cache reply e d0 Hs Hq Hmirror r. subst r.
  destruct cache as [sc|].
  - destruct (CullerFacts.testOcclusion_cached c sh ubo sc reply e Hs Hq)
      as (cs & e' & -> & Hc & Hrun).
    cbn [fst snd option_map]. rewrite Hc, CacheFacts.run_app.
    rewrite <- (Hmirror sc eq_refl), Hrun. split; reflexivity.
  - destruct (CullerFacts.testOcclusion_uncached c sh ubo reply e Hs Hq)
      as (cs & e' & -> & Hc & Hrun).
    cbn [fst snd option_map]. rewrite Hc, CacheFacts.run_app, Hrun.
    split; reflexivity.
Qed.

Lemma testOcclusion_restores_colour_writes_witness :
  Driver.run Examples.resetCache
    (GL.calls (snd (OcclusionCuller.testOcclusion Examples.culler33
                      Examples.depthShader 0%N (Some Examples.resetCache)
                      (Some 0%N) GL.initial)))
  = OcclusionCuller.afterTest
  /\ snd (fst (OcclusionCuller.testOcclusion Examples.culler33
                 Examples.depthShader 0%N (Some Examples.resetCache)
                 (Some 0%N) GL.initial))
     = option_map (fun _ => OcclusionCuller.afterTest) (Some Examples.resetCache).
Proof.
  apply (testOcclusion_restores_colour_writes Examples.culler33
           Examples.depthShader 0%N (Some Examples.resetCache) (Some 0%N)
           GL.initial Examples.resetCache).
  - reflexivity.
  - vm_compute. discriminate.
  - intros sc Hsc. injection Hsc as <-. reflexivity.
Defined.

(** X17. A supported [testOcclusion] returns what it leaves in
    [getLastResult]: whether any sample passed when the driver has the
    result, and otherwise the result of the test before, with the culler
    unchanged. *)
Theorem testOcclusion_returns_the_stored_result :
  forall (c : OcclusionCuller.t) (depthShader : Shader.t) (matricesUBO : GL.GlId)
         (stateCache : option GLStateCache.t) (reply : option N) (e : GL.Env),
    OcclusionCuller.mOcclusionQuerySupported c = true ->
    OcclusionCuller.mOcclusionQuery c <> 0%N ->
    let r := OcclusionCuller.testOcclusion c depthShader matricesUBO stateCache
                                           reply e in
    let visible := fst (fst (fst r)) in
    let c' := snd (fst (fst r)) in
    visible = OcclusionCuller.getLastResult c'
    /\ visible = (match reply with
                  | Some samplesPassed => (0 <? samplesPassed)%N
                  | None => OcclusionCuller.getLastResult c
                  end)
    /\ (reply = None -> c' = c)
    /\ OcclusionCuller.isSupported c' = true
    /\ OcclusionCuller.mOcclusionQuery c' = OcclusionCuller.mOcclusionQuery c.
Proof.
  intros c sh ubo cache reply e Hs Hq r visible c'. subst visible c' r.
  assert (Hv : fst (OcclusionCuller.testOcclusion c sh ubo cache reply e)
               = (OcclusionCuller.verdict c reply,
                  snd (fst (OcclusionCuller.testOcclusion c sh ubo cache reply e)))).
  { destruct cache as [sc|].
    - destruct (CullerFacts.testOcclusion_cached c sh ubo sc reply e Hs Hq)
        as (cs & e' & -> & _). reflexivity.
    - destruct (CullerFacts.testOcclusion_uncached c sh ubo reply e Hs Hq)
        as (cs & e' & -> & _). reflexivity. }
  rewrite Hv. cbn [fst snd]. unfold OcclusionCuller.verdict.
  destruct reply; cbn [fst snd OcclusionCuller.getLastResult
                       OcclusionCuller.isSupported
                       OcclusionCuller.mLastOcclusionResult
                       OcclusionCuller.mOcclusionQuerySupported
                       OcclusionCuller.mOcclusionQuery];
    repeat split; try assumption; discriminate.
Qed.

Lemma testOcclusion_returns_the_stored_result_witness :
  let r := OcclusionCuller.testOcclusion Examples.culler33 Examples.depthShader
                                         0%N None (Some 0%N) GL.initial in
  let visible := fst (fst (fst r)) in
  let c' := snd (fst (fst r)) in
  visible = OcclusionCuller.getLastResult c'
  /\ visible = (0 <? 0)%N
  /\ (Some 0%N = None -> c' = Examples.culler33)
  /\ OcclusionCuller.isSupported c' = true
  /\ OcclusionCuller.mOcclusionQuery c'
     = OcclusionCuller.mOcclusionQuery Examples.culler33.
Proof.
  apply (testOcclusion_returns_the_stored_result Examples.culler33
           Examples.depthShader 0%N None (Some 0%N) GL.initial).
  - reflexivity.
  - vm_compute. discriminate.
Defined.

(** X18. On an OpenGL version below 3.3 [initialize] creates nothing, and
    the culler it leaves answers every [testOcclusion] with "visible"
    without a single driver call and without changing. *)
Theorem testOcclusion_unsupported_is_visible :
  forall (major minor : Z) (c : OcclusionCuller.t) (e e' : GL.Env)
         (depthShader : Shader.t) (matricesUBO : GL.GlId)
         (stateCache : option GLStateCache.t) (reply : option N),
    (major < 3 \/ (major = 3 /\ minor < 3))%Z ->
    let c1 := fst (OcclusionCuller.initialize (Some (major, minor)) c e) in
    GL.issued (OcclusionCuller.initialize (Some (major, minor)) c) e = []
    /\ OcclusionCuller.isSupported c1 = false
    /\ OcclusionCuller.testOcclusion c1 depthShader matricesUBO stateCache reply e'
       = (true, c1, stateCache, e').
Proof.
  intros major minor c e e' sh ubo cache reply Hold c1.
  assert (Hv : ((major >? 3) || ((major =? 3) && (minor >=? 3)))%Z = false).
  { apply orb_false_iff. split.
    - rewrite Z.gtb_ltb. apply Z.ltb_ge. lia.
    - apply andb_false_iff. destruct Hold as [H|[H1 H2]].
      + left. apply Z.eqb_neq. lia.
      + right. rewrite Z.geb_leb. apply Z.leb_gt. lia. }
  assert (Hinit : OcclusionCuller.initialize (Some (major, minor)) c e
                  = (OcclusionCuller.mk (OcclusionCuller.mOcclusionQuery c) false
                       (OcclusionCuller.mLastOcclusionResult c)
                       (OcclusionCuller.mOcclusionVAO c)
                       (OcclusionCuller.mOcclusionVBO c)
                       (OcclusionCuller.mOcclusionEBO c), e)).
  { unfold OcclusionCuller.initialize. rewrite Hv. reflexivity. }
  subst c1. unfold GL.issued. rewrite Hinit. cbn [fst snd].
  split; [apply skipn_all|]. split; reflexivity.
Qed.

Lemma testOcclusion_unsupported_is_visible_witness :
  GL.issued (OcclusionCuller.initialize (Some (2, 1)%Z) OcclusionCuller.fresh)
            Examples.triangleEnv = []
  /\ OcclusionCuller.isSupported Examples.culler21 = false
  /\ OcclusionCuller.testOcclusion Examples.culler21 (Shader.mk 1%N) 0%N None
                                   (Some 5%N) Examples.triangleEnv
     = (true, Examples.culler21, None, Examples.triangleEnv).
Proof.
  apply (testOcclusion_unsupported_is_visible 2 1 OcclusionCuller.fresh
           Examples.triangleEnv Examples.triangleEnv (Shader.mk 1%N) 0%N None
           (Some 5%N)).
  left. lia.
Defined.

(** X19. [initialize] keeps the last occlusion result, and when it finds
    queries supported it leaves a query object and a proxy vertex array in
    place. A second [initialize] on the same context creates nothing and
    changes nothing. *)
Theorem initialize_twice_is_initialize_once :
  forall (glVersion : option (Z * Z)) (c : OcclusionCuller.t) (e : GL.Env),
    let c1 := fst (OcclusionCuller.initialize glVersion c e) in
    let e1 := snd (OcclusionCuller.initialize glVersion c e) in
    OcclusionCuller.initialize glVersion c1 e1 = (c1, e1)
    /\ OcclusionCuller.getLastResult c1 = OcclusionCuller.getLastResult c
    /\ OcclusionCuller.isSupported c1 = OcclusionCuller.supportedBy glVersion c
    /\ implb (OcclusionCuller.isSupported c1)
             (GL.valid (OcclusionCuller.mOcclusionQuery c1)
              && GL.valid (OcclusionCuller.mOcclusionVAO c1)) = true.
Proof.
  intros v c e c1 e1.
  destruct (CullerFacts.initialize_result v c e) as (Hflag & Hlast & Hobjects).
  fold c1 in Hflag, Hlast, Hobjects.
  pose proof (CullerFacts.supportedBy_flag v c c1 Hflag) as Hsame.
  split; [|split; [exact Hlast|split; [exact Hflag|]]].
  - apply CullerFacts.initialize_settled.
    + now rewrite Hsame.
    + rewrite Hsame. exact Hobjects.
  - unfold OcclusionCuller.isSupported. rewrite Hflag.
    destruct (OcclusionCuller.supportedBy v c); [|reflexivity].
    destruct (Hobjects eq_refl) as [Hq Hvao]. unfold GL.valid.
    apply N.eqb_neq in Hq, Hvao. now rewrite Hq, Hvao.
Qed.

(* ================================================================== *)
(** * Facts about the scene *)

Module SceneFacts.
Import GL Scene DrawShape TraceFacts DrawLoopFacts CullerFacts.
Local Open Scope N_scope.

Lemma drawsOn_skip2 a b :
  (forall bound rest, Trace.drawsOn bound (a ++ rest) = Trace.drawsOn bound rest) ->
  (forall bound rest, Trace.drawsOn bound (b ++ rest) = Trace.drawsOn bound rest) ->
  forall bound rest, Trace.drawsOn bound ((a ++ b) ++ rest) = Trace.drawsOn bound rest.
Proof. intros Ha Hb bound rest. now rewrite <- app_assoc, Ha, Hb. Qed.

(** The uniform buffer updates at the head of the two draw functions. *)
Lemma updateUBOs_run s e :
  exists cs,
    snd ((if valid (mMatricesUBO s) then updateUBOs s else ret tt) e) = log cs e
    /\ (forall b rest, Trace.drawsOn b (cs ++ rest) = Trace.drawsOn b rest).
Proof.
  destruct (valid (mMatricesUBO s)).
  - unfold updateUBOs, seq.
    destruct (updateData_run (mMatricesUBO s) MatricesUBO e) as (cs1 & He1 & _ & Hd1).
    destruct (UniformBuffer_updateData (mMatricesUBO s) MatricesUBO e) as [u1 e1].
    cbn [snd] in He1. subst e1.
    destruct (updateData_run (mMaterialUBO s) MaterialUBO (log cs1 e))
      as (cs2 & He2 & _ & Hd2).
    destruct (UniformBuffer_updateData (mMaterialUBO s) MaterialUBO (log cs1 e))
      as [u2 e2].
    cbn [snd] in He2. subst e2.
    destruct (updateData_run (mLightingUBO s) LightingUBO (log cs2 (log cs1 e)))
      as (cs3 & He3 & _ & Hd3).
    rewrite He3. exists ((cs1 ++ cs2) ++ cs3).
    rewrite !PointLoopFacts.log_log, app_assoc. split; [reflexivity|].
    apply drawsOn_skip2; [apply drawsOn_skip2|]; assumption.
  - exists []. unfold ret. cbn [snd]. rewrite PointLoopFacts.log_nil. split; reflexivity.
Qed.

(** The branch of [Scene::draw] for a model of meshes that passes the two
    culling tests. *)
Lemma draw_meshes_run s shader sis iss frameState wireframe profData e :
  Model.isPointCloudModel (model s) = false ->
  (enableFrustumCulling s
   && negb (Frustum.intersectsTransformedAABB
              (Frustum.extractFromMatrix (fs_viewProj frameState))
              (Model.min (model s)) (Model.max (model s)) (modelMatrix s)))
  = false ->
  (enableOcclusionCulling s
   && (negb (OcclusionCuller.isSupported (mOcclusionCuller s))
       || negb (OcclusionCuller.getLastResult (mOcclusionCuller s)))) = false ->
  exists cs,
    calls (snd (draw s shader sis iss frameState wireframe profData e))
    = calls e ++ cs
    /\ (forall b, Trace.drawsOn b cs = flat_map drawn (Model.mMeshes (model s)))
    /\ fst (draw s shader sis iss frameState wireframe profData e)
       = (s, countTriangles profData (Model.meshes (model s))).
Proof.
  intros Hpc Hfrustum Hocclusion. unfold draw.
  rewrite Hfrustum, Hpc. cbn [negb]. rewrite andb_true_r.
  replace (enableOcclusionCulling s
           && (negb (OcclusionCuller.isSupported (mOcclusionCuller s))
               || negb (OcclusionCuller.getLastResult (mOcclusionCuller s))))
    with false.
  unfold seq.
  destruct (updateUBOs_run s e) as (cs1 & He1 & Hd1).
  destruct ((if valid (mMatricesUBO s) then updateUBOs s else ret tt) e) as [u1 e1].
  cbn [snd] in He1. subst e1.
  destruct (use_run shader (log cs1 e)) as (cs2 & He2 & _ & Hd2).
  destruct (Shader.use shader (log cs1 e)) as [u2 e2]. cbn [snd] in He2.
  unfold Shader.setFloat, Shader.setVec3. do 2 step_call.
  match goal with
  | |- context [Model.draw (model s) ?env] =>
      destruct (draw_run (model s) env) as (cs3 & He3 & _ & Hd3 & _);
      destruct (Model.draw (model s) env) as [u3 e3]; cbn [snd] in He3
  end.
  unfold ret. cbn [fst snd].
  rewrite !PointLoopFacts.log_log, calls_log, He2, calls_log in He3.
  eexists. split; [rewrite He3, <- !app_assoc; reflexivity|].
  split; [|reflexivity].
  intros b. rewrite Hd1, Hd2. cbn [app Trace.drawsOn Trace.isDraw].
  rewrite drawsOn_app, Hd3. cbn [Trace.drawsOn]. apply app_nil_r.
Qed.

(** [Scene::testOcclusion] with the toggle on and a culler that works. *)
Lemma testOcclusion_run s depthShader stateCache reply e :
  enableOcclusionCulling s = true ->
  OcclusionCuller.isSupported (mOcclusionCuller s) = true ->
  OcclusionCuller.mOcclusionQuery (mOcclusionCuller s) <> 0 ->
  exists sc e',
    testOcclusion s depthShader stateCache reply e
    = (fst (OcclusionCuller.verdict (mOcclusionCuller s) reply),
       mk (model s) (modelMatrix s) (pointSize s) (pointCloudMode s) (autoLOD s)
          (sphereRadius s) (enableFrustumCulling s) (enableEarlyZPrepass s)
          (enableSpatialIndexing s) (enableOcclusionCulling s)
          (snd (OcclusionCuller.verdict (mOcclusionCuller s) reply))
          (mMatricesUBO s) (mMaterialUBO s) (mLightingUBO s),
       sc, e').
Proof.
  intros Hon Hs Hq. unfold testOcclusion. rewrite Hon. cbn [negb]. unfold seq.
  destruct stateCache as [sc|].
  - destruct (testOcclusion_cached (mOcclusionCuller s) depthShader (mMatricesUBO s)
                sc reply e Hs Hq) as (cs & e' & -> & _).
    destruct (OcclusionCuller.verdict (mOcclusionCuller s) reply) as [v c'].
    eexists _, _. reflexivity.
  - destruct (testOcclusion_uncached (mOcclusionCuller s) depthShader
                (mMatricesUBO s) reply e Hs Hq) as (cs & e' & -> & _).
    destruct (OcclusionCuller.verdict (mOcclusionCuller s) reply) as [v c'].
    eexists _, _. reflexivity.
Qed.

Lemma verdict_stored c reply :
  OcclusionCuller.getLastResult (snd (OcclusionCuller.verdict c reply))
  = fst (OcclusionCuller.verdict c reply)
  /\ OcclusionCuller.isSupported (snd (OcclusionCuller.verdict c reply))
     = OcclusionCuller.isSupported c.
Proof. destruct reply; split; reflexivity. Qed.

(** [Scene::drawDepthOnly] past the frustum test. *)
Lemma drawDepthOnly_run s depthShader frameState e :
  (enableFrustumCulling s
   && negb (Frustum.intersectsTransformedAABB
              (Frustum.extractFromMatrix (fs_viewProj frameState))
              (Model.min (model s)) (Model.max (model s)) (modelMatrix s)))
  = false ->
  exists cs,
    calls (snd (drawDepthOnly s depthShader frameState e)) = calls e ++ cs
    /\ (forall b, Trace.drawsOn b cs
                  = if Model.isPointCloudModel (model s) then []
                    else flat_map drawn (Model.mMeshes (model s))).
Proof.
  intros Hfrustum. unfold drawDepthOnly. rewrite Hfrustum. unfold seq.
  destruct (updateUBOs_run s e) as (cs1 & He1 & Hd1).
  destruct ((if valid (mMatricesUBO s) then updateUBOs s else ret tt) e) as [u1 e1].
  cbn [snd] in He1. subst e1.
  destruct (use_run depthShader (log cs1 e)) as (cs2 & He2 & _ & Hd2).
  destruct (Shader.use depthShader (log cs1 e)) as [u2 e2]. cbn [snd] in He2.
  rewrite calls_log in He2.
  destruct (Model.isPointCloudModel (model s)); cbn [negb].
  - unfold ret. cbn [snd]. eexists. split; [rewrite He2, <- app_assoc; reflexivity|].
    intros b. rewrite <- (app_nil_r (cs1 ++ cs2)), <- app_assoc, Hd1, Hd2.
    reflexivity.
  - destruct (draw_run (model s) e2) as (cs3 & He3 & _ & Hd3 & _).
    rewrite He3, He2. eexists. split; [rewrite <- !app_assoc; reflexivity|].
    intros b. rewrite Hd1, Hd2, drawsOn_app, Hd3. cbn [Trace.drawsOn].
    apply app_nil_r.
Qed.

End SceneFacts.

(** X20. The main pass follows the occlusion test. For a model of meshes
    in a scene with occlusion culling on, frustum culling off and a working
    culler, [Scene::draw] after [Scene::testOcclusion] draws every uploaded
    mesh when the test reported the box visible and issues no draw call
    when it did not; the test reports what the driver replied, or the
    result before when no reply is ready. *)
Theorem draw_follows_the_occlusion_test :
  forall (s : Scene.t) (depthShader shader : Shader.t)
         (sphereImpostorShader instancedSphereShader : option Shader.t)
         (frameState : FrameState) (wireframe : bool)
         (profData : option Scene.ProfilingData)
         (stateCache : option GLStateCache.t) (reply : option N) (e : GL.Env)
         (bound : GL.GlId),
    Scene.enableFrustumCulling s = false ->
    Scene.enableOcclusionCulling s = true ->
    Model.isPointCloudModel (Scene.model s) = false ->
    OcclusionCuller.isSupported (Scene.mOcclusionCuller s) = true ->
    OcclusionCuller.mOcclusionQuery (Scene.mOcclusionCuller s) <> 0%N ->
    let r := Scene.testOcclusion s depthShader stateCache reply e in
    let visible := fst (fst (fst r)) in
    let s1 := snd (fst (fst r)) in
    visible = (match reply with
               | Some samplesPassed => (0 <? samplesPassed)%N
               | None => OcclusionCuller.getLastResult (Scene.mOcclusionCuller s)
               end)
    /\ Trace.drawsOn bound
         (GL.issued (Scene.draw s1 shader sphereImpostorShader instancedSphereShader
                                frameState wireframe profData) (snd r))
       = (if visible then flat_map DrawShape.drawn (Model.mMeshes (Scene.model s))
          else []).
Proof.
  intros s dsh sh sis iss fs wire prof cache reply e b Hfr Hon Hpc Hs Hq r visible s1.
  destruct (SceneFacts.testOcclusion_run s dsh cache reply e Hon Hs Hq)
    as (sc & e' & Hr).
  subst visible s1 r. rewrite Hr. cbn [fst snd].
  destruct (SceneFacts.verdict_stored (Scene.mOcclusionCuller s) reply)
    as [Hlast Hsup].
  split; [destruct reply; reflexivity|].
  set (s1 := Scene.mk _ _ _ _ _ _ _ _ _ _ _ _ _ _).
  destruct (fst (OcclusionCuller.verdict (Scene.mOcclusionCuller s) reply)) eqn:Hv.
  - destruct (SceneFacts.draw_meshes_run s1 sh sis iss fs wire prof e')
      as (cs & Hc & Hd & _).
    + exact Hpc.
    + subst s1. cbn [Scene.enableFrustumCulling]. now rewrite Hfr.
    + subst s1. cbn [Scene.enableOcclusionCulling Scene.mOcclusionCuller].
      now rewrite Hlast, Hsup, Hs, Hon.
    + rewrite (GLFacts.issued_exact _ _ _ Hc). apply Hd.
  - assert (Hskip : Scene.draw s1 sh sis iss fs wire prof e' = (s1, prof, e')).
    { unfold Scene.draw. subst s1.
      cbn [Scene.enableFrustumCulling Scene.enableOcclusionCulling Scene.model
           Scene.mOcclusionCuller].
      rewrite Hfr, Hon, Hpc, Hlast, Hsup, Hs. reflexivity. }
    unfold GL.issued. rewrite Hskip. cbn [snd]. now rewrite skipn_all.
Qed.

Lemma draw_follows_the_occlusion_test_witness :
  let r := Scene.testOcclusion (Examples.triangleScene true Examples.culler33)
                               Examples.depthShader None (Some 0%N)
                               Examples.culler33Env in
  let visible := fst (fst (fst r)) in
  let s1 := snd (fst (fst r)) in
  visible = (0 <? 0)%N
  /\ Trace.drawsOn 0%N
       (GL.issued (Scene.draw s1 (Shader.mk 1%N) None None Examples.frame false None)
                  (snd r))
     = (if visible
        then flat_map DrawShape.drawn
               (Model.mMeshes
                  (Scene.model (Examples.triangleScene true Examples.culler33)))
        else []).
Proof.
  apply (draw_follows_the_occlusion_test
           (Examples.triangleScene true Examples.culler33) Examples.depthShader
           (Shader.mk 1%N) None None Examples.frame false None None (Some 0%N)
           Examples.culler33Env 0%N);
    try reflexivity.
  vm_compute. discriminate.
Defined.

(** X21. [Scene::drawDepthOnly] never draws a point cloud. Of any other
    model it draws every uploaded mesh, on that mesh's vertex array, unless
    frustum culling is on and rejects the model's box; the occlusion culler
    has no say in it. *)
Theorem drawDepthOnly_draws_meshes_only :
  forall (s : Scene.t) (depthShader : Shader.t) (frameState : FrameState)
         (e : GL.Env) (bound : GL.GlId),
    Trace.drawsOn bound (GL.issued (Scene.drawDepthOnly s depthShader frameState) e)
    = (if (Scene.enableFrustumCulling s
           && negb (Frustum.intersectsTransformedAABB
                      (Frustum.extractFromMatrix (fs_viewProj frameState))
                      (Model.min (Scene.model s)) (Model.max (Scene.model s))
                      (Scene.modelMatrix s)))
          || Model.isPointCloudModel (Scene.model s)
       then []
       else flat_map DrawShape.drawn (Model.mMeshes (Scene.model s))).
Proof.
  intros s dsh fs e b.
  destruct (Scene.enableFrustumCulling s
            && negb (Frustum.intersectsTransformedAABB
                       (Frustum.extractFromMatrix (fs_viewProj fs))
                       (Model.min (Scene.model s)) (Model.max (Scene.model s))
                       (Scene.modelMatrix s))) eqn:Hfrustum; cbn [orb].
  - unfold GL.issued, Scene.drawDepthOnly. rewrite Hfrustum.
    unfold GL.ret. cbn [snd]. now rewrite skipn_all.
  - destruct (SceneFacts.drawDepthOnly_run s dsh fs e Hfrustum) as (cs & Hc & Hd).
    rewrite (GLFacts.issued_exact _ _ _ Hc). apply Hd.
Qed.

(* ================================================================== *)
(** * Facts about loading *)

Module LoadFacts.
Import Model LoadShape.
Local Open Scope N_scope.

(** [makeVertex] never writes the scalar of a vertex. *)
Lemma makeVertex_scalar mesh i : v_scalar (makeVertex mesh i) = F32.zero.
Proof.
  unfold makeVertex.
  destruct (Assimp.mVertices mesh), (Assimp.mNormals mesh),
    (Assimp.mTextureCoords0 mesh), (Assimp.mColors0 mesh); reflexivity.
Qed.

Lemma growBounds_unset b v :
  v_scalar v = F32.zero -> scalarsUnset b -> scalarsUnset (growBounds b v).
Proof.
  intros Hv [[Hmin Hmax]|[Hmin Hmax]]; right; unfold growBounds;
    cbn [bScalarMin bScalarMax]; rewrite Hv, Hmin, Hmax; split;
    vm_compute; reflexivity.
Qed.

Lemma mergeBounds_unset a b :
  scalarsUnset a -> scalarsUnset b -> scalarsUnset (mergeBounds a b).
Proof.
  intros [[Ha1 Ha2]|[Ha1 Ha2]] [[Hb1 Hb2]|[Hb1 Hb2]]; unfold mergeBounds, scalarsUnset;
    cbn [bScalarMin bScalarMax]; rewrite Ha1, Ha2, Hb1, Hb2;
    [left|right|right|right]; split; vm_compute; reflexivity.
Qed.

Lemma initialBounds_unset : scalarsUnset initialBounds.
Proof. left. split; reflexivity. Qed.

Lemma processMesh_unset aimesh : scalarsUnset (snd (processMesh aimesh)).
Proof.
  unfold processMesh. cbn [snd].
  assert (Hfold : forall l b,
             scalarsUnset b ->
             scalarsUnset
               (fold_left growBounds
                          (map (fun i => makeVertex aimesh (N.of_nat i)) l) b)).
  { induction l as [|i l IH]; intros b Hb; cbn [map fold_left]; [exact Hb|].
    apply IH. apply growBounds_unset; [apply makeVertex_scalar|exact Hb]. }
  apply Hfold, initialBounds_unset.
Qed.

Lemma aggregate_unset mergeOrder scene : scalarsUnset (aggregate mergeOrder scene).
Proof.
  unfold aggregate.
  assert (Hfold : forall l b,
             scalarsUnset b ->
             scalarsUnset
               (fold_left
                  (fun acc i =>
                     mergeBounds acc
                       (nth i (map snd (map processMesh (Assimp.mMeshes scene)))
                            initialBounds))
                  l b)).
  { induction l as [|i l IH]; intros b Hb; cbn [fold_left]; [exact Hb|].
    apply IH. apply mergeBounds_unset; [exact Hb|].
    rewrite map_map.
    destruct (nth_in_or_default i (map (fun x => snd (processMesh x))
                                       (Assimp.mMeshes scene)) initialBounds)
      as [Hin|Hd]; [|rewrite Hd; apply initialBounds_unset].
    apply in_map_iff in Hin as (aimesh & <- & _). apply processMesh_unset. }
  apply Hfold, initialBounds_unset.
Qed.

Lemma normalizeScalarRange_unset b :
  scalarsUnset b -> normalizeScalarRange b = (F32.zero, F32.one).
Proof.
  intros [[Hmin Hmax]|[Hmin Hmax]]; unfold normalizeScalarRange;
    rewrite Hmin, Hmax; vm_compute; reflexivity.
Qed.

(** The model a load leaves, whatever its outcome: the same sphere mesh,
    and either the old spatial index or a fresh tree over all points. *)
Lemma loadFromFile_inv mergeOrder scene m ok m' :
  loadFromFile mergeOrder scene m = Done (ok, m') ->
  (ok = false
   /\ (scene = None \/ exists sc, scene = Some sc /\ Assimp.mMeshes sc = [])
   /\ m' = withMeshes m [])
  \/ (exists sc smin smax,
        ok = true /\ scene = Some sc /\ Assimp.mMeshes sc <> []
        /\ (smin, smax) = normalizeScalarRange (aggregate mergeOrder sc)
        /\ mMeshes m' = map fst (map processMesh (Assimp.mMeshes sc))
        /\ mMin m' = bMin (aggregate mergeOrder sc)
        /\ mMax m' = bMax (aggregate mergeOrder sc)
        /\ mScalarMin m' = smin /\ mScalarMax m' = smax
        /\ mSphereMesh m' = mSphereMesh m
        /\ (if buildsIndex m'
            then Octree.build (collectPoints (mMeshes m') 0) (mMin m') (mMax m')
                              Config.OctreePointsPerNode Config.OctreeMaxDepth
                 = Done (mSpatialIndex m')
            else mSpatialIndex m' = mSpatialIndex m)).
Proof.
  unfold loadFromFile. destruct scene as [sc|].
  2:{ intros H. injection H as <- <-. left. repeat split. now left. }
  unfold Assimp.HasMeshes.
  destruct (Assimp.mMeshes sc) as [|aimesh rest] eqn:Hms; cbn [negb].
  { intros H. injection H as <- <-. left. repeat split. right. now exists sc. }
  rewrite <- Hms. intros H. right.
  destruct (normalizeScalarRange (aggregate mergeOrder sc)) as [smin smax] eqn:Hn.
  exists sc, smin, smax. cbn [mSpatialIndex mSphereMesh] in H.
  set (m1 := mk (map fst (map processMesh (Assimp.mMeshes sc)))
                (bMin (aggregate mergeOrder sc)) (bMax (aggregate mergeOrder sc))
                smin smax (mSpatialIndex m) (mSphereMesh m)) in *.
  assert (Hne : Octree.isEmpty (mMeshes m1) = false).
  { subst m1. cbn [mMeshes]. rewrite Hms. reflexivity. }
  rewrite Hne in H. cbn [negb] in H. rewrite andb_true_r in H.
  destruct (isPointCloudModel m1) eqn:Hpc; cbn [andb] in H;
    [destruct (Config.PointCloudMinPointsForOctree <=? totalPoints (mMeshes m1))
       eqn:Hbig;
     [destruct (Octree.build (collectPoints (mMeshes m1) 0) (mMin m1) (mMax m1)
                             Config.OctreePointsPerNode Config.OctreeMaxDepth)
        as [tree| |] eqn:Hb; cbn [bind] in H; try discriminate|]|];
    injection H as <- <-; subst m1; unfold buildsIndex, isPointCloudModel in *;
    cbn [mMeshes mMin mMax mScalarMin mScalarMax mSpatialIndex mSphereMesh] in *;
    rewrite Hpc; cbn [andb]; rewrite ?Hbig;
    (split; [reflexivity|]); (split; [reflexivity|]);
    (split; [rewrite Hms; discriminate|]);
    (split; [symmetry; exact Hn|]);
    repeat (split; [reflexivity|]); try reflexivity; exact Hb.
Qed.

End LoadFacts.

(** X22. No loader path writes the scalar of a vertex, so whatever the
    file holds and in whatever order the worker threads merge, a successful
    [loadFromFile] leaves the scalar range at 0 to 1. *)
Theorem loadFromFile_scalar_range_is_zero_to_one :
  forall (mergeOrder : list nat) (scene : option Assimp.aiScene) (m0 m : Model.t),
    Model.loadFromFile mergeOrder scene m0 = Done (true, m) ->
    Model.scalarMin m = F32.zero /\ Model.scalarMax m = F32.one.
Proof.
  intros order scene m0 m Hload.
  destruct (LoadFacts.loadFromFile_inv order scene m0 true m Hload)
    as [(Hok & _)|(sc & smin & smax & _ & _ & _ & Hn & _ & _ & _ & Hmin & Hmax & _)];
    [discriminate|].
  rewrite (LoadFacts.normalizeScalarRange_unset _ (LoadFacts.aggregate_unset order sc))
    in Hn.
  injection Hn as -> ->. split; assumption.
Qed.

Lemma loadFromFile_scalar_range_is_zero_to_one_witness :
  Model.scalarMin (Examples.load Examples.twoCloudScene) = F32.zero
  /\ Model.scalarMax (Examples.load Examples.twoCloudScene) = F32.one.
Proof.
  apply (loadFromFile_scalar_range_is_zero_to_one
           [] (Some Examples.twoCloudScene) Model.empty).
  vm_compute. reflexivity.
Defined.

(** X23. [loadFromFile] fails exactly when the importer returns no scene
    or a scene without meshes. A failed load has emptied the mesh list and
    left the bounding box, the scalar range, the spatial index and the
    sphere mesh as they were. *)
Theorem loadFromFile_failure_only_clears_the_meshes :
  forall (mergeOrder : list nat) (scene : option Assimp.aiScene) (m0 m : Model.t)
         (ok : bool),
    Model.loadFromFile mergeOrder scene m0 = Done (ok, m) ->
    (ok = false <->
     (scene = None \/ exists sc, scene = Some sc /\ Assimp.mMeshes sc = []))
    /\ (ok = false -> m = Model.withMeshes m0 []).
Proof.
  intros order scene m0 m ok Hload.
  destruct (LoadFacts.loadFromFile_inv order scene m0 ok m Hload)
    as [(Hok & Hscene & Hm)|(sc & smin & smax & Hok & Hscene & Hne & _)].
  - split; [split; auto|auto].
  - subst ok scene. split; [split|]; try discriminate.
    intros [H|(sc' & H & Hnil)]; [discriminate|].
    injection H as <-. contradiction.
Qed.

Lemma loadFromFile_failure_only_clears_the_meshes_witness :
  (false = false <->
   (@None Assimp.aiScene = None
    \/ exists sc, @None Assimp.aiScene = Some sc /\ Assimp.mMeshes sc = []))
  /\ (false = false
      -> Model.withMeshes Examples.triangleModel []
         = Model.withMeshes Examples.triangleModel []).
Proof.
  apply (loadFromFile_failure_only_clears_the_meshes [] None Examples.triangleModel
           (Model.withMeshes Examples.triangleModel []) false).
  reflexivity.
Defined.

(** X24. [loadFromFile] never clears the spatial index. When the meshes
    it made are a point cloud of at least 100000 points it replaces the
    index by an octree over all of them, whose leaves hold every point
    index exactly once; in every other case the index of the model loaded
    before stays in place. *)
Theorem loadFromFile_keeps_or_rebuilds_the_spatial_index :
  forall (mergeOrder : list nat) (scene : option Assimp.aiScene) (m0 m : Model.t),
    Model.loadFromFile mergeOrder scene m0 = Done (true, m) ->
    if LoadShape.buildsIndex m
    then exists root,
           Octree.mRoot (Model.spatialIndex m) = Some root
           /\ Permutation (OctreeShape.leafIndices root)
                (OctreeShape.indexSet (Model.collectPoints (Model.mMeshes m) 0%N))
           /\ Octree.min root = Model.min m /\ Octree.max root = Model.max m
    else Model.spatialIndex m = Model.spatialIndex m0.
Proof.
  intros order scene m0 m Hload.
  destruct (LoadFacts.loadFromFile_inv order scene m0 true m Hload)
    as [(Hok & _)|(sc & smin & smax & _ & _ & _ & _ & _ & _ & _ & _ & _ & _ & Hidx)];
    [discriminate|].
  destruct (LoadShape.buildsIndex m); [|exact Hidx].
  set (points := Model.collectPoints (Model.mMeshes m) 0%N) in *.
  assert (Hn : (N.of_nat (List.length points) < UINT_WRAP)%N).
  { unfold Octree.build in Hidx.
    destruct (UINT_WRAP <=? N.of_nat (List.length points))%N eqn:Hbig;
      [discriminate|]. now apply N.leb_gt. }
  destruct (OctreeFacts.build_built points (Model.mMin m) (Model.mMax m)
              Config.OctreePointsPerNode Config.OctreeMaxDepth Hn)
    as (root & count & depth & Hb & _ & Hmin & Hmax & Hperm & _).
  { unfold Config.OctreeMaxDepth, UINT_WRAP. lia. }
  rewrite Hb in Hidx. injection Hidx as Hidx. exists root.
  unfold Model.spatialIndex, Model.min, Model.max. rewrite <- Hidx.
  cbn [Octree.mRoot]. repeat split; assumption.
Qed.

Lemma loadFromFile_keeps_or_rebuilds_the_spatial_index_witness :
  if LoadShape.buildsIndex (Examples.load Examples.twoCloudScene)
  then exists root,
         Octree.mRoot (Model.spatialIndex (Examples.load Examples.twoCloudScene))
         = Some root
         /\ Permutation (OctreeShape.leafIndices root)
              (OctreeShape.indexSet
                 (Model.collectPoints
                    (Model.mMeshes (Examples.load Examples.twoCloudScene)) 0%N))
         /\ Octree.min root = Model.min (Examples.load Examples.twoCloudScene)
         /\ Octree.max root = Model.max (Examples.load Examples.twoCloudScene)
  else Model.spatialIndex (Examples.load Examples.twoCloudScene)
       = Model.spatialIndex Model.empty.
Proof.
  apply (loadFromFile_keeps_or_rebuilds_the_spatial_index
           [] (Some Examples.twoCloudScene) Model.empty).
  vm_compute. reflexivity.
Defined.

(** X25. A successful [loadFromFile] leaves one mesh per mesh of the file,
    none of them uploaded, so the [uploadToGPU] that follows fills exactly
    one vertex buffer per mesh of the file, in file order, and an index
    buffer for each mesh that has faces and indices. *)
Theorem load_then_upload_uploads_every_mesh :
  forall (mergeOrder : list nat) (scene : Assimp.aiScene) (m0 m : Model.t)
         (dropCpu : bool) (e : GL.Env),
    Model.loadFromFile mergeOrder (Some scene) m0 = Done (true, m) ->
    List.length (Model.mMeshes m) = List.length (Assimp.mMeshes scene)
    /\ map Model.isPointCloud (Model.mMeshes m)
       = map (fun aimesh => (Assimp.mNumFaces aimesh =? 0)%N) (Assimp.mMeshes scene)
    /\ Trace.vertexUploads (GL.issued (Model.uploadToGPU dropCpu m) e)
       = map UploadShape.vertexPayload (Model.mMeshes m)
    /\ Trace.indexUploads (GL.issued (Model.uploadToGPU dropCpu m) e)
       = flat_map UploadShape.indexPayload (Model.mMeshes m).
Proof.
  intros order scene m0 m d e Hload.
  destruct (LoadFacts.loadFromFile_inv order (Some scene) m0 true m Hload)
    as [(Hok & _)|(sc & smin & smax & _ & Hsc & _ & _ & Hms & _)];
    [discriminate|].
  injection Hsc as <-.
  assert (Hvao : Forall (fun mesh => Model.vao mesh = 0%N) (Model.mMeshes m)).
  { rewrite Hms, map_map. apply Forall_forall. intros mesh Hin.
    apply in_map_iff in Hin as (aimesh & <- & _). reflexivity. }
  destruct (UploadFacts.uploadToGPU_run d m e Hvao) as (_ & _ & Hv & Hi & _).
  rewrite Hms at 1 2. rewrite !map_map, length_map.
  split; [reflexivity|]. split; [reflexivity|]. split; assumption.
Qed.

Lemma load_then_upload_uploads_every_mesh_witness :
  List.length (Model.mMeshes (Examples.load Examples.twoCloudScene))
  = List.length (Assimp.mMeshes Examples.twoCloudScene)
  /\ map Model.isPointCloud (Model.mMeshes (Examples.load Examples.twoCloudScene))
     = map (fun aimesh => (Assimp.mNumFaces aimesh =? 0)%N)
           (Assimp.mMeshes Examples.twoCloudScene)
  /\ Trace.vertexUploads
       (GL.issued (Model.uploadToGPU true (Examples.load Examples.twoCloudScene))
                  GL.initial)
     = map UploadShape.vertexPayload
           (Model.mMeshes (Examples.load Examples.twoCloudScene))
  /\ Trace.indexUploads
       (GL.issued (Model.uploadToGPU true (Examples.load Examples.twoCloudScene))
                  GL.initial)
     = flat_map UploadShape.indexPayload
                (Model.mMeshes (Examples.load Examples.twoCloudScene)).
Proof.
  apply (load_then_upload_uploads_every_mesh [] Examples.twoCloudScene Model.empty
           (Examples.load Examples.twoCloudScene) true GL.initial).
  vm_compute. reflexivity.
Defined.

(* ================================================================== *)
(** * Facts about the camera presets *)

Module PresetFacts.
Import View.

Lemma assign_length slot p ps : List.length (assign slot p ps) = List.length ps.
Proof.
  revert slot; induction ps as [|q rest IH]; intros [|k]; cbn [assign List.length];
    auto.
Qed.

Lemma assign_same slot p ps :
  (slot < List.length ps)%nat -> nth_error (assign slot p ps) slot = Some p.
Proof.
  revert slot; induction ps as [|q rest IH]; intros [|k] Hk;
    cbn [assign List.length nth_error] in *; try lia; [reflexivity|].
  apply IH. lia.
Qed.

Lemma assign_other slot p ps j :
  j <> slot -> nth_error (assign slot p ps) j = nth_error ps j.
Proof.
  revert slot j; induction ps as [|q rest IH]; intros [|k] [|j] Hj;
    cbn [assign nth_error]; try reflexivity; try congruence.
  apply IH. congruence.
Qed.

Lemma resize_length n ps :
  (List.length ps <= n)%nat -> List.length (resize n ps) = n.
Proof. intros H. unfold resize. rewrite length_app, repeat_length. lia. Qed.

Lemma resize_old n ps j :
  (j < List.length ps)%nat -> nth_error (resize n ps) j = nth_error ps j.
Proof. intros H. unfold resize. now rewrite nth_error_app1. Qed.

Lemma resize_new n ps j :
  (List.length ps <= j < n)%nat ->
  nth_error (resize n ps) j = Some CameraPreset.zeroed.
Proof.
  intros H. unfold resize. rewrite nth_error_app2 by lia.
  apply nth_error_repeat. lia.
Qed.

(** The vector of presets after [savePreset] on a slot in range. *)
Lemma savePreset_presets slot v :
  (0 <= slot < MAX_PRESETS)%Z ->
  presets (savePreset slot v)
  = assign (Z.to_nat slot)
           (CameraPreset.mk (Camera3D.mEye (camera v)) (Camera3D.mTarget (camera v))
                            (Camera3D.mUp (camera v)) (yaw v) (pitch v))
           (if (List.length (presets v) <=? Z.to_nat slot)%nat
            then resize (Z.to_nat slot + 1) (presets v) else presets v)
  /\ camera (savePreset slot v) = camera v
  /\ yaw (savePreset slot v) = yaw v /\ pitch (savePreset slot v) = pitch v.
Proof.
  intros [Hlo Hhi]. unfold savePreset.
  apply Z.ltb_ge in Hlo. rewrite Hlo.
  assert (Hge : (slot >=? MAX_PRESETS)%Z = false)
    by (rewrite Z.geb_leb; apply Z.leb_gt; exact Hhi).
  rewrite Hge. cbn [orb presets camera yaw pitch]. repeat split.
Qed.

Lemma savePreset_length slot v :
  (0 <= slot < MAX_PRESETS)%Z ->
  List.length (presets (savePreset slot v))
  = Nat.max (List.length (presets v)) (Z.to_nat slot + 1).
Proof.
  intros Hslot. destruct (savePreset_presets slot v Hslot) as (-> & _).
  rewrite assign_length.
  destruct (Nat.leb_spec (List.length (presets v)) (Z.to_nat slot)) as [H|H].
  - rewrite resize_length; lia.
  - lia.
Qed.

Lemma savePreset_slot slot v :
  (0 <= slot < MAX_PRESETS)%Z ->
  nth_error (presets (savePreset slot v)) (Z.to_nat slot)
  = Some (CameraPreset.mk (Camera3D.mEye (camera v)) (Camera3D.mTarget (camera v))
                          (Camera3D.mUp (camera v)) (yaw v) (pitch v)).
Proof.
  intros Hslot. destruct (savePreset_presets slot v Hslot) as (-> & _).
  apply assign_same.
  destruct (Nat.leb_spec (List.length (presets v)) (Z.to_nat slot)) as [H|H].
  - rewrite resize_length; lia.
  - lia.
Qed.

Lemma restorePreset_at slot v p :
  (0 <= slot)%Z ->
  nth_error (presets v) (Z.to_nat slot) = Some p ->
  restorePreset slot v
  = mk (Camera3D.setLookAt (CameraPreset.eye p) (CameraPreset.target p)
                           (CameraPreset.up p) (camera v))
       (CameraPreset.yaw p) (CameraPreset.pitch p) (presets v).
Proof.
  intros Hlo Hp. unfold restorePreset.
  apply Z.ltb_ge in Hlo. rewrite Hlo.
  assert (Hlt : (Z.to_nat slot < List.length (presets v))%nat)
    by (apply nth_error_Some; congruence).
  apply Nat.leb_gt in Hlt. rewrite Hlt, Hp. reflexivity.
Qed.

End PresetFacts.

(** X26. Saving a camera preset and restoring it brings the camera back:
    after [savePreset] on a slot from 0 to 9, however the camera and the
    angles are changed while the presets are left alone, [restorePreset] on
    that slot sets eye, target, up, yaw and pitch to the saved values and
    leaves the projection settings and the presets as they are. *)
Theorem restorePreset_after_savePreset :
  forall (slot : Z) (v v' : View.t),
    (0 <= slot < View.MAX_PRESETS)%Z ->
    View.presets v' = View.presets (View.savePreset slot v) ->
    let r := View.restorePreset slot v' in
    Camera3D.eye (View.camera r) = Camera3D.eye (View.camera v)
    /\ Camera3D.target (View.camera r) = Camera3D.target (View.camera v)
    /\ Camera3D.up (View.camera r) = Camera3D.up (View.camera v)
    /\ View.yaw r = View.yaw v /\ View.pitch r = View.pitch v
    /\ Camera3D.mFovYDeg (View.camera r) = Camera3D.mFovYDeg (View.camera v')
    /\ Camera3D.mAspect (View.camera r) = Camera3D.mAspect (View.camera v')
    /\ Camera3D.mNearZ (View.camera r) = Camera3D.mNearZ (View.camera v')
    /\ Camera3D.mFarZ (View.camera r) = Camera3D.mFarZ (View.camera v')
    /\ View.presets r = View.presets v'.
Proof.
  intros slot v v' Hslot Hpresets r. subst r.
  pose proof (PresetFacts.savePreset_slot slot v Hslot) as Hp.
  rewrite <- Hpresets in Hp.
  rewrite (PresetFacts.restorePreset_at slot v' _ (proj1 Hslot) Hp).
  repeat split.
Qed.

Lemma restorePreset_after_savePreset_witness :
  let r := View.restorePreset 3 (View.savePreset 3 Examples.view0) in
  Camera3D.eye (View.camera r) = Camera3D.eye (View.camera Examples.view0)
  /\ Camera3D.target (View.camera r) = Camera3D.target (View.camera Examples.view0)
  /\ Camera3D.up (View.camera r) = Camera3D.up (View.camera Examples.view0)
  /\ View.yaw r = View.yaw Examples.view0
  /\ View.pitch r = View.pitch Examples.view0
  /\ Camera3D.mFovYDeg (View.camera r)
     = Camera3D.mFovYDeg (View.camera (View.savePreset 3 Examples.view0))
  /\ Camera3D.mAspect (View.camera r)
     = Camera3D.mAspect (View.camera (View.savePreset 3 Examples.view0))
  /\ Camera3D.mNearZ (View.camera r)
     = Camera3D.mNearZ (View.camera (View.savePreset 3 Examples.view0))
  /\ Camera3D.mFarZ (View.camera r)
     = Camera3D.mFarZ (View.camera (View.savePreset 3 Examples.view0))
  /\ View.presets r = View.presets (View.savePreset 3 Examples.view0).
Proof.
  apply (restorePreset_after_savePreset 3 Examples.view0
           (View.savePreset 3 Examples.view0)).
  - unfold View.MAX_PRESETS. lia.
  - reflexivity.
Defined.

(** X27. [savePreset] keeps at most ten presets whatever slot it is given,
    does nothing for a slot below 0 or above 9, and leaves every other slot
    as it was; slots it has to add on the way are zeroed, so
    [restorePreset] on such a slot puts eye, target and up at the origin.
    [restorePreset] does nothing for a slot that was never reached. *)
Theorem savePreset_stays_within_ten_slots :
  forall (slot : Z) (v : View.t),
    (List.length (View.presets v) <= 10)%nat ->
    (List.length (View.presets (View.savePreset slot v)) <= 10)%nat
    /\ ((slot < 0 \/ 10 <= slot)%Z -> View.savePreset slot v = v)
    /\ (forall j, j <> Z.to_nat slot -> (j < List.length (View.presets v))%nat ->
                  nth_error (View.presets (View.savePreset slot v)) j
                  = nth_error (View.presets v) j)
    /\ (forall j, (0 <= slot < 10)%Z ->
                  (List.length (View.presets v) <= j < Z.to_nat slot)%nat ->
                  View.restorePreset (Z.of_nat j) (View.savePreset slot v)
                  = View.mk (Camera3D.setLookAt (glm.splat3 F32.zero)
                               (glm.splat3 F32.zero) (glm.splat3 F32.zero)
                               (View.camera v))
                            F32.zero F32.zero
                            (View.presets (View.savePreset slot v)))
    /\ (forall k, (k < 0 \/ Z.of_nat (List.length (View.presets v)) <= k)%Z ->
                  View.restorePreset k v = v).
Proof.
  intros slot v Hlen.
  assert (Hcases : (slot < 0 \/ 10 <= slot)%Z \/ (0 <= slot < View.MAX_PRESETS)%Z)
    by (unfold View.MAX_PRESETS; lia).
  assert (Hout : (slot < 0 \/ 10 <= slot)%Z -> View.savePreset slot v = v).
  { intros H. unfold View.savePreset, View.MAX_PRESETS.
    destruct H as [H|H].
    - apply Z.ltb_lt in H. now rewrite H.
    - assert (Hge : (slot >=? 10)%Z = true) by (rewrite Z.geb_leb; now apply Z.leb_le).
      rewrite Hge, orb_true_r. reflexivity. }
  split; [|split; [exact Hout|split; [|split]]].
  - destruct Hcases as [H|H]; [now rewrite (Hout H)|].
    rewrite (PresetFacts.savePreset_length slot v H).
    unfold View.MAX_PRESETS in H. lia.
  - intros j Hj Hjlen. destruct Hcases as [H|H]; [now rewrite (Hout H)|].
    destruct (PresetFacts.savePreset_presets slot v H) as (-> & _).
    rewrite PresetFacts.assign_other by exact Hj.
    destruct (List.length (View.presets v) <=? Z.to_nat slot)%nat;
      [now apply PresetFacts.resize_old|reflexivity].
  - intros j Hslot Hj.
    assert (H : (0 <= slot < View.MAX_PRESETS)%Z) by exact Hslot.
    assert (Hzero : nth_error (View.presets (View.savePreset slot v)) j
                    = Some CameraPreset.zeroed).
    { destruct (PresetFacts.savePreset_presets slot v H) as (-> & _).
      rewrite PresetFacts.assign_other by lia.
      assert (Hle : (List.length (View.presets v) <=? Z.to_nat slot)%nat = true)
        by (apply Nat.leb_le; lia).
      rewrite Hle. apply PresetFacts.resize_new. lia. }
    rewrite <- (Nat2Z.id j) in Hzero.
    rewrite (PresetFacts.restorePreset_at _ _ _ (Nat2Z.is_nonneg j) Hzero).
    destruct (PresetFacts.savePreset_presets slot v H) as (_ & -> & _).
    reflexivity.
  - intros k Hk. unfold View.restorePreset. destruct Hk as [Hk|Hk].
    + apply Z.ltb_lt in Hk. now rewrite Hk.
    + destruct (k <? 0)%Z; [reflexivity|]. cbn [orb].
      assert (Hle : (List.length (View.presets v) <=? Z.to_nat k)%nat = true)
        by (apply Nat.leb_le; lia).
      now rewrite Hle.
Qed.

Lemma savePreset_stays_within_ten_slots_witness :
  (List.length (View.presets (View.savePreset 5 Examples.view0)) <= 10)%nat.
Proof.
  apply (proj1 (savePreset_stays_within_ten_slots 5 Examples.view0
                  (Nat.le_0_l 10))).
Defined.

(* ================================================================== *)
(** * Facts about the half-float conversion *)

Module HalfFacts.
Local Open Scope N_scope.

(** Bits that do not overlap add up. *)
Lemma lor_shiftl_low a b k : b < 2 ^ k -> N.lor (N.shiftl a k) b = N.shiftl a k + b.
Proof.
  intros Hb.
  assert (Hland : N.land (N.shiftl a k) b = 0).
  2:{ now rewrite <- (N.lxor_lor _ _ Hland), (N.add_nocarry_lxor _ _ Hland). }
  apply N.bits_inj_0. intros n.
  rewrite N.land_spec. destruct (N.lt_ge_cases n k) as [Hn|Hn].
  - now rewrite N.shiftl_spec_low.
  - destruct (N.eq_dec b 0) as [->|Hb0]; [now rewrite N.bits_0, andb_false_r|].
    rewrite (N.bits_above_log2 b n), andb_false_r; [reflexivity|].
    apply N.lt_le_trans with k; [|exact Hn].
    apply N.log2_lt_pow2; [lia|exact Hb].
Qed.

(** The three fields of the bit pattern of a normal binary32 number. *)
Lemma fields (sb : bool) (E M : N) :
  1 <= E <= 254 -> 8388608 <= M < 16777216 ->
  let bits := F32.sign_bit sb + N.shiftl E 23 + (M - 8388608) in
  N.shiftr bits 31 = N.b2n sb
  /\ N.land (N.shiftr bits 23) 255 = E
  /\ N.land (N.shiftr bits 13) 1023 = (M - 8388608) / 8192.
Proof.
  intros HE HM bits. subst bits.
  change 255 with (N.ones 8). change 1023 with (N.ones 10).
  rewrite !N.land_ones, !N.shiftr_div_pow2, N.shiftl_mul_pow2.
  change (2 ^ 31) with 2147483648. change (2 ^ 23) with 8388608.
  change (2 ^ 13) with 8192. change (2 ^ 8) with 256. change (2 ^ 10) with 1024.
  unfold F32.sign_bit.
  destruct sb; cbn [N.b2n]; repeat split; zify;
    Z.to_euclidean_division_equations; lia.
Qed.


Transparent F32.bits.

(** [floatToHalf] on a normal binary32 number [m * 2^e], with the sign in
    bit 15, the rebiased exponent [e + 38] in bits 10 to 14 and the top ten
    bits of the fraction below. *)
Lemma floatToHalf_normal (s : bool) (m : positive) (e : Z) :
  8388608 <= Npos m < 16777216 -> (-149 <= e <= 104)%Z ->
  Half.floatToHalf (S754_finite s m e)
  = (if (e + 38 >? 31)%Z then N.b2n s * 32768 + 31744
     else if (e + 38 <? 0)%Z then N.b2n s * 32768
     else N.b2n s * 32768 + Z.to_N (e + 38) * 1024 + (Npos m - 8388608) / 8192).
Proof.
  intros Hm He. unfold Half.floatToHalf, F32.bits.
  assert (Hnorm : (8388608 <=? N.pos m) = true) by (apply N.leb_le; lia).
  rewrite Hnorm.
  destruct (fields s (Z.to_N (e + 150)) (N.pos m)) as (Hsign & Hexp & Hmant);
    [lia|exact Hm|].
  cbv zeta in Hsign, Hexp, Hmant. rewrite Hsign, Hexp, Hmant.
  assert (H255 : (Z.to_N (e + 150) =? 255) = false) by (apply N.eqb_neq; lia).
  assert (H0 : (Z.to_N (e + 150) =? 0) = false) by (apply N.eqb_neq; lia).
  rewrite H255, H0.
  replace (Z.of_N (Z.to_N (e + 150)) - 127 + 15)%Z with (e + 38)%Z by lia.
  assert (Hsb : N.land (N.shiftl (N.b2n s) 15) 32768 = N.b2n s * 32768)
    by (destruct s; reflexivity).
  rewrite Hsb.
  assert (Hfrac : (N.pos m - 8388608) / 8192 < 1024).
  { zify. Z.to_euclidean_division_equations. lia. }
  destruct (e + 38 >? 31)%Z eqn:Hhi.
  { destruct s; reflexivity. }
  destruct (e + 38 <? 0)%Z eqn:Hlo.
  { destruct s; reflexivity. }
  apply Z.ltb_ge in Hlo. rewrite Z.gtb_ltb in Hhi. apply Z.ltb_ge in Hhi.
  change 32768 with (2 ^ 15). rewrite <- !N.shiftl_mul_pow2.
  assert (Hx : N.shiftl (Z.to_N (e + 38)) 10 < 2 ^ 15).
  { rewrite N.shiftl_mul_pow2. change (2 ^ 10) with 1024.
    change (2 ^ 15) with 32768. lia. }
  rewrite (lor_shiftl_low (N.b2n s) _ 15 Hx).
  assert (Hsplit : N.shiftl (N.b2n s) 15 + N.shiftl (Z.to_N (e + 38)) 10
                   = N.shiftl (N.b2n s * 32 + Z.to_N (e + 38)) 10).
  { rewrite !N.shiftl_mul_pow2. change (2 ^ 15) with 32768.
    change (2 ^ 10) with 1024. lia. }
  rewrite Hsplit, (lor_shiftl_low _ _ 10 Hfrac), <- Hsplit.
  rewrite !N.shiftl_mul_pow2. change (2 ^ 15) with 32768.
  change (2 ^ 10) with 1024.
  unfold to_uint16. apply N.mod_small. destruct s; cbn [N.b2n]; lia.
Qed.

Opaque F32.bits.

(** The decoder of the test on a half with the given three fields. *)
Lemma reconstruct_fields (s : bool) (x frac : N) :
  x <= 31 -> frac < 1024 ->
  TestUtils.reconstruct (N.b2n s * 32768 + x * 1024 + frac)
  = (if x =? 0 then S754_zero s
     else if x =? 31 then (if frac =? 0 then S754_infinity s else S754_nan)
     else match 8388608 + frac * 8192 with
          | Npos m => S754_finite s m (Z.of_N x - 15 + 127 - 150)
          | N0 => S754_zero s
          end).
Proof.
  intros Hx Hfrac.
  set (half := N.b2n s * 32768 + x * 1024 + frac).
  assert (Hs : N.land (N.shiftr half 15) 1 = N.b2n s).
  { change 1 with (N.ones 1). rewrite N.land_ones, N.shiftr_div_pow2.
    change (2 ^ 15) with 32768. change (2 ^ 1) with 2. subst half.
    destruct s; cbn [N.b2n]; zify; Z.to_euclidean_division_equations; lia. }
  assert (He : N.land (N.shiftr half 10) 31 = x).
  { change 31 with (N.ones 5). rewrite N.land_ones, N.shiftr_div_pow2.
    change (2 ^ 10) with 1024. change (2 ^ 5) with 32. subst half.
    destruct s; cbn [N.b2n]; zify; Z.to_euclidean_division_equations; lia. }
  assert (Hf : N.land half 1023 = frac).
  { change 1023 with (N.ones 10). rewrite N.land_ones.
    change (2 ^ 10) with 1024. subst half.
    destruct s; cbn [N.b2n]; zify; Z.to_euclidean_division_equations; lia. }
  unfold TestUtils.reconstruct. cbv zeta. rewrite Hs, He, Hf.
  rewrite N.shiftl_mul_pow2. change (2 ^ 13) with 8192.
  assert (Hneg : (N.b2n s =? 1) = s) by (destruct s; reflexivity).
  rewrite Hneg. reflexivity.
Qed.

End HalfFacts.

(** X28. Converting a binary32 number to half precision and decoding it as
    the round-trip test does keeps sign and exponent and cuts the fraction
    to its top ten bits: for every normal number of magnitude from 2^-14 up
    to, but not including, 65536, the result is the number with the low 13
    bits of its 24-bit significand cleared, so the magnitude never grows
    and shrinks by less than one part in 1024. *)
Theorem floatToHalf_round_trip_truncates :
  forall (s : bool) (m : positive) (e : Z),
    (8388608 <= Npos m < 16777216)%N ->
    (-37 <= e <= -8)%Z ->
    exists m' : positive,
      TestUtils.reconstruct (Half.floatToHalf (S754_finite s m e))
      = S754_finite s m' e
      /\ Npos m' = (8192 * (Npos m / 8192))%N
      /\ (Npos m' <= Npos m < Npos m' + 8192)%N.
Proof.
  intros s m e Hm He.
  rewrite (HalfFacts.floatToHalf_normal s m e Hm) by lia.
  assert (Hhi : (e + 38 >? 31)%Z = false) by (rewrite Z.gtb_ltb; apply Z.ltb_ge; lia).
  assert (Hlo : (e + 38 <? 0)%Z = false) by (apply Z.ltb_ge; lia).
  rewrite Hhi, Hlo.
  assert (Hfrac : ((Npos m - 8388608) / 8192 < 1024)%N).
  { zify. Z.to_euclidean_division_equations. lia. }
  rewrite HalfFacts.reconstruct_fields by (try exact Hfrac; lia).
  assert (H0 : (Z.to_N (e + 38) =? 0)%N = false) by (apply N.eqb_neq; lia).
  assert (H31 : (Z.to_N (e + 38) =? 31)%N = false) by (apply N.eqb_neq; lia).
  rewrite H0, H31.
  assert (Hsig : (8388608 + (Npos m - 8388608) / 8192 * 8192
                  = 8192 * (Npos m / 8192))%N).
  { zify. Z.to_euclidean_division_equations. lia. }
  rewrite Hsig.
  destruct (8192 * (Npos m / 8192))%N as [|m'] eqn:Hm'.
  { exfalso. zify. Z.to_euclidean_division_equations. lia. }
  exists m'. split; [f_equal; lia|]. split; [reflexivity|].
  rewrite <- Hm'. zify. Z.to_euclidean_division_equations. lia.
Qed.

Lemma floatToHalf_round_trip_truncates_witness :
  exists m' : positive,
    TestUtils.reconstruct (Half.floatToHalf (S754_finite false 12582913 (-23)))
    = S754_finite false m' (-23)
    /\ Npos m' = (8192 * (12582913 / 8192))%N
    /\ (Npos m' <= 12582913 < Npos m' + 8192)%N.
Proof.
  apply (floatToHalf_round_trip_truncates false 12582913 (-23)); lia.
Defined.

(** X29. Outside that range [floatToHalf] does not saturate cleanly. A
    finite number of magnitude from 65536 up to 131072 gets the exponent
    field 31, which is reserved: it decodes as infinity when the top ten
    fraction bits are zero and as NaN otherwise. From 131072 on the result
    is infinity, and below 2^-14 every normal number is flushed to a
    zero of its sign. *)
Theorem floatToHalf_outside_the_normal_range :
  forall (s : bool) (m : positive) (e : Z),
    (8388608 <= Npos m < 16777216)%N ->
    (-149 <= e <= 104)%Z ->
    (e < -37 \/ -8 < e)%Z ->
    TestUtils.reconstruct (Half.floatToHalf (S754_finite s m e))
    = (if (e <? -37)%Z then S754_zero s
       else if (-7 <? e)%Z then S754_infinity s
       else if ((Npos m - 8388608) / 8192 =? 0)%N then S754_infinity s
       else S754_nan).
Proof.
  intros s m e Hm He Hout.
  rewrite (HalfFacts.floatToHalf_normal s m e Hm He).
  assert (Hfrac : ((Npos m - 8388608) / 8192 < 1024)%N).
  { zify. Z.to_euclidean_division_equations. lia. }
  destruct (Z.ltb_spec e (-37)) as [Hsmall|Hnot].
  - assert (Hhi : (e + 38 >? 31)%Z = false)
      by (rewrite Z.gtb_ltb; apply Z.ltb_ge; lia).
    rewrite Hhi.
    destruct (Z.ltb_spec (e + 38) 0) as [Hneg|Hzero].
    + replace (N.b2n s * 32768)%N with (N.b2n s * 32768 + 0 * 1024 + 0)%N by lia.
      now rewrite HalfFacts.reconstruct_fields by lia.
    + assert (Hx : Z.to_N (e + 38) = 0%N) by lia. rewrite Hx.
      now rewrite HalfFacts.reconstruct_fields by (try exact Hfrac; lia).
  - destruct (Z.ltb_spec (-7) e) as [Hbig|Hedge].
    + assert (Hhi : (e + 38 >? 31)%Z = true)
        by (rewrite Z.gtb_ltb; apply Z.ltb_lt; lia).
      rewrite Hhi.
      replace (N.b2n s * 32768 + 31744)%N
        with (N.b2n s * 32768 + 31 * 1024 + 0)%N by lia.
      now rewrite HalfFacts.reconstruct_fields by lia.
    + assert (Hhi : (e + 38 >? 31)%Z = false)
        by (rewrite Z.gtb_ltb; apply Z.ltb_ge; lia).
      assert (Hlo : (e + 38 <? 0)%Z = false) by (apply Z.ltb_ge; lia).
      assert (Hx : Z.to_N (e + 38) = 31%N) by lia.
      rewrite Hhi, Hlo, Hx.
      now rewrite HalfFacts.reconstruct_fields by (try exact Hfrac; lia).
Qed.

Lemma floatToHalf_outside_the_normal_range_witness :
  TestUtils.reconstruct (Half.floatToHalf (S754_finite false 12582912 (-7)))
  = (if (-7 <? -37)%Z then S754_zero false
     else if (-7 <? -7)%Z then S754_infinity false
     else if ((12582912 - 8388608) / 8192 =? 0)%N then S754_infinity false
     else S754_nan).
Proof.
  apply (floatToHalf_outside_the_normal_range false 12582912 (-7)); lia.
Defined.

(* ================================================================== *)
(** * The frustum test on degenerate input *)

Module DegenerateFacts.
Import glm Frustum FrustumShape.

Transparent F32.add F32.mul F32.ltb.

Lemma mul_nan (x : float) : F32.mul x S754_nan = S754_nan.
Proof. destruct x; reflexivity. Qed.

Lemma add_nan_l (x : float) : F32.add S754_nan x = S754_nan.
Proof. destruct x; reflexivity. Qed.

Lemma add_nan_r (x : float) : F32.add x S754_nan = S754_nan.
Proof. destruct x; reflexivity. Qed.

Lemma ltb_nan (x : float) : F32.ltb S754_nan x = false.
Proof. destruct x; reflexivity. Qed.

(** A sum of products with zero is a zero or NaN, never negative. *)
Lemma mul_zero (x : float) : zeroOrNaN (F32.mul F32.zero x).
Proof. destruct x; cbn; constructor. Qed.

Lemma add_zeroOrNaN (a b : float) :
  zeroOrNaN a -> zeroOrNaN b -> zeroOrNaN (F32.add a b).
Proof.
  intros [sa|] [sb|]; try (cbn; constructor).
  destruct sa, sb; cbn; constructor.
Qed.

Lemma ltb_zeroOrNaN (a : float) : zeroOrNaN a -> F32.ltb a F32.zero = false.
Proof. intros [s|]; [destruct s|]; reflexivity. Qed.

Opaque F32.add F32.mul F32.ltb.

Lemma culledBy_nan plane : culledBy nan3 nan3 plane = false.
Proof.
  unfold culledBy, signedDistance, positiveVertex, dot, mul3, nan3, splat3, xyz.
  cbn [v3x v3y v3z].
  destruct (F32.gtb (v4x plane) F32.zero), (F32.gtb (v4y plane) F32.zero),
    (F32.gtb (v4z plane) F32.zero);
    now rewrite !mul_nan, !add_nan_l, ltb_nan.
Qed.

Lemma culledBy_zero_plane mn mx : culledBy mn mx zero4 = false.
Proof.
  unfold culledBy, signedDistance, positiveVertex, dot, mul3, xyz, zero4.
  cbn [v4x v4y v4z v4w v3x v3y v3z].
  apply ltb_zeroOrNaN.
  repeat apply add_zeroOrNaN;
    first [apply mul_zero | constructor
          | destruct (F32.gtb F32.zero F32.zero); apply mul_zero].
Qed.


Lemma loop_accepts planes mn mx :
  Forall (fun plane => culledBy mn mx plane = false) planes ->
  intersectsAABB_loop planes mn mx = true.
Proof.
  induction 1 as [|plane rest Hp _ IH]; cbn [intersectsAABB_loop];
    [reflexivity|now rewrite Hp].
Qed.

Transparent Frustum.intersectsAABB.

Lemma intersectsAABB_nan f : intersectsAABB f nan3 nan3 = true.
Proof.
  unfold intersectsAABB. apply loop_accepts, Forall_forall.
  intros plane _. apply culledBy_nan.
Qed.

Lemma zeroMatrix_planes :
  mPlanes (extractFromMatrix zeroMatrix) = repeat zero4 6.
Proof. vm_compute. reflexivity. Qed.

Lemma intersectsAABB_zeroMatrix mn mx :
  intersectsAABB (extractFromMatrix zeroMatrix) mn mx = true.
Proof.
  unfold intersectsAABB. rewrite zeroMatrix_planes.
  apply loop_accepts. repeat constructor; apply culledBy_zero_plane.
Qed.

Opaque Frustum.intersectsAABB.

End DegenerateFacts.

(** X30. The frustum test fails open on degenerate input. A box whose
    bounds are NaN is accepted by every frustum, and the frustum extracted
    from the all-zero matrix accepts every box, whatever its bounds, so
    [nodeIntersectsFrustum] holds for every node under that matrix. *)
Theorem intersectsAABB_accepts_degenerate_input :
  (forall f : Frustum.t,
      Frustum.intersectsAABB f FrustumShape.nan3 FrustumShape.nan3 = true)
  /\ (forall mn mx : vec3,
         Frustum.intersectsAABB (Frustum.extractFromMatrix FrustumShape.zeroMatrix)
                                mn mx = true)
  /\ (forall node : Octree.Node,
         Octree.nodeIntersectsFrustum node FrustumShape.zeroMatrix = true).
Proof.
  split; [exact DegenerateFacts.intersectsAABB_nan|].
  split; [exact DegenerateFacts.intersectsAABB_zeroMatrix|].
  intros node. unfold Octree.nodeIntersectsFrustum.
  apply DegenerateFacts.intersectsAABB_zeroMatrix.
Qed.

(* ================================================================== *)
(** * Facts about the instanced spheres and the point-cloud pass *)

Module InstancedFacts.
Import GL Model DrawShape TraceFacts DrawLoopFacts CullerFacts.
Local Open Scope N_scope.

(** One round of the loop of [drawInstancedSpheres]: no object is created
    and no buffer is filled. *)
Lemma drawInstancedMesh_run sm mesh e :
  exists cs,
    snd (drawInstancedMesh sm mesh e) = log cs e
    /\ (forall b, Trace.drawsOn b cs = instanced sm mesh)
    /\ flat_map Trace.named cs = []
    /\ Trace.vertexUploads cs = [] /\ Trace.indexUploads cs = [].
Proof.
  unfold drawInstancedMesh, instanced.
  destruct (negb (isPointCloud mesh) || (vertexCount mesh =? 0)).
  - exists []. unfold ret. cbn [snd]. rewrite PointLoopFacts.log_nil. repeat split.
  - unfold seq. do 2 step_call. cbn [callAll]. unfold seq. do 16 step_call.
    unfold ret. cbn [snd]. rewrite !PointLoopFacts.log_log. cbn [app].
    eexists. split; [reflexivity|]. repeat split.
Qed.

Lemma forEachM_drawInstancedMesh sm l :
  forall e,
  exists cs,
    snd (forEachM (drawInstancedMesh sm) l e) = log cs e
    /\ (forall b, Trace.drawsOn b cs = flat_map (instanced sm) l)
    /\ flat_map Trace.named cs = []
    /\ Trace.vertexUploads cs = [] /\ Trace.indexUploads cs = [].
Proof.
  induction l as [|mesh rest IH]; intros e.
  - exists []. cbn. rewrite PointLoopFacts.log_nil. repeat split.
  - rewrite GLFacts.forEachM_cons.
    destruct (drawInstancedMesh_run sm mesh e) as (cs1 & H1 & Hd1 & Hn1 & Hv1 & Hi1).
    destruct (drawInstancedMesh sm mesh e) as [u e1]. cbn [snd] in H1. subst e1.
    destruct (IH (log cs1 e)) as (cs2 & H2 & Hd2 & Hn2 & Hv2 & Hi2).
    destruct (forEachM (drawInstancedMesh sm) rest (log cs1 e)) as [us e2].
    cbn [snd] in *. subst e2. exists (cs1 ++ cs2).
    split; [apply PointLoopFacts.log_log|].
    cbn [flat_map]. split; [intros b; now rewrite drawsOn_app, Hd1, Hd2|].
    rewrite flat_map_app, GLFacts.vertexUploads_app, GLFacts.indexUploads_app,
      Hn1, Hn2, Hv1, Hv2, Hi1, Hi2. repeat split.
Qed.

(** [drawInstancedSpheres] on a model whose sphere mesh is in place. *)
Lemma drawInstancedSpheres_ready m radius e :
  sm_initialized (mSphereMesh m) = true ->
  valid (sm_vao (mSphereMesh m)) = true ->
  exists cs,
    drawInstancedSpheres m radius e
    = (mk (mMeshes m) (mMin m) (mMax m) (mScalarMin m) (mScalarMax m)
          (mSpatialIndex m) (mSphereMesh m),
       log cs e)
    /\ (forall b, Trace.drawsOn b cs = flat_map (instanced (mSphereMesh m)) (mMeshes m))
    /\ flat_map Trace.named cs = []
    /\ Trace.vertexUploads cs = [] /\ Trace.indexUploads cs = [].
Proof.
  intros Hinit Hvalid. unfold drawInstancedSpheres. rewrite Hinit.
  cbn [negb]. unfold seq at 1. unfold ret at 1. rewrite Hvalid. cbn [negb].
  unfold seq.
  destruct (forEachM_drawInstancedMesh (mSphereMesh m) (mMeshes m) e)
    as (cs & He & Hd & Hn & Hv & Hi).
  destruct (forEachM (drawInstancedMesh (mSphereMesh m)) (mMeshes m) e) as [us e1].
  cbn [snd] in He. subst e1. step_call. unfold ret.
  rewrite PointLoopFacts.log_log. exists (cs ++ [glBindVertexArray 0]).
  split; [reflexivity|]. split.
  { intros b. rewrite drawsOn_app, Hd. cbn [Trace.drawsOn]. apply app_nil_r. }
  rewrite flat_map_app, GLFacts.vertexUploads_app, GLFacts.indexUploads_app,
    Hn, Hv, Hi. repeat split.
Qed.

(** [generateSphereMesh] on a sphere mesh that was not generated yet. *)
Lemma generateSphereMesh_fresh subdivisions sm e :
  sm_initialized sm = false ->
  sm_initialized (fst (generateSphereMesh subdivisions sm e)) = true
  /\ valid (sm_vao (fst (generateSphereMesh subdivisions sm e))) = true.
Proof.
  intros Hinit. unfold generateSphereMesh. rewrite Hinit.
  destruct sm as [vao0 vbo0 ebo0 ic u16 ini], e as [ln cs0 w s1 s2 s3 sp].
  cbn [sm_vao sm_vbo sm_ebo]. unfold createVertexArray, createBuffer, valid.
  destruct (N.eqb_spec vao0 0) as [Hz|Hnz]; destruct (vbo0 =? 0), (ebo0 =? 0);
    gl_run; cbn [sm_initialized sm_vao]; (split; [reflexivity|]);
    apply negb_true_iff, N.eqb_neq; first [exact Hnz | apply N.neq_succ_0].
Qed.

Lemma drawInstancedSpheres_first m radius e :
  sm_initialized (mSphereMesh m) = false ->
  exists sm e',
    drawInstancedSpheres m radius e
    = (mk (mMeshes m) (mMin m) (mMax m) (mScalarMin m) (mScalarMax m)
          (mSpatialIndex m) sm, e')
    /\ sm_initialized sm = true /\ valid (sm_vao sm) = true.
Proof.
  intros Hinit. unfold drawInstancedSpheres. rewrite Hinit. cbn [negb].
  unfold seq at 1.
  destruct (generateSphereMesh_fresh 2 (mSphereMesh m) e Hinit) as [Hi Hv].
  destruct (generateSphereMesh 2 (mSphereMesh m) e) as [sm e1]. cbn [fst] in Hi, Hv.
  rewrite Hv. cbn [negb]. unfold seq.
  destruct (forEachM (drawInstancedMesh sm) (mMeshes m) e1) as [us e2].
  destruct (call (glBindVertexArray 0) e2) as [u e3].
  unfold ret. exists sm, e3. repeat split; assumption.
Qed.

End InstancedFacts.

(** X13. [drawInstancedSpheres] generates the sphere mesh on its first call
    and never again: a later call creates no object and fills no buffer,
    keeps the sphere mesh, and issues one instanced draw per point-cloud
    mesh that has vertices, on the sphere's vertex array, with one
    instance per vertex of that mesh. *)
Theorem drawInstancedSpheres_generates_the_sphere_once :
  forall (m : Model.t) (radius radius' : float) (e : GL.Env) (bound : GL.GlId),
    Model.sm_initialized (Model.mSphereMesh m) = false ->
    let m1 := fst (Model.drawInstancedSpheres m radius e) in
    let e1 := snd (Model.drawInstancedSpheres m radius e) in
    let cs := GL.issued (Model.drawInstancedSpheres m1 radius') e1 in
    Model.sm_initialized (Model.mSphereMesh m1) = true
    /\ flat_map Trace.named cs = []
    /\ Trace.vertexUploads cs = [] /\ Trace.indexUploads cs = []
    /\ Model.mSphereMesh (fst (Model.drawInstancedSpheres m1 radius' e1))
       = Model.mSphereMesh m1
    /\ Trace.drawsOn bound cs
       = flat_map (DrawShape.instanced (Model.mSphereMesh m1)) (Model.mMeshes m).
Proof.
  intros m r r' e b Hinit m1 e1 cs.
  destruct (InstancedFacts.drawInstancedSpheres_first m r e Hinit)
    as (sm & e' & Hfirst & Hi & Hv).
  assert (Hms : Model.mMeshes m1 = Model.mMeshes m)
    by (subst m1; now rewrite Hfirst).
  assert (Hsm : Model.mSphereMesh m1 = sm) by (subst m1; now rewrite Hfirst).
  rewrite <- Hsm in Hi, Hv.
  destruct (InstancedFacts.drawInstancedSpheres_ready m1 r' e1 Hi Hv)
    as (cs' & Hrun & Hd & Hn & Hvu & Hiu).
  subst cs. rewrite (PointLoopFacts.issued_log _ _ cs') by now rewrite Hrun.
  rewrite Hrun, <- Hms. cbn [fst Model.mSphereMesh]. repeat split; auto.
Qed.

Lemma drawInstancedSpheres_generates_the_sphere_once_witness :
  let m1 := fst (Model.drawInstancedSpheres Examples.twoCloudModel F32.one
                                            GL.initial) in
  let e1 := snd (Model.drawInstancedSpheres Examples.twoCloudModel F32.one
                                            GL.initial) in
  let cs := GL.issued (Model.drawInstancedSpheres m1 F32.one) e1 in
  Model.sm_initialized (Model.mSphereMesh m1) = true
  /\ flat_map Trace.named cs = []
  /\ Trace.vertexUploads cs = [] /\ Trace.indexUploads cs = []
  /\ Model.mSphereMesh (fst (Model.drawInstancedSpheres m1 F32.one e1))
     = Model.mSphereMesh m1
  /\ Trace.drawsOn 0%N cs
     = flat_map (DrawShape.instanced (Model.mSphereMesh m1))
                (Model.mMeshes Examples.twoCloudModel).
Proof.
  apply (drawInstancedSpheres_generates_the_sphere_once Examples.twoCloudModel
           F32.one F32.one GL.initial 0%N).
  reflexivity.
Defined.

Module CloudPassFacts.
Import GL Scene DrawShape TraceFacts DrawLoopFacts CullerFacts SceneFacts.
Local Open Scope N_scope.

(** [Scene::draw] for a point cloud drawn as plain points without the
    spatial index. *)
Lemma draw_points_run s shader sis iss frameState wireframe profData e :
  Model.isPointCloudModel (model s) = true ->
  enableFrustumCulling s = false ->
  autoLOD s = false -> pointCloudMode s = Points ->
  enableSpatialIndexing s && Model.hasSpatialIndex (model s) = false ->
  exists cs e',
    draw s shader sis iss frameState wireframe profData e
    = (s, countPoints profData (firstVertexCount (model s)), e')
    /\ calls e' = calls e ++ cs
    /\ (forall b, Trace.drawsOn b cs
                  = flat_map drawnAsPoints (Model.mMeshes (model s))).
Proof.
  intros Hpc Hfr Hlod Hmode Hindex. unfold draw, selectMode.
  rewrite Hfr, Hpc, Hlod, Hmode, Hindex. cbn [andb negb]. rewrite andb_false_r.
  cbn [andb]. unfold seq.
  destruct (updateUBOs_run s e) as (cs1 & He1 & Hd1).
  destruct ((if valid (mMatricesUBO s) then updateUBOs s else ret tt) e) as [u1 e1].
  cbn [snd] in He1. subst e1.
  destruct (use_run shader (log cs1 e)) as (cs2 & He2 & _ & Hd2).
  destruct (Shader.use shader (log cs1 e)) as [u2 e2]. cbn [snd] in He2.
  rewrite calls_log in He2.
  destruct e2 as [ln cs0 w s1 s2 s3 sp]. cbn [calls] in He2.
  destruct (PointLoopFacts.drawPoints_env (model s) (pointSize s) ln cs0 w s1 s2 s3 sp)
    as (cs3 & He3 & Hd3 & _).
  destruct (Model.drawPoints (model s) (pointSize s)
              (mkEnv ln cs0 w s1 s2 s3 sp)) as [u3 e3].
  cbn [snd] in He3. unfold ret.
  eexists _, e3. split; [reflexivity|]. subst e3 cs0. cbn [calls].
  split; [rewrite <- !app_assoc; reflexivity|].
  intros b. rewrite Hd1, Hd2, drawsOn_app.
  assert (Hsize : forall b',
             Trace.drawsOn b' (if Model.differs (pointSize s) s1
                               then [glPointSize (pointSize s)] else []) = []
             /\ Trace.boundAfter b' (if Model.differs (pointSize s) s1
                                     then [glPointSize (pointSize s)] else []) = b')
    by (intros b'; destruct (Model.differs (pointSize s) s1); split; reflexivity).
  destruct (Hsize b) as [-> ->]. cbn [app].
  rewrite drawsOn_app, Hd3. cbn [Trace.drawsOn]. apply app_nil_r.
Qed.

End CloudPassFacts.

(** X15. For a point cloud drawn as plain points without the spatial
    index, [Scene::draw] draws every mesh of the model that has a vertex
    array and vertices, whatever the occlusion toggle, but its profile
    counts one draw call and the vertices of the first mesh only. *)
Theorem draw_profiles_the_first_mesh_of_a_cloud :
  forall (s : Scene.t) (shader : Shader.t)
         (sphereImpostorShader instancedSphereShader : option Shader.t)
         (frameState : FrameState) (wireframe : bool) (p : Scene.ProfilingData)
         (e : GL.Env) (bound : GL.GlId),
    Model.isPointCloudModel (Scene.model s) = true ->
    Scene.enableFrustumCulling s = false ->
    Scene.autoLOD s = false ->
    Scene.pointCloudMode s = Points ->
    Scene.enableSpatialIndexing s && Model.hasSpatialIndex (Scene.model s) = false ->
    let r := Scene.draw s shader sphereImpostorShader instancedSphereShader
                        frameState wireframe (Some p) e in
    Trace.drawsOn bound
      (GL.issued (Scene.draw s shader sphereImpostorShader instancedSphereShader
                             frameState wireframe (Some p)) e)
    = flat_map DrawShape.drawnAsPoints (Model.mMeshes (Scene.model s))
    /\ snd (fst r)
       = Some (Scene.mkProfilingData
                 (uint_succ (Scene.drawCalls p)) (Scene.triangles p)
                 ((Scene.points p + Scene.firstVertexCount (Scene.model s))
                  mod UINT_WRAP)%N).
Proof.
  intros s sh sis iss fs wire p e b Hpc Hfr Hlod Hmode Hindex r.
  destruct (CloudPassFacts.draw_points_run s sh sis iss fs wire (Some p) e
              Hpc Hfr Hlod Hmode Hindex) as (cs & e' & Hrun & Hc & Hd).
  subst r. unfold GL.issued. rewrite Hrun. cbn [fst snd]. rewrite Hc.
  rewrite skipn_app, skipn_all, Nat.sub_diag. cbn [skipn app].
  split; [apply Hd|reflexivity].
Qed.

Lemma draw_profiles_the_first_mesh_of_a_cloud_witness :
  let r := Scene.draw Examples.cloudScene Examples.depthShader None None
                      Examples.frame false (Some Examples.counters0) GL.initial in
  Trace.drawsOn 0%N
    (GL.issued (Scene.draw Examples.cloudScene Examples.depthShader None None
                           Examples.frame false (Some Examples.counters0))
               GL.initial)
  = flat_map DrawShape.drawnAsPoints
             (Model.mMeshes (Scene.model Examples.cloudScene))
  /\ snd (fst r)
     = Some (Scene.mkProfilingData
               (uint_succ (Scene.drawCalls Examples.counters0))
               (Scene.triangles Examples.counters0)
               ((Scene.points Examples.counters0
                 + Scene.firstVertexCount (Scene.model Examples.cloudScene))
                mod UINT_WRAP)%N).
Proof.
  apply (draw_profiles_the_first_mesh_of_a_cloud Examples.cloudScene
           Examples.depthShader None None Examples.frame false Examples.counters0
           GL.initial 0%N); reflexivity.
Defined.
